(** * Bob Sport Tracker: the analytical core, embedded and verified

    A shallow embedding of the computation layer of the tracker:
    - [utils/statistics.ts]       (statistics engine),
    - [utils/zoneCalculations.ts] (training-zone classifier),
    - [utils/recordDetection.ts]  (personal-record detector),
    - [utils/periodCalculations.ts] and [services/periodStats.ts]
      (period calculator and period/trend aggregator),
    - [services/trainingZones.ts] (analysis of an activity by zones).

    Conventions of the embedding.
    - A JavaScript [number] is a rational ([Q]).  Where a result depends
      on the rounding of the binary representation, the operations are
      rounded to the nearest double by [fl] (ties to even, exponent not
      bounded): so in [calculateZonePercentages], whose whole-number
      percentages change with the last bit of a share.  Elsewhere the
      arithmetic is exact, and a statement is either one that rounding
      does not change (a comparison, a membership, two results of the same
      expression) or carries the hypotheses under which the arithmetic of
      the doubles is exact: whole numbers whose sums stay at or below
      2^53.  Overflow to [Infinity] is not modelled.
    - [Q] has no [Infinity] or [NaN]: a quotient is [Qdiv], which agrees
      with JavaScript whenever the divisor is not zero, and every statement
      that depends on a quotient carries that hypothesis (or the code
      guards it); in [calculateTrend], where the divisor may be zero, the
      result is a [Number.t].
    - [x?: number] is [option Q]; the truthiness test [!x] holds for an
      absent value and for zero.
    - A [Date] of an activity or trackpoint is its epoch time in
      milliseconds ([Z]); a computed [Date] that may be the invalid date is
      an [option Z].
    - A thrown [TypeError] is [Throw] in the exception monad [Exn].
    - A [Map] is the list of its entries in the order of insertion; an
      object used as a dictionary is a [gmap], which agrees with JavaScript
      on the keys that an object does not inherit.
    - The display text [message] of a detection result is not modelled
      (it is not read by any function of the core). *)

From Stdlib Require Import ZArith QArith Qround Qabs Qminmax List String Lia Lqa Bool.
From Stdlib Require Import DecimalString Qpower.
From stdpp Require Import base gmap strings.
Import ListNotations.
Open Scope Q_scope.

(** ** JavaScript numbers and [Math] *)

Definition Qltb (x y : Q) : bool := negb (Qle_bool y x).
Definition Qgtb (x y : Q) : bool := Qltb y x.
Definition Qgeb (x y : Q) : bool := Qle_bool y x.

(** [x || d] for [x : number | undefined]. *)
Definition or_else (x : option Q) (d : Q) : Q :=
  match x with
  | Some v => if Qeq_bool v 0 then d else v
  | None => d
  end.

(** [Math.round]: the nearest integer, a half rounding towards +infinity. *)
Definition Math_round (x : Q) : Q := inject_Z (Qfloor (x + (1 # 2))).

(** *** Rounding to a double

    The result of an arithmetic operation is the double nearest to the
    exact result, a tie going to the even significand (IEEE 754 binary64;
    the range of the exponent is not bounded here, so that overflow and
    underflow are not modelled).  [fl] is used where a stated property
    depends on this rounding. *)

(** The nearest whole number, a half going to the even one. *)
Definition round_half_even (x : Q) : Z :=
  let f := Qfloor x in
  match Qcompare (x - inject_Z f) (1 # 2) with
  | Lt => f
  | Gt => (f + 1)%Z
  | Eq => if Z.even f then f else (f + 1)%Z
  end.

(** The exponent [b] with [2^b <= x < 2^(b+1)], for a positive [x]. *)
Definition binade (x : Q) : Z :=
  let k := (Z.log2 (Qnum x) - Z.log2 (Zpos (Qden x)))%Z in
  if Qle_bool (2 ^ k) x then k else (k - 1)%Z.

(** The nearest number with a significand of 53 bits. *)
Definition fl (x : Q) : Q :=
  if Qeq_bool x 0 then 0 else
  let a := Qred (Qabs x) in
  let e := (binade a - 52)%Z in
  let m := inject_Z (round_half_even (a / 2 ^ e)) * 2 ^ e in
  if Qle_bool 0 x then m else - m.

(** The unit roundoff [2^-53]. *)
Definition epsilon : Q := 1 # 9007199254740992.

(** [Math.max(...l)] and [Math.min(...l)]; [None] is the infinite value that
    JavaScript returns on an empty argument list. *)
Definition Math_max (l : list Q) : option Q :=
  match l with
  | [] => None
  | x :: xs => Some (fold_left Qmax xs x)
  end.

Definition Math_min (l : list Q) : option Q :=
  match l with
  | [] => None
  | x :: xs => Some (fold_left Qmin xs x)
  end.

(** [l.reduce((sum, x) => sum + x, 0)]. *)
Definition sum_reduce (l : list Q) : Q := fold_left Qplus l 0.

(** [l.length] as a number. *)
Definition len {A : Type} (l : list A) : Q := inject_Z (Z.of_nat (length l)).

(** [l.map(f).filter(x => x !== undefined)]. *)
Definition present {A : Type} (f : A -> option Q) (l : list A) : list Q :=
  flat_map (fun a => match f a with Some v => [v] | None => [] end) l.

(** ** Activities ([types/activity.ts]) *)

Module Trackpoint.
Record t := mk {
  time : Z;
  latitude : option Q;
  longitude : option Q;
  altitude : option Q;
  distance : option Q;
  heartRate : option Q;
  cadence : option Q;
  speed : option Q;
  power : option Q
}.
End Trackpoint.

Module Lap.
Record t := mk {
  startTime : Z;
  totalTimeSeconds : Q;
  distanceMeters : Q;
  maximumSpeed : option Q;
  calories : option Q;
  averageHeartRate : option Q;
  maximumHeartRate : option Q;
  cadence : option Q;
  trackpoints : list Trackpoint.t
}.
End Lap.

Module Activity.
Record t := mk {
  id : string;
  sport : string;
  startTime : Z;
  totalTimeSeconds : Q;
  distanceMeters : Q;
  calories : option Q;
  notes : option string;
  laps : list Lap.t
}.
End Activity.

Module Statistics.
Record t := mk {
  totalDistance : Q;
  totalTime : Q;
  averageSpeed : Q;
  maxSpeed : Q;
  averageHeartRate : option Q;
  maxHeartRate : option Q;
  minHeartRate : option Q;
  averageCadence : option Q;
  maxCadence : option Q;
  totalCalories : option Q;
  elevationGain : option Q;
  elevationLoss : option Q;
  minAltitude : option Q;
  maxAltitude : option Q;
  averagePace : option Q;
  maxPace : option Q
}.
End Statistics.

(** ** Statistics engine ([utils/statistics.ts]) *)

(** The trackpoints of all laps, in order. *)
Definition allTrackpoints (activity : Activity.t) : list Trackpoint.t :=
  flat_map Lap.trackpoints (Activity.laps activity).

(** The loop over consecutive altitude samples: [prev] is [altitudes[i-1]],
    the pair is [(elevationGain, elevationLoss)]. *)
Fixpoint elevation_loop (prev : Q) (rest : list Q) (acc : Q * Q) : Q * Q :=
  match rest with
  | [] => acc
  | a :: rest' =>
      let diff := a - prev in
      elevation_loop a rest'
        (if Qgtb diff 0 then (fst acc + diff, snd acc)
         else (fst acc, snd acc + Qabs diff))
  end.

Definition elevation (altitudes : list Q) : Q * Q :=
  match altitudes with
  | [] => (0, 0)
  | a :: rest => elevation_loop a rest (0, 0)
  end.

(** The mean of a list that is not empty, [undefined] otherwise. *)
Definition average (l : list Q) : option Q :=
  match l with
  | [] => None
  | _ => Some (sum_reduce l / len l)
  end.

Definition pace (speed : Q) : option Q :=
  if Qgtb speed 0 then Some (1000 / (speed * 60)) else None.

Definition calculateStatistics (activity : Activity.t) : Statistics.t :=
  match allTrackpoints activity with
  | [] =>
      {| Statistics.totalDistance := Activity.distanceMeters activity;
         Statistics.totalTime := Activity.totalTimeSeconds activity;
         Statistics.averageSpeed :=
           Activity.distanceMeters activity / Activity.totalTimeSeconds activity;
         Statistics.maxSpeed := 0;
         Statistics.averageHeartRate := None;
         Statistics.maxHeartRate := None;
         Statistics.minHeartRate := None;
         Statistics.averageCadence := None;
         Statistics.maxCadence := None;
         Statistics.totalCalories := Activity.calories activity;
         Statistics.elevationGain := None;
         Statistics.elevationLoss := None;
         Statistics.minAltitude := None;
         Statistics.maxAltitude := None;
         Statistics.averagePace := None;
         Statistics.maxPace := None |}
  | tps =>
      let heartRates := present Trackpoint.heartRate tps in
      let cadences := present Trackpoint.cadence tps in
      let altitudes := present Trackpoint.altitude tps in
      let '(elevationGain, elevationLoss) := elevation altitudes in
      let speeds :=
        List.filter (fun s => Qgtb s 0) (present Trackpoint.speed tps) in
      let '(maxSpeed, averageSpeed) :=
        match Math_max speeds with
        | Some m => (m, sum_reduce speeds / len speeds)
        | None =>
            (match Math_max (map (fun lap => or_else (Lap.maximumSpeed lap) 0)
                                 (Activity.laps activity)) with
             | Some m => m
             | None => 0 (* not reached: some lap holds a trackpoint *)
             end,
             Activity.distanceMeters activity / Activity.totalTimeSeconds activity)
        end in
      {| Statistics.totalDistance := Activity.distanceMeters activity;
         Statistics.totalTime := Activity.totalTimeSeconds activity;
         Statistics.averageSpeed := averageSpeed;
         Statistics.maxSpeed := maxSpeed;
         Statistics.averageHeartRate := average heartRates;
         Statistics.maxHeartRate := Math_max heartRates;
         Statistics.minHeartRate := Math_min heartRates;
         Statistics.averageCadence := average cadences;
         Statistics.maxCadence := Math_max cadences;
         Statistics.totalCalories := Activity.calories activity;
         Statistics.elevationGain :=
           if Qgtb elevationGain 0 then Some elevationGain else None;
         Statistics.elevationLoss :=
           if Qgtb elevationLoss 0 then Some elevationLoss else None;
         Statistics.minAltitude := Math_min altitudes;
         Statistics.maxAltitude := Math_max altitudes;
         Statistics.averagePace := pace averageSpeed;
         Statistics.maxPace := pace maxSpeed |}
  end.

(** ** Training zones ([types/trainingZones.ts]) *)

Inductive ZoneNumber := Zone1 | Zone2 | Zone3 | Zone4 | Zone5.

Definition zone_index (z : ZoneNumber) : nat :=
  match z with
  | Zone1 => 1 | Zone2 => 2 | Zone3 => 3 | Zone4 => 4 | Zone5 => 5
  end.

Inductive ZoneCalculationMethod := age | karvonen | manual.

Inductive TrainingType :=
  recovery | endurance | tempo | threshold | interval | mixed | unknown.

Module HeartRateZone.
Record t := mk {
  zone : ZoneNumber;
  name : string;
  description : string;
  minHR : Q;
  maxHR : Q;
  minPercent : Q;
  maxPercent : Q;
  color : string;
  benefits : list string;
  recommendations : string
}.
End HeartRateZone.

Module ZoneDistribution.
Record t := mk {
  zone1 : Q; zone2 : Q; zone3 : Q; zone4 : Q; zone5 : Q; unknown : Q
}.
End ZoneDistribution.

Module ZonePercentages.
Record t := mk {
  zone1 : Q; zone2 : Q; zone3 : Q; zone4 : Q; zone5 : Q; unknown : Q
}.
End ZonePercentages.

Definition ZONE_COLORS (z : ZoneNumber) : string :=
  match z with
  | Zone1 => "#3B82F6" | Zone2 => "#10B981" | Zone3 => "#F59E0B"
  | Zone4 => "#F97316" | Zone5 => "#EF4444"
  end.

Definition ZONE_NAMES (z : ZoneNumber) : string :=
  match z with
  | Zone1 => "Récupération" | Zone2 => "Endurance" | Zone3 => "Tempo"
  | Zone4 => "Seuil" | Zone5 => "VO2 Max"
  end.

Definition ZONE_DESCRIPTIONS (z : ZoneNumber) : string :=
  match z with
  | Zone1 => "Récupération active, conversation facile"
  | Zone2 => "Endurance de base, développement aérobie"
  | Zone3 => "Tempo confortable, amélioration aérobie"
  | Zone4 => "Seuil lactique, effort soutenu"
  | Zone5 => "Puissance maximale, intervalles courts"
  end.

(** [ZONE_PERCENTAGES]: the pair is [(min, max)]. *)
Definition ZONE_PERCENTAGES (z : ZoneNumber) : Q * Q :=
  match z with
  | Zone1 => (50, 60) | Zone2 => (60, 70) | Zone3 => (70, 80)
  | Zone4 => (80, 90) | Zone5 => (90, 100)
  end.

(** ** Training-zone classifier ([utils/zoneCalculations.ts]) *)

Definition calculateMaxHRFromAge (age : Q) : Q := Math_round (220 - age).

Definition calculateHRReserve (maxHR restingHR : Q) : Q := maxHR - restingHR.

Definition calculateTargetHRKarvonen (maxHR restingHR intensityPercent : Q) : Q :=
  let hrReserve := calculateHRReserve maxHR restingHR in
  Math_round (hrReserve * (intensityPercent / 100) + restingHR).

Definition getZoneBenefits (z : ZoneNumber) : list string :=
  match z with
  | Zone1 => ["Récupération active"; "Amélioration de la circulation";
              "Préparation à l'effort"]
  | Zone2 => ["Développement de l'endurance de base";
              "Amélioration du métabolisme des graisses";
              "Renforcement cardiovasculaire"]
  | Zone3 => ["Amélioration de l'efficacité aérobie";
              "Augmentation de la capacité lactique";
              "Développement de l'endurance"]
  | Zone4 => ["Amélioration du seuil lactique";
              "Augmentation de la vitesse de course";
              "Développement de la puissance"]
  | Zone5 => ["Amélioration de la VO2 max";
              "Développement de la puissance maximale";
              "Amélioration de la vitesse"]
  end.

Definition getZoneRecommendations (z : ZoneNumber) : string :=
  match z with
  | Zone1 => "Idéal pour la récupération entre les séances intenses. Durée : 20-60 minutes."
  | Zone2 => "Base de l'entraînement. 70-80% du volume total. Durée : 45-120 minutes."
  | Zone3 => "Séances tempo 1-2 fois par semaine. Durée : 20-60 minutes."
  | Zone4 => "Intervalles au seuil 1 fois par semaine. Durée : 10-30 minutes cumulées."
  | Zone5 => "Intervalles courts et intenses. Maximum 1-2 fois par semaine. Durée : 5-15 minutes cumulées."
  end.

Definition defineZones (maxHR : Q) (restingHR : option Q)
    (method : ZoneCalculationMethod) : list HeartRateZone.t :=
  map (fun zone =>
         let percentRange := ZONE_PERCENTAGES zone in
         let '(minHR, maxHR_zone) :=
           match method, restingHR with
           | karvonen, Some resting =>
               if Qeq_bool resting 0
               then (Math_round (maxHR * (fst percentRange / 100)),
                     Math_round (maxHR * (snd percentRange / 100)))
               else (calculateTargetHRKarvonen maxHR resting (fst percentRange),
                     calculateTargetHRKarvonen maxHR resting (snd percentRange))
           | _, _ =>
               (Math_round (maxHR * (fst percentRange / 100)),
                Math_round (maxHR * (snd percentRange / 100)))
           end in
         {| HeartRateZone.zone := zone;
            HeartRateZone.name := ZONE_NAMES zone;
            HeartRateZone.description := ZONE_DESCRIPTIONS zone;
            HeartRateZone.minHR := minHR;
            HeartRateZone.maxHR := maxHR_zone;
            HeartRateZone.minPercent := fst percentRange;
            HeartRateZone.maxPercent := snd percentRange;
            HeartRateZone.color := ZONE_COLORS zone;
            HeartRateZone.benefits := getZoneBenefits zone;
            HeartRateZone.recommendations := getZoneRecommendations zone |})
      [Zone1; Zone2; Zone3; Zone4; Zone5].

(** Exceptions: [zones[4].maxHR] throws a [TypeError] when the array is
    shorter than five. *)
Inductive Exn (A : Type) : Type :=
| Return (a : A)
| Throw.
Arguments Return {A} a.
Arguments Throw {A}.

Definition bind {A B : Type} (m : Exn A) (k : A -> Exn B) : Exn B :=
  match m with
  | Return a => k a
  | Throw => Throw
  end.

Notation "'let!' x ':=' m 'in' k" := (bind m (fun x => k))
  (at level 10, x name, m at level 200, k at level 200).

Definition index {A : Type} (l : list A) (i : nat) : Exn A :=
  match nth_error l i with
  | Some a => Return a
  | None => Throw
  end.

(** The test of the loop of [getZoneForHeartRate]. *)
Definition in_zone (heartRate : Q) (zone : HeartRateZone.t) : bool :=
  Qgeb heartRate (HeartRateZone.minHR zone)
  && Qle_bool heartRate (HeartRateZone.maxHR zone).

Definition getZoneForHeartRate (heartRate : Q) (zones : list HeartRateZone.t)
    : Exn (option ZoneNumber) :=
  match find (in_zone heartRate) zones with
  | Some zone => Return (Some (HeartRateZone.zone zone))
  | None =>
      let! z5 := index zones 4 in
      if Qgtb heartRate (HeartRateZone.maxHR z5) then Return (Some Zone5)
      else
        let! z1 := index zones 0 in
        if Qltb heartRate (HeartRateZone.minHR z1) then Return (Some Zone1)
        else Return None
  end.

(** The pairs [{ hr, duration }] collected from one lap: one per trackpoint
    that has a successor in the same lap. *)
Fixpoint lap_intervals (tps : list Trackpoint.t) : list (option Q * Q) :=
  match tps with
  | current :: (next :: _) as rest =>
      (Trackpoint.heartRate current,
       inject_Z (Trackpoint.time next - Trackpoint.time current) / 1000)
      :: lap_intervals rest
  | _ => []
  end.

Definition add_unknown (d : ZoneDistribution.t) (duration : Q) : ZoneDistribution.t :=
  {| ZoneDistribution.zone1 := ZoneDistribution.zone1 d;
     ZoneDistribution.zone2 := ZoneDistribution.zone2 d;
     ZoneDistribution.zone3 := ZoneDistribution.zone3 d;
     ZoneDistribution.zone4 := ZoneDistribution.zone4 d;
     ZoneDistribution.zone5 := ZoneDistribution.zone5 d;
     ZoneDistribution.unknown := ZoneDistribution.unknown d + duration |}.

(** [distribution[`zone${zone}`] += duration]. *)
Definition add_zone (d : ZoneDistribution.t) (zone : ZoneNumber) (duration : Q)
    : ZoneDistribution.t :=
  let bump (z : ZoneNumber) (v : Q) :=
    if Nat.eqb (zone_index z) (zone_index zone) then v + duration else v in
  {| ZoneDistribution.zone1 := bump Zone1 (ZoneDistribution.zone1 d);
     ZoneDistribution.zone2 := bump Zone2 (ZoneDistribution.zone2 d);
     ZoneDistribution.zone3 := bump Zone3 (ZoneDistribution.zone3 d);
     ZoneDistribution.zone4 := bump Zone4 (ZoneDistribution.zone4 d);
     ZoneDistribution.zone5 := bump Zone5 (ZoneDistribution.zone5 d);
     ZoneDistribution.unknown := ZoneDistribution.unknown d |}.

(** The body of the second [forEach] of [calculateTimeInZones]. *)
Definition attribute (zones : list HeartRateZone.t) (distribution : ZoneDistribution.t)
    (tp : option Q * Q) : Exn ZoneDistribution.t :=
  let '(hr, duration) := tp in
  match hr with
  | None => Return (add_unknown distribution duration)
  | Some h =>
      if Qeq_bool h 0 then Return (add_unknown distribution duration)
      else
        let! zone := getZoneForHeartRate h zones in
        match zone with
        | None => Return (add_unknown distribution duration)
        | Some z => Return (add_zone distribution z duration)
        end
  end.

Fixpoint forEach {A S : Type} (f : S -> A -> Exn S) (l : list A) (s : S) : Exn S :=
  match l with
  | [] => Return s
  | a :: l' => let! s' := f s a in forEach f l' s'
  end.

Definition empty_distribution : ZoneDistribution.t :=
  {| ZoneDistribution.zone1 := 0; ZoneDistribution.zone2 := 0;
     ZoneDistribution.zone3 := 0; ZoneDistribution.zone4 := 0;
     ZoneDistribution.zone5 := 0; ZoneDistribution.unknown := 0 |}.

Definition calculateTimeInZones (activity : Activity.t) (zones : list HeartRateZone.t)
    : Exn ZoneDistribution.t :=
  let trackpoints :=
    flat_map (fun lap => lap_intervals (Lap.trackpoints lap)) (Activity.laps activity) in
  forEach (attribute zones) trackpoints empty_distribution.

Definition distribution_values (d : ZoneDistribution.t) : list Q :=
  [ZoneDistribution.zone1 d; ZoneDistribution.zone2 d; ZoneDistribution.zone3 d;
   ZoneDistribution.zone4 d; ZoneDistribution.zone5 d; ZoneDistribution.unknown d].

(** Each division and multiplication, and each addition of the total, is
    rounded to a double. *)
Definition calculateZonePercentages (distribution : ZoneDistribution.t)
    : ZonePercentages.t :=
  let total :=
    fold_left (fun sum time => fl (sum + time)) (distribution_values distribution) 0 in
  if Qeq_bool total 0 then
    {| ZonePercentages.zone1 := 0; ZonePercentages.zone2 := 0;
       ZonePercentages.zone3 := 0; ZonePercentages.zone4 := 0;
       ZonePercentages.zone5 := 0; ZonePercentages.unknown := 0 |}
  else
    {| ZonePercentages.zone1 :=
         Math_round (fl (fl (ZoneDistribution.zone1 distribution / total) * 100));
       ZonePercentages.zone2 :=
         Math_round (fl (fl (ZoneDistribution.zone2 distribution / total) * 100));
       ZonePercentages.zone3 :=
         Math_round (fl (fl (ZoneDistribution.zone3 distribution / total) * 100));
       ZonePercentages.zone4 :=
         Math_round (fl (fl (ZoneDistribution.zone4 distribution / total) * 100));
       ZonePercentages.zone5 :=
         Math_round (fl (fl (ZoneDistribution.zone5 distribution / total) * 100));
       ZonePercentages.unknown :=
         Math_round (fl (fl (ZoneDistribution.unknown distribution / total) * 100)) |}.

(** [zones.reduce((max, current) => current.time > max.time ? current : max)]
    over the five zones, without the unknown bucket. *)
Definition getDominantZone (distribution : ZoneDistribution.t) : option ZoneNumber :=
  let zones :=
    [(Zone2, ZoneDistribution.zone2 distribution);
     (Zone3, ZoneDistribution.zone3 distribution);
     (Zone4, ZoneDistribution.zone4 distribution);
     (Zone5, ZoneDistribution.zone5 distribution)] in
  let maxZone :=
    fold_left (fun max current => if Qgtb (snd current) (snd max) then current else max)
      zones (Zone1, ZoneDistribution.zone1 distribution) in
  if Qgtb (snd maxZone) 0 then Some (fst maxZone) else None.

Definition determineTrainingType (percentages : ZonePercentages.t) : TrainingType :=
  let z1 := ZonePercentages.zone1 percentages in
  let z2 := ZonePercentages.zone2 percentages in
  let z3 := ZonePercentages.zone3 percentages in
  let z4 := ZonePercentages.zone4 percentages in
  let z5 := ZonePercentages.zone5 percentages in
  if Qgtb (z1 + z2) 60 && Qgtb z1 z2 then recovery
  else if Qgtb (z2 + z3) 70 && Qgtb z2 z3 then endurance
  else if Qgtb (z3 + z4) 50 && Qgtb z3 z4 then tempo
  else if Qgtb z4 40 then threshold
  else if Qgtb z5 20 || (Qgtb (z4 + z5) 50 && Qgtb z5 15) then interval
  else if Qltb (ZonePercentages.unknown percentages) 50 then mixed
  else unknown.

(** ** Personal records ([types/records.ts]) *)

Module RecordType.
Inductive t := distance | speed | pace | time | elevation | calories | heartRate.

#[global] Instance eq_dec : EqDecision t.
Proof. solve_decision. Defined.

(** The string of the TypeScript literal type. *)
Definition to_string (ty : t) : string :=
  match ty with
  | distance => "distance" | speed => "speed" | pace => "pace" | time => "time"
  | elevation => "elevation" | calories => "calories" | heartRate => "heartRate"
  end.
End RecordType.

Module RecordCategory.
(** ['1km'], ['5km'] and ['10km'] are [km1], [km5] and [km10]. *)
Inductive t :=
  km1 | km5 | km10 | halfMarathon | marathon | longest | fastest | highest.

#[global] Instance eq_dec : EqDecision t.
Proof. solve_decision. Defined.

Definition to_string (c : t) : string :=
  match c with
  | km1 => "1km" | km5 => "5km" | km10 => "10km"
  | halfMarathon => "halfMarathon" | marathon => "marathon"
  | longest => "longest" | fastest => "fastest" | highest => "highest"
  end.
End RecordCategory.

Module PersonalRecord.
Record t := mk {
  id : string;
  type : RecordType.t;
  category : RecordCategory.t;
  value : Q;
  unit : string;
  activityId : string;
  activityDate : Z;
  sport : string;
  previousValue : option Q;
  previousActivityId : option string;
  previousDate : option Z;
  improvement : option Q;
  createdAt : Z;
  isNew : option bool
}.
End PersonalRecord.

Module RecordDetectionResult.
Record t := mk {
  isRecord : bool;
  recordType : option RecordType.t;
  category : option RecordCategory.t;
  value : option Q;
  previousValue : option Q;
  improvement : option Q
}.
End RecordDetectionResult.

(** [DISTANCE_CATEGORIES], in the order of [Object.entries]:
    [(category, (min, max, label))]. *)
Definition DISTANCE_CATEGORIES : list (RecordCategory.t * (Q * Q * string)) :=
  [(RecordCategory.km1, (900, 1100, "1 km"));
   (RecordCategory.km5, (4500, 5500, "5 km"));
   (RecordCategory.km10, (9500, 10500, "10 km"));
   (RecordCategory.halfMarathon, (20000, 22000, "Semi-marathon"));
   (RecordCategory.marathon, (41000, 43000, "Marathon"))].

(** ** Personal-record detector ([utils/recordDetection.ts]) *)

(** [r.type === ty && r.category === c && r.sport === sport]. *)
Definition is_record_of (ty : RecordType.t) (c : RecordCategory.t) (sport : string)
    (r : PersonalRecord.t) : bool :=
  bool_decide (PersonalRecord.type r = ty)
  && bool_decide (PersonalRecord.category r = c)
  && bool_decide (PersonalRecord.sport r = sport).

(** [!record || v > record.value]. *)
Definition none_or_above (record : option PersonalRecord.t) (v : Q) : bool :=
  match record with
  | None => true
  | Some r => Qgtb v (PersonalRecord.value r)
  end.

(** [record ? v - record.value : v]. *)
Definition gain_over (record : option PersonalRecord.t) (v : Q) : Q :=
  match record with
  | Some r => v - PersonalRecord.value r
  | None => v
  end.

Definition detectDistanceRecords (activity : Activity.t)
    (existingRecords : list PersonalRecord.t) : list RecordDetectionResult.t :=
  let distance := Activity.distanceMeters activity in
  let longestRecord :=
    find (is_record_of RecordType.distance RecordCategory.longest (Activity.sport activity))
      existingRecords in
  if none_or_above longestRecord distance then
    [{| RecordDetectionResult.isRecord := true;
        RecordDetectionResult.recordType := Some RecordType.distance;
        RecordDetectionResult.category := Some RecordCategory.longest;
        RecordDetectionResult.value := Some distance;
        RecordDetectionResult.previousValue := option_map PersonalRecord.value longestRecord;
        RecordDetectionResult.improvement := Some (gain_over longestRecord distance) |}]
  else [].

Definition detectSpeedRecords (activity : Activity.t)
    (existingRecords : list PersonalRecord.t) : list RecordDetectionResult.t :=
  let stats := calculateStatistics activity in
  let speedRecord :=
    find (is_record_of RecordType.speed RecordCategory.fastest (Activity.sport activity))
      existingRecords in
  let avgSpeedRecord :=
    find (is_record_of RecordType.speed RecordCategory.km10 (Activity.sport activity))
      existingRecords in
  (if none_or_above speedRecord (Statistics.maxSpeed stats) then
     [{| RecordDetectionResult.isRecord := true;
         RecordDetectionResult.recordType := Some RecordType.speed;
         RecordDetectionResult.category := Some RecordCategory.fastest;
         RecordDetectionResult.value := Some (Statistics.maxSpeed stats);
         RecordDetectionResult.previousValue := option_map PersonalRecord.value speedRecord;
         RecordDetectionResult.improvement :=
           Some (gain_over speedRecord (Statistics.maxSpeed stats)) |}]
   else [])
  ++
  (if Qgeb (Activity.distanceMeters activity) 9500
      && Qle_bool (Activity.distanceMeters activity) 10500
   then
     if none_or_above avgSpeedRecord (Statistics.averageSpeed stats) then
       [{| RecordDetectionResult.isRecord := true;
           RecordDetectionResult.recordType := Some RecordType.speed;
           RecordDetectionResult.category := Some RecordCategory.km10;
           RecordDetectionResult.value := Some (Statistics.averageSpeed stats);
           RecordDetectionResult.previousValue :=
             option_map PersonalRecord.value avgSpeedRecord;
           RecordDetectionResult.improvement :=
             Some (gain_over avgSpeedRecord (Statistics.averageSpeed stats)) |}]
     else []
   else []).

Definition detectTimeRecords (activity : Activity.t)
    (existingRecords : list PersonalRecord.t) : list RecordDetectionResult.t :=
  let distance := Activity.distanceMeters activity in
  let time := Activity.totalTimeSeconds activity in
  flat_map
    (fun '(category, (min, max, label)) =>
       if Qgeb distance min && Qle_bool distance max then
         let timeRecord :=
           find (is_record_of RecordType.time category (Activity.sport activity))
             existingRecords in
         if match timeRecord with
            | None => true
            | Some r => Qltb time (PersonalRecord.value r)
            end
         then
           [{| RecordDetectionResult.isRecord := true;
               RecordDetectionResult.recordType := Some RecordType.time;
               RecordDetectionResult.category := Some category;
               RecordDetectionResult.value := Some time;
               RecordDetectionResult.previousValue :=
                 option_map PersonalRecord.value timeRecord;
               RecordDetectionResult.improvement :=
                 Some (match timeRecord with
                       | Some r => PersonalRecord.value r - time
                       | None => 0
                       end) |}]
         else []
       else [])
    DISTANCE_CATEGORIES.

Definition detectElevationRecords (activity : Activity.t)
    (existingRecords : list PersonalRecord.t) : list RecordDetectionResult.t :=
  let stats := calculateStatistics activity in
  match Statistics.elevationGain stats with
  | None => []
  | Some elevationGain =>
      if Qeq_bool elevationGain 0 then []
      else
        let elevationRecord :=
          find (is_record_of RecordType.elevation RecordCategory.highest
                  (Activity.sport activity))
            existingRecords in
        if none_or_above elevationRecord elevationGain then
          [{| RecordDetectionResult.isRecord := true;
              RecordDetectionResult.recordType := Some RecordType.elevation;
              RecordDetectionResult.category := Some RecordCategory.highest;
              RecordDetectionResult.value := Some elevationGain;
              RecordDetectionResult.previousValue :=
                option_map PersonalRecord.value elevationRecord;
              RecordDetectionResult.improvement :=
                Some (gain_over elevationRecord elevationGain) |}]
        else []
  end.

(** The lookup of the calorie pass: [r.type === 'calories' && r.sport === sport],
    whatever the category. *)
Definition is_calorie_record_of (sport : string) (r : PersonalRecord.t) : bool :=
  bool_decide (PersonalRecord.type r = RecordType.calories)
  && bool_decide (PersonalRecord.sport r = sport).

Definition detectCalorieRecords (activity : Activity.t)
    (existingRecords : list PersonalRecord.t) : list RecordDetectionResult.t :=
  match Activity.calories activity with
  | None => []
  | Some calories =>
      if Qeq_bool calories 0 then []
      else
        let calorieRecord :=
          find (is_calorie_record_of (Activity.sport activity)) existingRecords in
        if none_or_above calorieRecord calories then
          [{| RecordDetectionResult.isRecord := true;
              RecordDetectionResult.recordType := Some RecordType.calories;
              RecordDetectionResult.category := Some RecordCategory.longest;
              RecordDetectionResult.value := Some calories;
              RecordDetectionResult.previousValue :=
                option_map PersonalRecord.value calorieRecord;
              RecordDetectionResult.improvement :=
                Some (gain_over calorieRecord calories) |}]
        else []
  end.

Definition detectRecords (activity : Activity.t)
    (existingRecords : list PersonalRecord.t) : list RecordDetectionResult.t :=
  let results :=
    detectDistanceRecords activity existingRecords
    ++ detectSpeedRecords activity existingRecords
    ++ detectTimeRecords activity existingRecords
    ++ detectElevationRecords activity existingRecords
    ++ detectCalorieRecords activity existingRecords in
  List.filter RecordDetectionResult.isRecord results.

Definition getUnitForRecordType (type : RecordType.t) : string :=
  match type with
  | RecordType.distance => "m"
  | RecordType.speed => "m/s"
  | RecordType.pace => "min/km"
  | RecordType.time => "s"
  | RecordType.elevation => "m"
  | RecordType.calories => "kcal"
  | RecordType.heartRate => "bpm"
  end.

(** [createRecordFromDetection]; [now] is the value of [new Date()].  The
    assertions [detection.recordType!], [detection.category!] and
    [detection.value!] fail ([None]) on a result that lacks the field. *)
Definition createRecordFromDetection (now : Z) (detection : RecordDetectionResult.t)
    (activity : Activity.t) : option PersonalRecord.t :=
  match RecordDetectionResult.recordType detection,
        RecordDetectionResult.category detection,
        RecordDetectionResult.value detection with
  | Some recordType, Some category, Some value =>
      Some {| PersonalRecord.id :=
                Activity.id activity ++ "-" ++ RecordType.to_string recordType
                ++ "-" ++ RecordCategory.to_string category;
              PersonalRecord.type := recordType;
              PersonalRecord.category := category;
              PersonalRecord.value := value;
              PersonalRecord.unit := getUnitForRecordType recordType;
              PersonalRecord.activityId := Activity.id activity;
              PersonalRecord.activityDate := Activity.startTime activity;
              PersonalRecord.sport := Activity.sport activity;
              PersonalRecord.previousValue := RecordDetectionResult.previousValue detection;
              PersonalRecord.previousActivityId := None;
              PersonalRecord.previousDate := None;
              PersonalRecord.improvement := RecordDetectionResult.improvement detection;
              PersonalRecord.createdAt := now;
              PersonalRecord.isNew := Some true |}
  | _, _, _ => None
  end.

(** The records that the loop of [PersonalRecordsService.detectAndSaveRecords]
    ([services/personalRecords.ts]) creates from the detection results and
    hands to the store: one per result flagged [isRecord]. *)
Definition materialize (now : Z) (activity : Activity.t)
    (detections : list RecordDetectionResult.t) : list PersonalRecord.t :=
  flat_map
    (fun detection =>
       if RecordDetectionResult.isRecord detection then
         match createRecordFromDetection now detection activity with
         | Some record => [record]
         | None => []
         end
       else [])
    detections.

(** ** Periods ([types/statistics.ts], [utils/periodCalculations.ts]) *)

(** A computed [Date]; [None] is the invalid date. *)
Definition Date := option Z.

Inductive PeriodType := week | month | year | custom | all.

Module DateRange.
Record t := mk { start : Date; end_ : Date }.
End DateRange.

(** The functions imported from the library [date-fns]; [startOfWeek] and
    [endOfWeek] are the calls with [{ weekStartsOn: 1 }]. *)
Class DateFns := {
  startOfWeek : Date -> Date;
  endOfWeek : Date -> Date;
  startOfMonth : Date -> Date;
  endOfMonth : Date -> Date;
  startOfYear : Date -> Date;
  endOfYear : Date -> Date;
  subWeeks : Date -> Z -> Date;
  subMonths : Date -> Z -> Date;
  subYears : Date -> Z -> Date
}.

Module SportBreakdown.
Record t := mk { count : Q; distance : Q; time : Q }.
End SportBreakdown.

Module PeriodStatistics.
Record t := mk {
  period : PeriodType;
  dateRange : DateRange.t;
  totalActivities : Q;
  totalDistance : Q;
  totalTime : Q;
  totalCalories : Q;
  totalElevationGain : Q;
  averageSpeed : Q;
  averageHeartRate : option Q;
  averageCadence : option Q;
  sportBreakdown : gmap string SportBreakdown.t
}.
End PeriodStatistics.

Module Changes.
Record t := mk { distance : Q; time : Q; activities : Q; speed : Q }.
End Changes.

Module ComparisonData.
Record t := mk {
  current : PeriodStatistics.t;
  previous : PeriodStatistics.t;
  changes : Changes.t
}.
End ComparisonData.

Section PeriodCalculations.
Context `{DateFns}.

Definition getWeekBounds (date : Date) : DateRange.t :=
  {| DateRange.start := startOfWeek date; DateRange.end_ := endOfWeek date |}.

Definition getMonthBounds (date : Date) : DateRange.t :=
  {| DateRange.start := startOfMonth date; DateRange.end_ := endOfMonth date |}.

Definition getYearBounds (date : Date) : DateRange.t :=
  {| DateRange.start := startOfYear date; DateRange.end_ := endOfYear date |}.

Definition getPreviousPeriodBounds (period : PeriodType) (currentDate : Date)
    : DateRange.t :=
  match period with
  | week => getWeekBounds (subWeeks currentDate 1)
  | month => getMonthBounds (subMonths currentDate 1)
  | year => getYearBounds (subYears currentDate 1)
  | _ => getWeekBounds (subWeeks currentDate 1)
  end.

(** [activityDate >= dateRange.start && activityDate <= dateRange.end]:
    a comparison with the invalid date is false. *)
Definition filterActivitiesByDateRange (activities : list Activity.t)
    (dateRange : DateRange.t) : list Activity.t :=
  List.filter (fun activity =>
            match DateRange.start dateRange, DateRange.end_ dateRange with
            | Some s, Some e =>
                (s <=? Activity.startTime activity)%Z
                && (Activity.startTime activity <=? e)%Z
            | _, _ => false
            end)
    activities.

(** ** Period/trend aggregator ([services/periodStats.ts]) *)

(** One step of the loop that fills [sportBreakdown]. *)
Definition breakdown_step (sportBreakdown : gmap string SportBreakdown.t)
    (activity : Activity.t) : gmap string SportBreakdown.t :=
  let entry :=
    match sportBreakdown !! Activity.sport activity with
    | Some e => e
    | None => {| SportBreakdown.count := 0; SportBreakdown.distance := 0;
                 SportBreakdown.time := 0 |}
    end in
  <[Activity.sport activity :=
      {| SportBreakdown.count := SportBreakdown.count entry + 1;
         SportBreakdown.distance :=
           SportBreakdown.distance entry + Activity.distanceMeters activity;
         SportBreakdown.time :=
           SportBreakdown.time entry + Activity.totalTimeSeconds activity |}]>
    sportBreakdown.

(** [(total, count)] over the activities whose statistic [f] is truthy. *)
Definition sum_truthy (f : Statistics.t -> option Q) (activities : list Activity.t)
    : Q * Q :=
  fold_left
    (fun acc activity =>
       match f (calculateStatistics activity) with
       | Some v => if Qeq_bool v 0 then acc else (fst acc + v, snd acc + 1)
       | None => acc
       end)
    activities (0, 0).

Definition aggregateActivities (activities : list Activity.t) (period : PeriodType)
    (dateRange : DateRange.t) : PeriodStatistics.t :=
  let totalDistance :=
    fold_left (fun sum a => sum + Activity.distanceMeters a) activities 0 in
  let totalTime :=
    fold_left (fun sum a => sum + Activity.totalTimeSeconds a) activities 0 in
  let totalCalories :=
    fold_left (fun sum a => sum + or_else (Activity.calories a) 0) activities 0 in
  let totalElevationGain :=
    fold_left
      (fun total a => total + or_else (Statistics.elevationGain (calculateStatistics a)) 0)
      activities 0 in
  let '(totalHR, hrCount) := sum_truthy Statistics.averageHeartRate activities in
  let '(totalCadence, cadenceCount) := sum_truthy Statistics.averageCadence activities in
  {| PeriodStatistics.period := period;
     PeriodStatistics.dateRange := dateRange;
     PeriodStatistics.totalActivities := len activities;
     PeriodStatistics.totalDistance := totalDistance;
     PeriodStatistics.totalTime := totalTime;
     PeriodStatistics.totalCalories := totalCalories;
     PeriodStatistics.totalElevationGain := totalElevationGain;
     PeriodStatistics.averageSpeed :=
       if Qgtb totalTime 0 then totalDistance / totalTime else 0;
     PeriodStatistics.averageHeartRate :=
       if Qgtb hrCount 0 then Some (totalHR / hrCount) else None;
     PeriodStatistics.averageCadence :=
       if Qgtb cadenceCount 0 then Some (totalCadence / cadenceCount) else None;
     PeriodStatistics.sportBreakdown := fold_left breakdown_step activities ∅ |}.

(** [new Date(Math.min(...times))]: the invalid date on an empty list. *)
Definition earliest (times : list Z) : Date :=
  match times with
  | [] => None
  | t :: ts => Some (fold_left Z.min ts t)
  end.

Definition latest (times : list Z) : Date :=
  match times with
  | [] => None
  | t :: ts => Some (fold_left Z.max ts t)
  end.

Definition calculatePeriodStats (activities : list Activity.t) (period : PeriodType)
    (date : Date) : PeriodStatistics.t :=
  let dateRange :=
    match period with
    | week => getWeekBounds date
    | month => getMonthBounds date
    | year => getYearBounds date
    | all =>
        {| DateRange.start := earliest (map Activity.startTime activities);
           DateRange.end_ := latest (map Activity.startTime activities) |}
    | custom => getWeekBounds date
    end in
  let periodActivities := filterActivitiesByDateRange activities dateRange in
  aggregateActivities periodActivities period dateRange.

Definition calculatePercentageChange (oldValue newValue : Q) : Q :=
  if Qeq_bool oldValue 0 then (if Qgtb newValue 0 then 100 else 0)
  else (newValue - oldValue) / oldValue * 100.

Definition comparePeriods (activities : list Activity.t) (period : PeriodType)
    (currentDate : Date) : ComparisonData.t :=
  let current := calculatePeriodStats activities period currentDate in
  let previousDate := DateRange.start (getPreviousPeriodBounds period currentDate) in
  let previous := calculatePeriodStats activities period previousDate in
  let changes :=
    {| Changes.distance :=
         calculatePercentageChange (PeriodStatistics.totalDistance previous)
           (PeriodStatistics.totalDistance current);
       Changes.time :=
         calculatePercentageChange (PeriodStatistics.totalTime previous)
           (PeriodStatistics.totalTime current);
       Changes.activities :=
         calculatePercentageChange (PeriodStatistics.totalActivities previous)
           (PeriodStatistics.totalActivities current);
       Changes.speed :=
         calculatePercentageChange (PeriodStatistics.averageSpeed previous)
           (PeriodStatistics.averageSpeed current) |} in
  {| ComparisonData.current := current;
     ComparisonData.previous := previous;
     ComparisonData.changes := changes |}.

End PeriodCalculations.

(** A calendar of fixed-length periods counted from the epoch (weeks of 7
    days, months of 30 days, years of 365 days), used to evaluate the
    aggregator on concrete inputs. *)
Definition period_start (length : Z) (d : Date) : Date :=
  option_map (fun t => (t / length * length)%Z) d.

Definition period_end (length : Z) (d : Date) : Date :=
  option_map (fun t => (t / length * length + length - 1)%Z) d.

Definition day_ms : Z := 86400000.

#[local] Instance fixed_length_calendar : DateFns := {|
  startOfWeek := period_start (7 * day_ms);
  endOfWeek := period_end (7 * day_ms);
  startOfMonth := period_start (30 * day_ms);
  endOfMonth := period_end (30 * day_ms);
  startOfYear := period_start (365 * day_ms);
  endOfYear := period_end (365 * day_ms);
  subWeeks := fun d n => option_map (fun t => (t - n * 7 * day_ms)%Z) d;
  subMonths := fun d n => option_map (fun t => (t - n * 30 * day_ms)%Z) d;
  subYears := fun d n => option_map (fun t => (t - n * 365 * day_ms)%Z) d
|}.

(** ** Training efficiency ([utils/zoneCalculations.ts]) *)

(** The keys of [ZonePercentages]. *)
Module ZoneKey.
Inductive t := zone1 | zone2 | zone3 | zone4 | zone5 | unknown.
End ZoneKey.

(** [percentages[key]]. *)
Definition percentage_at (percentages : ZonePercentages.t) (key : ZoneKey.t) : Q :=
  match key with
  | ZoneKey.zone1 => ZonePercentages.zone1 percentages
  | ZoneKey.zone2 => ZonePercentages.zone2 percentages
  | ZoneKey.zone3 => ZonePercentages.zone3 percentages
  | ZoneKey.zone4 => ZonePercentages.zone4 percentages
  | ZoneKey.zone5 => ZonePercentages.zone5 percentages
  | ZoneKey.unknown => ZonePercentages.unknown percentages
  end.

(** [idealDistributions[trainingType]]: the entries of the partial record
    in the order of [Object.entries]. *)
Definition idealDistributions (trainingType : TrainingType) : list (ZoneKey.t * Q) :=
  match trainingType with
  | recovery => [(ZoneKey.zone1, 60); (ZoneKey.zone2, 40)]
  | endurance => [(ZoneKey.zone2, 70); (ZoneKey.zone3, 20); (ZoneKey.zone1, 10)]
  | tempo => [(ZoneKey.zone3, 60); (ZoneKey.zone2, 25); (ZoneKey.zone4, 15)]
  | threshold => [(ZoneKey.zone4, 60); (ZoneKey.zone3, 30); (ZoneKey.zone2, 10)]
  | interval => [(ZoneKey.zone5, 40); (ZoneKey.zone4, 40); (ZoneKey.zone3, 20)]
  | mixed => [(ZoneKey.zone2, 30); (ZoneKey.zone3, 30); (ZoneKey.zone4, 20);
              (ZoneKey.zone5, 10); (ZoneKey.zone1, 10)]
  | unknown => []
  end.

Definition calculateTrainingEfficiency (percentages : ZonePercentages.t)
    (trainingType : TrainingType) : Q :=
  let ideal := idealDistributions trainingType in
  match ideal with
  | [] => 50
  | _ =>
      let '(totalDiff, count) :=
        fold_left
          (fun acc entry =>
             let actualPercent := percentage_at percentages (fst entry) in
             let diff := Qabs (actualPercent - snd entry) in
             (fst acc + diff, snd acc + 1))
          ideal (0, 0) in
      let avgDiff := totalDiff / count in
      let efficiency := Qmax 0 (100 - avgDiff) in
      Math_round efficiency
  end.

Definition getZoneColor (zone : ZoneNumber) : string := ZONE_COLORS zone.

Definition getZoneName (zone : ZoneNumber) : string := ZONE_NAMES zone.

(** ** Zone service ([services/trainingZones.ts]) *)

Module ZoneSettings.
Record t := mk {
  id : string;
  userId : option string;
  maxHeartRate : Q;
  restingHeartRate : option Q;
  method : ZoneCalculationMethod;
  age : option Q;
  customZones : option (list HeartRateZone.t);
  createdAt : Z;
  updatedAt : Z
}.
End ZoneSettings.

Module ZoneAnalysis.
Record t := mk {
  distribution : ZoneDistribution.t;
  percentages : ZonePercentages.t;
  dominantZone : option ZoneNumber;
  timeInTargetZone : option Q;
  recommendations : list string;
  trainingType : TrainingType;
  efficiency : Q
}.
End ZoneAnalysis.

(** [TrainingZonesService.getZones]; [settings] is the result of
    [getSettings()], the settings read back from the local storage. *)
Definition getZones (settings : option ZoneSettings.t) : list HeartRateZone.t :=
  match settings with
  | None =>
      let defaultMaxHR := calculateMaxHRFromAge 30 in
      defineZones defaultMaxHR None age
  | Some s =>
      match ZoneSettings.customZones s with
      | Some (z :: zs) => z :: zs
      | _ =>
          defineZones (ZoneSettings.maxHeartRate s) (ZoneSettings.restingHeartRate s)
            (ZoneSettings.method s)
      end
  end.

(** [list.push(x)] under a condition. *)
Definition push_if (b : bool) (x : string) (l : list string) : list string :=
  if b then l ++ [x] else l.

Definition generateRecommendations (percentages : ZonePercentages.t)
    (trainingType : TrainingType) (efficiency : Q) : list string :=
  let z1 := ZonePercentages.zone1 percentages in
  let z2 := ZonePercentages.zone2 percentages in
  let z3 := ZonePercentages.zone3 percentages in
  let z4 := ZonePercentages.zone4 percentages in
  let z5 := ZonePercentages.zone5 percentages in
  let byType :=
    match trainingType with
    | recovery =>
        push_if (Qgtb (z3 + z4 + z5) 20)
          "⚠️ Intensité un peu élevée pour une récupération"
          ["✅ Excellente séance de récupération"]
    | endurance =>
        push_if (Qltb z2 60) "💡 Essayez de rester plus longtemps en Zone 2"
          ["✅ Bonne séance d'endurance de base"]
    | tempo =>
        push_if (Qltb z3 50) "💡 Augmentez le temps en Zone 3 pour plus d'efficacité"
          ["✅ Séance tempo bien exécutée"]
    | threshold =>
        push_if (Qgtb z5 15) "⚠️ Attention à ne pas trop monter en Zone 5"
          ["✅ Travail au seuil lactique"]
    | interval =>
        ["✅ Séance d'intervalles intenses";
         "💡 Pensez à bien récupérer après cette séance"]
    | mixed => ["📊 Séance variée avec différentes intensités"]
    | unknown =>
        push_if (Qgtb (ZonePercentages.unknown percentages) 50)
          "⚠️ Données de fréquence cardiaque insuffisantes" []
    end in
  let byEfficiency :=
    byType
    ++ [if Qgeb efficiency 80 then "🎯 Excellente répartition des zones"
        else if Qgeb efficiency 60 then "👍 Bonne répartition des zones"
        else if Qgeb efficiency 40 then "💡 Répartition à améliorer"
        else "⚠️ Répartition des zones à revoir"] in
  let r1 :=
    push_if (Qgtb z5 30) "⚠️ Beaucoup de temps en Zone 5 - Risque de surentraînement"
      byEfficiency in
  let r2 :=
    push_if (Qgtb z1 70
             && negb (match trainingType with recovery => true | _ => false end))
      "💡 Intensité très faible - Augmentez le rythme" r1 in
  push_if (Qgtb z2 80 && match trainingType with endurance => true | _ => false end)
    "✅ Parfait pour développer l'endurance de base" r2.

Definition analyzeActivity (settings : option ZoneSettings.t) (activity : Activity.t)
    : Exn ZoneAnalysis.t :=
  let zones := getZones settings in
  let! distribution := calculateTimeInZones activity zones in
  let percentages := calculateZonePercentages distribution in
  let dominantZone := getDominantZone distribution in
  let trainingType := determineTrainingType percentages in
  let efficiency := calculateTrainingEfficiency percentages trainingType in
  let recommendations := generateRecommendations percentages trainingType efficiency in
  Return {| ZoneAnalysis.distribution := distribution;
            ZoneAnalysis.percentages := percentages;
            ZoneAnalysis.dominantZone := dominantZone;
            ZoneAnalysis.timeInTargetZone := None;
            ZoneAnalysis.recommendations := recommendations;
            ZoneAnalysis.trainingType := trainingType;
            ZoneAnalysis.efficiency := efficiency |}.

Module ZoneStatistics.
Record t := mk {
  totalTimeByZone : ZoneDistribution.t;
  averagePercentages : ZonePercentages.t;
  trainingTypeDistribution : TrainingType -> Q;
  averageEfficiency : Q
}.
End ZoneStatistics.

(** [totalTimeByZone[key] += distribution[key]] for every key. *)
Definition add_distribution (total d : ZoneDistribution.t) : ZoneDistribution.t :=
  {| ZoneDistribution.zone1 := ZoneDistribution.zone1 total + ZoneDistribution.zone1 d;
     ZoneDistribution.zone2 := ZoneDistribution.zone2 total + ZoneDistribution.zone2 d;
     ZoneDistribution.zone3 := ZoneDistribution.zone3 total + ZoneDistribution.zone3 d;
     ZoneDistribution.zone4 := ZoneDistribution.zone4 total + ZoneDistribution.zone4 d;
     ZoneDistribution.zone5 := ZoneDistribution.zone5 total + ZoneDistribution.zone5 d;
     ZoneDistribution.unknown := ZoneDistribution.unknown total + ZoneDistribution.unknown d |}.

Definition same_type (a b : TrainingType) : bool :=
  match a, b with
  | recovery, recovery | endurance, endurance | tempo, tempo
  | threshold, threshold | interval, interval | mixed, mixed
  | unknown, unknown => true
  | _, _ => false
  end.

(** The state of the loop of [getZoneStatistics]: the time by zone, the
    count by training type, the total efficiency and the number of
    activities with a known type. *)
Definition statistics_step (settings : option ZoneSettings.t)
    (state : ZoneDistribution.t * (TrainingType -> Q) * Q * Q) (activity : Activity.t)
    : Exn (ZoneDistribution.t * (TrainingType -> Q) * Q * Q) :=
  let '(totalTimeByZone, trainingTypeDistribution, totalEfficiency, activitiesWithHR) :=
    state in
  let! analysis := analyzeActivity settings activity in
  let counted :=
    fun t => if same_type t (ZoneAnalysis.trainingType analysis)
             then trainingTypeDistribution t + 1 else trainingTypeDistribution t in
  Return
    (add_distribution totalTimeByZone (ZoneAnalysis.distribution analysis),
     counted,
     if same_type (ZoneAnalysis.trainingType analysis) unknown then totalEfficiency
     else totalEfficiency + ZoneAnalysis.efficiency analysis,
     if same_type (ZoneAnalysis.trainingType analysis) unknown then activitiesWithHR
     else activitiesWithHR + 1).

Definition getZoneStatistics (settings : option ZoneSettings.t)
    (activities : list Activity.t) : Exn ZoneStatistics.t :=
  let! final :=
    forEach (statistics_step settings) activities
      (empty_distribution, fun _ => 0, 0, 0) in
  let '(totalTimeByZone, trainingTypeDistribution, totalEfficiency, activitiesWithHR) :=
    final in
  Return {| ZoneStatistics.totalTimeByZone := totalTimeByZone;
            ZoneStatistics.averagePercentages := calculateZonePercentages totalTimeByZone;
            ZoneStatistics.trainingTypeDistribution := trainingTypeDistribution;
            ZoneStatistics.averageEfficiency :=
              if Qgtb activitiesWithHR 0 then totalEfficiency / activitiesWithHR else 0 |}.

(** ** Comparison with a record ([utils/recordDetection.ts]) *)

Module Comparison.
Record t := mk { isBetter : bool; difference : Q; percentageDifference : Q }.
End Comparison.

(** The value of the activity that [compareToRecord] sets against a record. *)
Definition currentValue (activity : Activity.t) (record : PersonalRecord.t) : Q :=
  let stats := calculateStatistics activity in
  match PersonalRecord.type record with
  | RecordType.distance => Activity.distanceMeters activity
  | RecordType.speed =>
      if bool_decide (PersonalRecord.category record = RecordCategory.fastest)
      then Statistics.maxSpeed stats else Statistics.averageSpeed stats
  | RecordType.time => Activity.totalTimeSeconds activity
  | RecordType.elevation => or_else (Statistics.elevationGain stats) 0
  | RecordType.calories => or_else (Activity.calories activity) 0
  | _ => 0
  end.

Definition compareToRecord (activity : Activity.t) (record : PersonalRecord.t)
    : Comparison.t :=
  let currentValue := currentValue activity record in
  let isTime := bool_decide (PersonalRecord.type record = RecordType.time) in
  let isBetter :=
    if isTime then Qltb currentValue (PersonalRecord.value record)
    else Qgtb currentValue (PersonalRecord.value record) in
  let difference :=
    if isTime then PersonalRecord.value record - currentValue
    else currentValue - PersonalRecord.value record in
  let percentageDifference := Qabs difference / PersonalRecord.value record * 100 in
  {| Comparison.isBetter := isBetter;
     Comparison.difference := difference;
     Comparison.percentageDifference := percentageDifference |}.

Definition getDistanceCategory (distanceMeters : Q) : option RecordCategory.t :=
  option_map fst
    (find (fun '(category, (min, max, label)) =>
             Qgeb distanceMeters min && Qle_bool distanceMeters max)
       DISTANCE_CATEGORIES).

Definition isEligibleForTimeRecord (activity : Activity.t) : bool :=
  match getDistanceCategory (Activity.distanceMeters activity) with
  | Some _ => true
  | None => false
  end.


(** ** Totals of a list of activities ([utils/statistics.ts]) *)

Module AggregateStatistics.
Record t := mk {
  totalActivities : Q;
  totalDistance : Q;
  totalTime : Q;
  totalCalories : Q;
  averageDistance : Q;
  averageTime : Q;
  averageSpeed : Q
}.
End AggregateStatistics.

Definition calculateAggregateStatistics (activities : list Activity.t)
    : AggregateStatistics.t :=
  let totalActivities := len activities in
  let totalDistance :=
    fold_left (fun sum a => sum + Activity.distanceMeters a) activities 0 in
  let totalTime :=
    fold_left (fun sum a => sum + Activity.totalTimeSeconds a) activities 0 in
  let totalCalories :=
    fold_left (fun sum a => sum + or_else (Activity.calories a) 0) activities 0 in
  {| AggregateStatistics.totalActivities := totalActivities;
     AggregateStatistics.totalDistance := totalDistance;
     AggregateStatistics.totalTime := totalTime;
     AggregateStatistics.totalCalories := totalCalories;
     AggregateStatistics.averageDistance :=
       if Qgtb totalActivities 0 then totalDistance / totalActivities else 0;
     AggregateStatistics.averageTime :=
       if Qgtb totalActivities 0 then totalTime / totalActivities else 0;
     AggregateStatistics.averageSpeed :=
       if Qgtb totalTime 0 then totalDistance / totalTime else 0 |}.

(** ** Trend of a series ([services/periodStats.ts]) *)

Module TrendData.
Record t := mk { date : Date; value : Q; label : option string }.
End TrendData.

(** The result of an arithmetic expression whose divisor may be zero.  The
    operands are finite; a zero divisor is the positive zero (in
    [calculateTrend] it is a sum that starts from [0], divided by a positive
    length). *)
Module Number.
Inductive t := finite (q : Q) | positive_infinity | negative_infinity | NaN.

Definition divide (a b : Q) : t :=
  if Qeq_bool b 0 then
    if Qgtb a 0 then positive_infinity
    else if Qltb a 0 then negative_infinity
    else NaN
  else finite (a / b).

Definition times (x : t) (c : Q) : t :=
  match x with
  | finite q => finite (q * c)
  | positive_infinity =>
      if Qgtb c 0 then positive_infinity
      else if Qltb c 0 then negative_infinity
      else NaN
  | negative_infinity =>
      if Qgtb c 0 then negative_infinity
      else if Qltb c 0 then positive_infinity
      else NaN
  | NaN => NaN
  end.

Definition abs (x : t) : t :=
  match x with
  | finite q => finite (Qabs q)
  | positive_infinity | negative_infinity => positive_infinity
  | NaN => NaN
  end.

(** [x < c] and [x > c]: false on [NaN]. *)
Definition lt (x : t) (c : Q) : bool :=
  match x with
  | finite q => Qltb q c
  | negative_infinity => true
  | positive_infinity | NaN => false
  end.

Definition gt (x : t) (c : Q) : bool :=
  match x with
  | finite q => Qgtb q c
  | positive_infinity => true
  | negative_infinity | NaN => false
  end.
End Number.

Module Trend.
Inductive direction_t := up | down | stable.
Record t := mk { direction : direction_t; percentage : Number.t }.
End Trend.

Definition calculateTrend (data : list TrendData.t) : Trend.t :=
  if (length data <? 2)%nat
  then {| Trend.direction := Trend.stable; Trend.percentage := Number.finite 0 |}
  else
    let firstHalf := firstn (length data / 2) data in
    let secondHalf := skipn (length data / 2) data in
    let firstAvg :=
      fold_left (fun sum d => sum + TrendData.value d) firstHalf 0 / len firstHalf in
    let secondAvg :=
      fold_left (fun sum d => sum + TrendData.value d) secondHalf 0 / len secondHalf in
    let change := Number.times (Number.divide (secondAvg - firstAvg) firstAvg) 100 in
    if Number.lt (Number.abs change) 5
    then {| Trend.direction := Trend.stable; Trend.percentage := change |}
    else {| Trend.direction := if Number.gt change 0 then Trend.up else Trend.down;
            Trend.percentage := Number.abs change |}.

(** ** Grouping by calendar unit ([utils/periodCalculations.ts]) *)

(** The keys under which activities are grouped, as functions of the start
    time: [`${getYear(date)}-W${getWeek(date, { weekStartsOn: 1 })}`],
    [`${date.getFullYear()}-${String(date.getMonth() + 1).padStart(2, '0')}`],
    [String(date.getFullYear())] and [date.toISOString().split('T')[0]];
    [parse_day] is [new Date(dateStr)] on a key of the last kind. *)
Class DateKeys := {
  week_key : Z -> string;
  month_key : Z -> string;
  year_key : Z -> string;
  day_key : Z -> string;
  parse_day : string -> Date
}.

(** A [Map<string, Activity[]>] is the list of its entries in the order of
    insertion.  [grouped_push] is the body of the loops:
    [if (!grouped.has(key)) grouped.set(key, []); grouped.get(key)!.push(activity)]. *)
Fixpoint grouped_push (key : string) (activity : Activity.t)
    (grouped : list (string * list Activity.t)) : list (string * list Activity.t) :=
  match grouped with
  | [] => [(key, [activity])]
  | (k, g) :: rest =>
      if bool_decide (k = key) then (k, g ++ [activity]) :: rest
      else (k, g) :: grouped_push key activity rest
  end.

(** The four grouping functions differ in the key only. *)
Definition group_by (key_of : Activity.t -> string) (activities : list Activity.t)
    : list (string * list Activity.t) :=
  fold_left (fun grouped activity => grouped_push (key_of activity) activity grouped)
    activities [].

Module Metric.
Inductive t := distance | time | activities.
End Metric.

Section Grouping.
Context `{DateKeys}.



Definition groupActivitiesByYear (activities : list Activity.t) :=
  group_by (fun activity => year_key (Activity.startTime activity)) activities.

Definition groupActivitiesByDay (activities : list Activity.t) :=
  group_by (fun activity => day_key (Activity.startTime activity)) activities.




End Grouping.

(** ** Heatmap of the days ([services/periodStats.ts]) *)

(** An entry is pushed for a day whose date lies in the range, so that its
    date is a valid one. *)
Module ActivityHeatmap.
Record t := mk { date : Z; count : Q; distance : Q; intensity : Q }.
End ActivityHeatmap.

(** [heatmap.sort((a, b) => a.date.getTime() - b.date.getTime())]: the
    stable sort by date. *)
Fixpoint insert_by_date (entry : ActivityHeatmap.t) (sorted : list ActivityHeatmap.t)
    : list ActivityHeatmap.t :=
  match sorted with
  | [] => [entry]
  | x :: rest =>
      if (ActivityHeatmap.date entry <=? ActivityHeatmap.date x)%Z
      then entry :: x :: rest
      else x :: insert_by_date entry rest
  end.

Definition sort_by_date (heatmap : list ActivityHeatmap.t) : list ActivityHeatmap.t :=
  fold_right insert_by_date [] heatmap.

Definition getActivityHeatmap `{DateKeys} (activities : list Activity.t)
    (dateRange : DateRange.t) : list ActivityHeatmap.t :=
  let grouped := groupActivitiesByDay activities in
  let heatmap :=
    flat_map
      (fun '(dateStr, dayActivities) =>
         match parse_day dateStr, DateRange.start dateRange, DateRange.end_ dateRange with
         | Some date, Some s, Some e =>
             if (s <=? date)%Z && (date <=? e)%Z then
               let totalDistance :=
                 fold_left (fun sum a => sum + Activity.distanceMeters a) dayActivities 0 in
               let maxDistance :=
                 Math_max
                   (map (fun acts =>
                           fold_left (fun sum a => sum + Activity.distanceMeters a) acts 0)
                      (map snd grouped)) in
               [{| ActivityHeatmap.date := date;
                   ActivityHeatmap.count := len dayActivities;
                   ActivityHeatmap.distance := totalDistance;
                   ActivityHeatmap.intensity :=
                     match maxDistance with
                     | Some m => if Qgtb m 0 then totalDistance / m else 0
                     | None => 0
                     end |}]
             else []
         | _, _, _ => []
         end)
      grouped in
  sort_by_date heatmap.

(** ** Display of a duration ([utils/statistics.ts], [utils/recordDetection.ts]) *)

Definition Math_floor (x : Q) : Q := inject_Z (Qfloor x).

(** [x % y]: the remainder of the division truncated towards zero. *)
Definition truncate (x : Q) : Z := if Qle_bool 0 x then Qfloor x else Qceiling x.

Definition remainder (x y : Q) : Q := x - y * inject_Z (truncate (x / y)).

(** [n.toString()] and a template substitution [`${n}`] for a whole number
    [n] (below 10^21 in absolute value, where the decimal notation ends). *)
Definition Number_toString (n : Q) : string :=
  NilZero.string_of_int (Z.to_int (Qfloor n)).

(** [s.padStart(2, '0')]. *)
Definition padStart2 (s : string) : string :=
  match String.length s with
  | O => "00"
  | S O => ("0" ++ s)%string
  | _ => s
  end.

Definition formatDuration (seconds : Q) : string :=
  let hours := Math_floor (seconds / 3600) in
  let minutes := Math_floor (remainder seconds 3600 / 60) in
  let secs := Math_floor (remainder seconds 60) in
  if Qgtb hours 0
  then (Number_toString hours ++ "h " ++ padStart2 (Number_toString minutes) ++ "m "
        ++ padStart2 (Number_toString secs) ++ "s")%string
  else (Number_toString minutes ++ "m " ++ padStart2 (Number_toString secs) ++ "s")%string.

Definition formatTime (seconds : Q) : string :=
  let hours := Math_floor (seconds / 3600) in
  let minutes := Math_floor (remainder seconds 3600 / 60) in
  let secs := Math_floor (remainder seconds 60) in
  if Qgtb hours 0
  then (Number_toString hours ++ "h " ++ Number_toString minutes ++ "min "
        ++ Number_toString secs ++ "s")%string
  else if Qgtb minutes 0
  then (Number_toString minutes ++ "min " ++ Number_toString secs ++ "s")%string
  else (Number_toString secs ++ "s")%string.

(** * Vocabulary of the statements and sample data *)

(** ** Statistics *)

(** The scenario of the specification: Running, 10000 m in 3000 s, one lap
    without trackpoints. *)
Definition bare_lap : Lap.t :=
  {| Lap.startTime := 0; Lap.totalTimeSeconds := 3000; Lap.distanceMeters := 10000;
     Lap.maximumSpeed := Some 5; Lap.calories := None; Lap.averageHeartRate := None;
     Lap.maximumHeartRate := None; Lap.cadence := None; Lap.trackpoints := [] |}.

Definition bare_run : Activity.t :=
  {| Activity.id := "run-1"; Activity.sport := "Running"; Activity.startTime := 0;
     Activity.totalTimeSeconds := 3000; Activity.distanceMeters := 10000;
     Activity.calories := Some 700; Activity.notes := None;
     Activity.laps := [bare_lap] |}.

(** ** Period comparison *)

(** The convention of the specification for one metric: [r] is the change
    from [old] to [new]. *)
Definition change_convention (old new r : Q) : Prop :=
  (old == 0 -> 0 < new -> r = 100)
  /\ (old == 0 -> ~ 0 < new -> r = 0)
  /\ (~ old == 0 -> r = (new - old) / old * 100).

(** A first week of running after a week without activity. *)
Definition first_run : Activity.t :=
  {| Activity.id := "run-2"; Activity.sport := "Running";
     Activity.startTime := 8 * day_ms;
     Activity.totalTimeSeconds := 1500; Activity.distanceMeters := 5000;
     Activity.calories := None; Activity.notes := None; Activity.laps := [] |}.

(** ** Training type *)

(** The condition of each entry of the decision list, as the specification
    gives it; the last entry has none. *)
Definition training_condition (ty : TrainingType) (p : ZonePercentages.t) : Prop :=
  match ty with
  | recovery =>
      60 < ZonePercentages.zone1 p + ZonePercentages.zone2 p
      /\ ZonePercentages.zone2 p < ZonePercentages.zone1 p
  | endurance =>
      70 < ZonePercentages.zone2 p + ZonePercentages.zone3 p
      /\ ZonePercentages.zone3 p < ZonePercentages.zone2 p
  | tempo =>
      50 < ZonePercentages.zone3 p + ZonePercentages.zone4 p
      /\ ZonePercentages.zone4 p < ZonePercentages.zone3 p
  | threshold => 40 < ZonePercentages.zone4 p
  | interval =>
      20 < ZonePercentages.zone5 p
      \/ (50 < ZonePercentages.zone4 p + ZonePercentages.zone5 p
          /\ 15 < ZonePercentages.zone5 p)
  | mixed => ZonePercentages.unknown p < 50
  | unknown => True
  end.

(** The position of a training type in the priority order recovery,
    endurance, tempo, threshold, interval, mixed, unknown. *)
Definition priority (ty : TrainingType) : nat :=
  match ty with
  | recovery => 0 | endurance => 1 | tempo => 2 | threshold => 3
  | interval => 4 | mixed => 5 | unknown => 6
  end.

(** [ty] is the first entry of the list whose condition holds. *)
Definition first_match (p : ZonePercentages.t) (ty : TrainingType) : Prop :=
  training_condition ty p
  /\ forall ty', (priority ty' < priority ty)%nat -> ~ training_condition ty' p.

(** Percentages that meet the recovery and the endurance condition. *)
Definition recovery_and_endurance : ZonePercentages.t :=
  {| ZonePercentages.zone1 := 40; ZonePercentages.zone2 := 38;
     ZonePercentages.zone3 := 35; ZonePercentages.zone4 := 0;
     ZonePercentages.zone5 := 0; ZonePercentages.unknown := 0 |}.

(** ** Heart rate of zero *)

(** A trackpoint whose heart rate of 0 bpm is replaced by a missing one. *)
Definition without_zero_hr (tp : Trackpoint.t) : Trackpoint.t :=
  {| Trackpoint.time := Trackpoint.time tp;
     Trackpoint.latitude := Trackpoint.latitude tp;
     Trackpoint.longitude := Trackpoint.longitude tp;
     Trackpoint.altitude := Trackpoint.altitude tp;
     Trackpoint.distance := Trackpoint.distance tp;
     Trackpoint.heartRate :=
       match Trackpoint.heartRate tp with
       | Some h => if Qeq_bool h 0 then None else Some h
       | None => None
       end;
     Trackpoint.cadence := Trackpoint.cadence tp;
     Trackpoint.speed := Trackpoint.speed tp;
     Trackpoint.power := Trackpoint.power tp |}.

Definition lap_without_zero_hr (lap : Lap.t) : Lap.t :=
  {| Lap.startTime := Lap.startTime lap;
     Lap.totalTimeSeconds := Lap.totalTimeSeconds lap;
     Lap.distanceMeters := Lap.distanceMeters lap;
     Lap.maximumSpeed := Lap.maximumSpeed lap;
     Lap.calories := Lap.calories lap;
     Lap.averageHeartRate := Lap.averageHeartRate lap;
     Lap.maximumHeartRate := Lap.maximumHeartRate lap;
     Lap.cadence := Lap.cadence lap;
     Lap.trackpoints := map without_zero_hr (Lap.trackpoints lap) |}.

Definition activity_without_zero_hr (activity : Activity.t) : Activity.t :=
  {| Activity.id := Activity.id activity;
     Activity.sport := Activity.sport activity;
     Activity.startTime := Activity.startTime activity;
     Activity.totalTimeSeconds := Activity.totalTimeSeconds activity;
     Activity.distanceMeters := Activity.distanceMeters activity;
     Activity.calories := Activity.calories activity;
     Activity.notes := Activity.notes activity;
     Activity.laps := map lap_without_zero_hr (Activity.laps activity) |}.

Definition interval_without_zero_hr (tp : option Q * Q) : option Q * Q :=
  (match fst tp with
   | Some h => if Qeq_bool h 0 then None else Some h
   | None => None
   end, snd tp).

(** A trackpoint that carries a time and a heart rate only. *)
Definition sample (t : Z) (hr : option Q) : Trackpoint.t :=
  {| Trackpoint.time := t; Trackpoint.latitude := None; Trackpoint.longitude := None;
     Trackpoint.altitude := None; Trackpoint.distance := None;
     Trackpoint.heartRate := hr; Trackpoint.cadence := None;
     Trackpoint.speed := None; Trackpoint.power := None |}.

Definition one_lap (tps : list Trackpoint.t) : Activity.t :=
  {| Activity.id := "ride-1"; Activity.sport := "Biking"; Activity.startTime := 0;
     Activity.totalTimeSeconds := 20; Activity.distanceMeters := 100;
     Activity.calories := None; Activity.notes := None;
     Activity.laps :=
       [{| Lap.startTime := 0; Lap.totalTimeSeconds := 20; Lap.distanceMeters := 100;
           Lap.maximumSpeed := None; Lap.calories := None;
           Lap.averageHeartRate := None; Lap.maximumHeartRate := None;
           Lap.cadence := None; Lap.trackpoints := tps |}] |}.

(** Ten seconds at 0 bpm followed by ten seconds at 120 bpm. *)
Definition zero_then_steady : Activity.t :=
  one_lap [sample 0 (Some 0); sample 10000 (Some 120); sample 20000 (Some 120)].

(** ** Dominant zone *)

(** The time accumulated in one of the five zones. *)
Definition zone_time (d : ZoneDistribution.t) (z : ZoneNumber) : Q :=
  match z with
  | Zone1 => ZoneDistribution.zone1 d
  | Zone2 => ZoneDistribution.zone2 d
  | Zone3 => ZoneDistribution.zone3 d
  | Zone4 => ZoneDistribution.zone4 d
  | Zone5 => ZoneDistribution.zone5 d
  end.

Definition with_unknown (d : ZoneDistribution.t) (u : Q) : ZoneDistribution.t :=
  {| ZoneDistribution.zone1 := ZoneDistribution.zone1 d;
     ZoneDistribution.zone2 := ZoneDistribution.zone2 d;
     ZoneDistribution.zone3 := ZoneDistribution.zone3 d;
     ZoneDistribution.zone4 := ZoneDistribution.zone4 d;
     ZoneDistribution.zone5 := ZoneDistribution.zone5 d;
     ZoneDistribution.unknown := u |}.

(** [z] holds the largest time, and is the lowest zone that does. *)
Definition first_maximum (d : ZoneDistribution.t) (z : ZoneNumber) : Prop :=
  (forall z', zone_time d z' <= zone_time d z)
  /\ (forall z', (zone_index z' < zone_index z)%nat -> zone_time d z' < zone_time d z).

Definition tied_distribution : ZoneDistribution.t :=
  {| ZoneDistribution.zone1 := 3; ZoneDistribution.zone2 := 5;
     ZoneDistribution.zone3 := 5; ZoneDistribution.zone4 := 1;
     ZoneDistribution.zone5 := 0; ZoneDistribution.unknown := 100 |}.

(** ** Zone percentages *)

Definition percentages_sum (p : ZonePercentages.t) : Q :=
  ZonePercentages.zone1 p + ZonePercentages.zone2 p + ZonePercentages.zone3 p
  + ZonePercentages.zone4 p + ZonePercentages.zone5 p + ZonePercentages.unknown p.

(** The claim of the specification: a drift of at most 1. *)
Definition percentages_within_one (d : ZoneDistribution.t) : Prop :=
  0 < sum_reduce (distribution_values d) ->
  99 <= percentages_sum (calculateZonePercentages d)
  /\ percentages_sum (calculateZonePercentages d) <= 101.

Definition equal_sixths : ZoneDistribution.t :=
  {| ZoneDistribution.zone1 := 1; ZoneDistribution.zone2 := 1;
     ZoneDistribution.zone3 := 1; ZoneDistribution.zone4 := 1;
     ZoneDistribution.zone5 := 1; ZoneDistribution.unknown := 1 |}.

(** Times in seconds (the doubles 9.1, 6.86, 1.26, 4.9, 4.62 and 1.26) whose
    shares of the total of 28 s are 32.5, 24.5, 4.5, 17.5, 16.5 and 4.5
    percent. *)
Definition all_halves : ZoneDistribution.t :=
  {| ZoneDistribution.zone1 := fl (91 # 10); ZoneDistribution.zone2 := fl (686 # 100);
     ZoneDistribution.zone3 := fl (126 # 100); ZoneDistribution.zone4 := fl (49 # 10);
     ZoneDistribution.zone5 := fl (462 # 100); ZoneDistribution.unknown := fl (126 # 100) |}.

(** ** Record detection *)

(** Every pass looks one record up (the first that matches), tests the new
    value against it and, on success, emits one result built from the
    lookup. *)
Definition single_pass (p : PersonalRecord.t -> bool) (better : Q -> Q -> bool)
    (v : Q) (result : option PersonalRecord.t -> RecordDetectionResult.t)
    (existingRecords : list PersonalRecord.t) : list RecordDetectionResult.t :=
  let record := find p existingRecords in
  if match record with
     | None => true
     | Some r => better v (PersonalRecord.value r)
     end
  then [result record] else [].

(** A result of type [ty] and category [c] for the value [v], against the
    looked-up [record], with improvement [imp]. *)
Definition result_of (ty : RecordType.t) (c : RecordCategory.t) (v : Q)
    (imp : option PersonalRecord.t -> Q) (record : option PersonalRecord.t)
    : RecordDetectionResult.t :=
  {| RecordDetectionResult.isRecord := true;
     RecordDetectionResult.recordType := Some ty;
     RecordDetectionResult.category := Some c;
     RecordDetectionResult.value := Some v;
     RecordDetectionResult.previousValue := option_map PersonalRecord.value record;
     RecordDetectionResult.improvement := Some (imp record) |}.

(** The improvement of the time pass. *)
Definition time_gain (time : Q) (record : option PersonalRecord.t) : Q :=
  match record with
  | Some r => PersonalRecord.value r - time
  | None => 0
  end.

Definition in_band (activity : Activity.t) (min max : Q) : bool :=
  Qgeb (Activity.distanceMeters activity) min
  && Qle_bool (Activity.distanceMeters activity) max.

Definition time_pass (activity : Activity.t) (R : list PersonalRecord.t)
    (entry : RecordCategory.t * (Q * Q * string)) : list RecordDetectionResult.t :=
  if in_band activity (fst (fst (snd entry))) (snd (fst (snd entry))) then
    single_pass (is_record_of RecordType.time (fst entry) (Activity.sport activity))
      Qltb (Activity.totalTimeSeconds activity)
      (result_of RecordType.time (fst entry) (Activity.totalTimeSeconds activity)
         (time_gain (Activity.totalTimeSeconds activity)))
      R
  else [].

(** The five passes, before the final filter. *)
Definition passes (activity : Activity.t) (R : list PersonalRecord.t)
    : list RecordDetectionResult.t :=
  detectDistanceRecords activity R ++ detectSpeedRecords activity R
  ++ detectTimeRecords activity R ++ detectElevationRecords activity R
  ++ detectCalorieRecords activity R.

(** The passes as data: the lookup predicate, the comparison, the triple
    and value under test, and the improvement. *)
Module Pass.
Record t := mk {
  lookup : PersonalRecord.t -> bool;
  better : Q -> Q -> bool;
  type : RecordType.t;
  category : RecordCategory.t;
  value : Q;
  gain : option PersonalRecord.t -> Q
}.
End Pass.

Definition run_pass (R : list PersonalRecord.t) (pass : Pass.t)
    : list RecordDetectionResult.t :=
  single_pass (Pass.lookup pass) (Pass.better pass) (Pass.value pass)
    (result_of (Pass.type pass) (Pass.category pass) (Pass.value pass) (Pass.gain pass))
    R.

Definition above_pass (p : PersonalRecord.t -> bool) (ty : RecordType.t)
    (c : RecordCategory.t) (v : Q) : Pass.t :=
  {| Pass.lookup := p; Pass.better := Qgtb; Pass.type := ty; Pass.category := c;
     Pass.value := v; Pass.gain := fun record => gain_over record v |}.

Definition distance_pass (activity : Activity.t) : Pass.t :=
  above_pass
    (is_record_of RecordType.distance RecordCategory.longest (Activity.sport activity))
    RecordType.distance RecordCategory.longest (Activity.distanceMeters activity).

Definition fastest_pass (activity : Activity.t) : Pass.t :=
  above_pass
    (is_record_of RecordType.speed RecordCategory.fastest (Activity.sport activity))
    RecordType.speed RecordCategory.fastest
    (Statistics.maxSpeed (calculateStatistics activity)).

Definition km10_pass (activity : Activity.t) : Pass.t :=
  above_pass
    (is_record_of RecordType.speed RecordCategory.km10 (Activity.sport activity))
    RecordType.speed RecordCategory.km10
    (Statistics.averageSpeed (calculateStatistics activity)).

Definition time_band_pass (activity : Activity.t) (c : RecordCategory.t) : Pass.t :=
  {| Pass.lookup := is_record_of RecordType.time c (Activity.sport activity);
     Pass.better := Qltb;
     Pass.type := RecordType.time;
     Pass.category := c;
     Pass.value := Activity.totalTimeSeconds activity;
     Pass.gain := time_gain (Activity.totalTimeSeconds activity) |}.

Definition elevation_pass (activity : Activity.t) (g : Q) : Pass.t :=
  above_pass
    (is_record_of RecordType.elevation RecordCategory.highest (Activity.sport activity))
    RecordType.elevation RecordCategory.highest g.

Definition calorie_pass (activity : Activity.t) (cal : Q) : Pass.t :=
  above_pass (is_calorie_record_of (Activity.sport activity))
    RecordType.calories RecordCategory.longest cal.

(** The passes that apply to an activity; the existing records play no
    part in this. *)
Inductive applicable (activity : Activity.t) : Pass.t -> Prop :=
| applicable_distance : applicable activity (distance_pass activity)
| applicable_fastest : applicable activity (fastest_pass activity)
| applicable_km10 :
    in_band activity 9500 10500 = true -> applicable activity (km10_pass activity)
| applicable_time c min max label :
    In (c, (min, max, label)) DISTANCE_CATEGORIES ->
    in_band activity min max = true ->
    applicable activity (time_band_pass activity c)
| applicable_elevation g :
    Statistics.elevationGain (calculateStatistics activity) = Some g ->
    Qeq_bool g 0 = false ->
    applicable activity (elevation_pass activity g)
| applicable_calories cal :
    Activity.calories activity = Some cal ->
    Qeq_bool cal 0 = false ->
    applicable activity (calorie_pass activity cal).

Definition applicable_passes (activity : Activity.t) : list Pass.t :=
  [distance_pass activity; fastest_pass activity]
  ++ (if in_band activity 9500 10500 then [km10_pass activity] else [])
  ++ flat_map
       (fun entry =>
          if in_band activity (fst (fst (snd entry))) (snd (fst (snd entry)))
          then [time_band_pass activity (fst entry)] else [])
       DISTANCE_CATEGORIES
  ++ match Statistics.elevationGain (calculateStatistics activity) with
     | Some g => if Qeq_bool g 0 then [] else [elevation_pass activity g]
     | None => []
     end
  ++ match Activity.calories activity with
     | Some cal => if Qeq_bool cal 0 then [] else [calorie_pass activity cal]
     | None => []
     end.

(** ** Improvement and time records *)

(** The claim of the specification: without a previous record for the
    triple, the improvement is the new value. *)
Definition improvement_is_new_value (activity : Activity.t)
    (R : list PersonalRecord.t) : Prop :=
  forall d ty c v,
    In d (detectRecords activity R) ->
    RecordDetectionResult.recordType d = Some ty ->
    RecordDetectionResult.category d = Some c ->
    RecordDetectionResult.value d = Some v ->
    (forall r, In r R ->
               ~ (PersonalRecord.type r = ty /\ PersonalRecord.category r = c
                  /\ PersonalRecord.sport r = Activity.sport activity)) ->
    RecordDetectionResult.improvement d = Some v.

(** An activity without laps. *)
Definition plain_activity (id sport : string) (distance time : Q) (calories : option Q)
    : Activity.t :=
  {| Activity.id := id; Activity.sport := sport; Activity.startTime := 0;
     Activity.totalTimeSeconds := time; Activity.distanceMeters := distance;
     Activity.calories := calories; Activity.notes := None; Activity.laps := [] |}.

Definition five_km_run : Activity.t := plain_activity "run-3" "Running" 5000 1500 None.

(** A record of 1200 s over 5 km. *)
Definition five_km_in_1200 : PersonalRecord.t :=
  {| PersonalRecord.id := "run-0-time-5km"; PersonalRecord.type := RecordType.time;
     PersonalRecord.category := RecordCategory.km5; PersonalRecord.value := 1200;
     PersonalRecord.unit := "s"; PersonalRecord.activityId := "run-0";
     PersonalRecord.activityDate := 0; PersonalRecord.sport := "Running";
     PersonalRecord.previousValue := None; PersonalRecord.previousActivityId := None;
     PersonalRecord.previousDate := None; PersonalRecord.improvement := Some 0;
     PersonalRecord.createdAt := 0; PersonalRecord.isNew := Some true |}.

Definition faster_run : Activity.t := plain_activity "run-4" "Running" 5000 1100 None.

(** The same distance in 1300 s. *)
Definition slower_run : Activity.t := plain_activity "run-5" "Running" 5000 1300 None.

(** An older record of 1500 s over 5 km. *)
Definition five_km_in_1500 : PersonalRecord.t :=
  {| PersonalRecord.id := "run-1-time-5km"; PersonalRecord.type := RecordType.time;
     PersonalRecord.category := RecordCategory.km5; PersonalRecord.value := 1500;
     PersonalRecord.unit := "s"; PersonalRecord.activityId := "run-1";
     PersonalRecord.activityDate := 0; PersonalRecord.sport := "Running";
     PersonalRecord.previousValue := None; PersonalRecord.previousActivityId := None;
     PersonalRecord.previousDate := None; PersonalRecord.improvement := Some 0;
     PersonalRecord.createdAt := 0; PersonalRecord.isNew := Some true |}.

(** The claim of the specification, for every existing record of the
    triple (time, 5km, sport of the activity) that has the value 1200: a
    total time of 1100 is flagged with improvement 100, a total time of
    1300 is not flagged as a time record of the band. *)
Definition time_record_against_any (activity : Activity.t)
    (R : list PersonalRecord.t) : Prop :=
  4500 <= Activity.distanceMeters activity ->
  Activity.distanceMeters activity <= 5500 ->
  forall r,
    In r R ->
    is_record_of RecordType.time RecordCategory.km5 (Activity.sport activity) r = true ->
    PersonalRecord.value r == 1200 ->
    (Activity.totalTimeSeconds activity == 1100 ->
     exists d i,
       In d (detectRecords activity R)
       /\ RecordDetectionResult.isRecord d = true
       /\ RecordDetectionResult.recordType d = Some RecordType.time
       /\ RecordDetectionResult.category d = Some RecordCategory.km5
       /\ RecordDetectionResult.improvement d = Some i /\ i == 100)
    /\ (Activity.totalTimeSeconds activity == 1300 ->
        forall d,
          In d (detectRecords activity R) ->
          ~ (RecordDetectionResult.recordType d = Some RecordType.time
             /\ RecordDetectionResult.category d = Some RecordCategory.km5)).

(** A calorie record of 200 kcal filed under another category than the one
    the calorie pass writes. *)
Definition calories_200_fastest : PersonalRecord.t :=
  {| PersonalRecord.id := "run-0-calories-fastest";
     PersonalRecord.type := RecordType.calories;
     PersonalRecord.category := RecordCategory.fastest; PersonalRecord.value := 200;
     PersonalRecord.unit := "kcal"; PersonalRecord.activityId := "run-0";
     PersonalRecord.activityDate := 0; PersonalRecord.sport := "Running";
     PersonalRecord.previousValue := None; PersonalRecord.previousActivityId := None;
     PersonalRecord.previousDate := None; PersonalRecord.improvement := Some 200;
     PersonalRecord.createdAt := 0; PersonalRecord.isNew := Some true |}.

(** ** Zone lookup *)

(** [hr] lies in the range of the zone. *)
Definition contains (z : HeartRateZone.t) (hr : Q) : Prop :=
  HeartRateZone.minHR z <= hr /\ hr <= HeartRateZone.maxHR z.

(** Five zones, numbered 1 to 5 in this order. *)
Definition ascending (zones : list HeartRateZone.t) : Prop :=
  map HeartRateZone.zone zones = [Zone1; Zone2; Zone3; Zone4; Zone5].

(** The claim of the specification. *)
Definition zone_lookup_clamps (zones : list HeartRateZone.t) (hr : Q) : Prop :=
  ascending zones ->
  (forall z, In z zones -> contains z hr ->
             getZoneForHeartRate hr zones = Return (Some (HeartRateZone.zone z)))
  /\ (forall z5, nth_error zones 4 = Some z5 -> HeartRateZone.maxHR z5 < hr ->
                 getZoneForHeartRate hr zones = Return (Some Zone5))
  /\ (forall z1, nth_error zones 0 = Some z1 -> hr < HeartRateZone.minHR z1 ->
                 getZoneForHeartRate hr zones = Return (Some Zone1))
  /\ (forall z1 z5,
        nth_error zones 0 = Some z1 -> nth_error zones 4 = Some z5 ->
        (forall z, In z zones -> ~ contains z hr) ->
        HeartRateZone.minHR z1 <= hr -> hr <= HeartRateZone.maxHR z5 ->
        getZoneForHeartRate hr zones = Return None
        /\ forall d duration,
             attribute zones d (Some hr, duration) = Return (add_unknown d duration)).

(** A zone given by hand. *)
Definition manual_zone (zone : ZoneNumber) (minHR maxHR : Q) : HeartRateZone.t :=
  {| HeartRateZone.zone := zone; HeartRateZone.name := ZONE_NAMES zone;
     HeartRateZone.description := ZONE_DESCRIPTIONS zone;
     HeartRateZone.minHR := minHR; HeartRateZone.maxHR := maxHR;
     HeartRateZone.minPercent := fst (ZONE_PERCENTAGES zone);
     HeartRateZone.maxPercent := snd (ZONE_PERCENTAGES zone);
     HeartRateZone.color := ZONE_COLORS zone;
     HeartRateZone.benefits := getZoneBenefits zone;
     HeartRateZone.recommendations := getZoneRecommendations zone |}.

(** Zones with a gap between 100 and 110 bpm. *)
Definition zones_with_gap : list HeartRateZone.t :=
  [manual_zone Zone1 50 100; manual_zone Zone2 110 120; manual_zone Zone3 121 130;
   manual_zone Zone4 131 140; manual_zone Zone5 141 150].

(** ** Detection against its own output *)

(** The type and category of a result; the sport is that of the activity. *)
Definition triple (d : RecordDetectionResult.t)
    : option RecordType.t * option RecordCategory.t :=
  (RecordDetectionResult.recordType d, RecordDetectionResult.category d).

Definition has_previous (d : RecordDetectionResult.t) : bool :=
  match RecordDetectionResult.previousValue d with
  | Some _ => true
  | None => false
  end.

(** The claim of the specification, the new records being added after the
    existing ones. *)
Definition detection_is_idempotent (now : Z) (activity : Activity.t)
    (R : list PersonalRecord.t) : Prop :=
  let first := detectRecords activity R in
  let R' := R ++ materialize now activity first in
  forall d1 d2,
    In d1 first -> In d2 (detectRecords activity R') -> triple d2 <> triple d1.

(** A longest distance of 5000 m. *)
Definition longest_5000 : PersonalRecord.t :=
  {| PersonalRecord.id := "run-0-distance-longest";
     PersonalRecord.type := RecordType.distance;
     PersonalRecord.category := RecordCategory.longest; PersonalRecord.value := 5000;
     PersonalRecord.unit := "m"; PersonalRecord.activityId := "run-0";
     PersonalRecord.activityDate := 0; PersonalRecord.sport := "Running";
     PersonalRecord.previousValue := None; PersonalRecord.previousActivityId := None;
     PersonalRecord.previousDate := None; PersonalRecord.improvement := Some 5000;
     PersonalRecord.createdAt := 0; PersonalRecord.isNew := Some true |}.

Definition long_run : Activity.t := plain_activity "run-6" "Running" 8000 2400 None.

(** ** Statistics of the samples *)

(** The heart rates, altitudes and positive speeds that [calculateStatistics]
    reads from the trackpoints. *)
Definition heartRates_of (activity : Activity.t) : list Q :=
  present Trackpoint.heartRate (allTrackpoints activity).

Definition altitudes_of (activity : Activity.t) : list Q :=
  present Trackpoint.altitude (allTrackpoints activity).

Definition speeds_of (activity : Activity.t) : list Q :=
  List.filter (fun s => Qgtb s 0) (present Trackpoint.speed (allTrackpoints activity)).

(** A whole number. *)
Definition whole (x : Q) : Prop := exists n : Z, x == inject_Z n.

(** The pairs of a sample and the next one. *)
Fixpoint consecutive (l : list Q) : list (Q * Q) :=
  match l with
  | a :: (b :: _) as rest => (a, b) :: consecutive rest
  | _ => []
  end.

(** A trackpoint with a heart rate, an altitude and a speed. *)
Definition reading (t : Z) (hr altitude speed : option Q) : Trackpoint.t :=
  {| Trackpoint.time := t; Trackpoint.latitude := None; Trackpoint.longitude := None;
     Trackpoint.altitude := altitude; Trackpoint.distance := None;
     Trackpoint.heartRate := hr; Trackpoint.cadence := None;
     Trackpoint.speed := speed; Trackpoint.power := None |}.

(** Thirty seconds up and down a hill, one sample without altitude, one at
    rest. *)
Definition hilly_ride : Activity.t :=
  one_lap [reading 0 (Some 100) (Some 100) (Some 4);
           reading 10000 (Some 130) None (Some 0);
           reading 20000 (Some 150) (Some 120) (Some 6);
           reading 30000 (Some 140) (Some 110) (Some 5)].

(** ** Time in zones *)

(** The intervals that [calculateTimeInZones] collects, and their total
    duration. *)
Definition intervals (activity : Activity.t) : list (option Q * Q) :=
  flat_map (fun lap => lap_intervals (Lap.trackpoints lap)) (Activity.laps activity).

(** The seconds between the first and the last trackpoint of a lap. *)
Definition lap_span (tps : list Trackpoint.t) : Q :=
  match tps with
  | [] => 0
  | first :: rest =>
      inject_Z (Trackpoint.time (List.last rest first) - Trackpoint.time first) / 1000
  end.

(** A heart rate that [!hr] rejects: missing, or zero. *)
Definition no_heart_rate (hr : option Q) : bool :=
  match hr with
  | None => true
  | Some h => Qeq_bool h 0
  end.

(** The lookup of a heart rate that is present gives [zone] ([None]: no
    zone). *)
Definition lookup_gives (zones : list HeartRateZone.t) (zone : option ZoneNumber)
    (hr : option Q) : bool :=
  match hr with
  | Some h =>
      match getZoneForHeartRate h zones, zone with
      | Return (Some z'), Some z => Nat.eqb (zone_index z) (zone_index z')
      | Return None, None => true
      | _, _ => false
      end
  | None => false
  end.

(** The intervals of the unknown bucket: those without heart rate (missing
    or zero) and those whose heart rate is in no zone. *)
Definition in_unknown_bucket (zones : list HeartRateZone.t) (tp : option Q * Q) : bool :=
  no_heart_rate (fst tp) || lookup_gives zones None (fst tp).

(** The intervals of the bucket of zone [z]: those with a heart rate (not
    zero) that the lookup puts into [z]. *)
Definition in_zone_bucket (zones : list HeartRateZone.t) (z : ZoneNumber)
    (tp : option Q * Q) : bool :=
  negb (no_heart_rate (fst tp)) && lookup_gives zones (Some z) (fst tp).

(** The seconds of the intervals whose first trackpoint has no heart rate. *)
Definition time_without_heart_rate (activity : Activity.t) : Q :=
  sum_reduce (map snd (List.filter (fun tp => no_heart_rate (fst tp)) (intervals activity))).

(** Two zones given by hand, and ten seconds at 200 bpm. *)
Definition two_zones : list HeartRateZone.t :=
  [manual_zone Zone1 95 114; manual_zone Zone2 114 133].

Definition sprint : Activity.t :=
  one_lap [sample 0 (Some 200); sample 10000 (Some 200)].

(** ** Zone analysis *)

(** The number of activities counted by a distribution of training types. *)
Definition type_total (counts : TrainingType -> Q) : Q :=
  counts recovery + counts endurance + counts tempo + counts threshold
  + counts interval + counts mixed + counts unknown.

(** The seconds between the first and the last trackpoint, lap by lap. *)
Definition recorded_time (activity : Activity.t) : Q :=
  sum_reduce (map (fun lap => lap_span (Lap.trackpoints lap)) (Activity.laps activity)).

(** Every timestamp is a whole number of seconds. *)
Definition whole_seconds (activity : Activity.t) : Prop :=
  forall lap tp,
    In lap (Activity.laps activity) -> In tp (Lap.trackpoints lap) ->
    (Trackpoint.time tp mod 1000 = 0)%Z.

(** No trackpoint is earlier than the one before it in its lap. *)
Definition chronological (activity : Activity.t) : Prop :=
  forall i, In i (intervals activity) -> 0 <= snd i.

(** Every bucket holds a whole number of seconds that is not negative. *)
Definition whole_buckets (d : ZoneDistribution.t) : Prop :=
  forall v, In v (distribution_values d) -> whole v /\ 0 <= v.

(** Twenty seconds without any heart rate. *)
Definition silent_ride : Activity.t :=
  one_lap [sample 0 None; sample 10000 (Some 0); sample 20000 None].

(** ** Keys of the detection results *)

(** The type and category that a pass writes. *)
Definition pass_key (pass : Pass.t) : RecordType.t * RecordCategory.t :=
  (Pass.type pass, Pass.category pass).

(** The ten pairs of type and category that [detectRecords] can produce, in
    the order of the passes. *)
Definition all_keys : list (RecordType.t * RecordCategory.t) :=
  [(RecordType.distance, RecordCategory.longest);
   (RecordType.speed, RecordCategory.fastest);
   (RecordType.speed, RecordCategory.km10);
   (RecordType.time, RecordCategory.km1);
   (RecordType.time, RecordCategory.km5);
   (RecordType.time, RecordCategory.km10);
   (RecordType.time, RecordCategory.halfMarathon);
   (RecordType.time, RecordCategory.marathon);
   (RecordType.elevation, RecordCategory.highest);
   (RecordType.calories, RecordCategory.longest)].

(** The end of the identifier of a record. *)
Definition key_suffix (key : RecordType.t * RecordCategory.t) : string :=
  "-" ++ RecordType.to_string (fst key) ++ "-" ++ RecordCategory.to_string (snd key).

(** The pass fires on the existing records. *)
Definition fires (R : list PersonalRecord.t) (pass : Pass.t) : bool :=
  match find (Pass.lookup pass) R with
  | None => true
  | Some r => Pass.better pass (Pass.value pass) (PersonalRecord.value r)
  end.

(** A run of 10 km in 3000 s that burns 700 kcal, with the samples of
    [hilly_ride]. *)
Definition ten_km_run : Activity.t :=
  {| Activity.id := "run-8"; Activity.sport := "Running"; Activity.startTime := 0;
     Activity.totalTimeSeconds := 3000; Activity.distanceMeters := 10000;
     Activity.calories := Some 700; Activity.notes := None;
     Activity.laps := Activity.laps hilly_ride |}.

(** A longest distance of 8000 m and a 10 km time of 3200 s. *)
Definition older_records : list PersonalRecord.t :=
  [{| PersonalRecord.id := "run-0-distance-longest";
      PersonalRecord.type := RecordType.distance;
      PersonalRecord.category := RecordCategory.longest; PersonalRecord.value := 8000;
      PersonalRecord.unit := "m"; PersonalRecord.activityId := "run-0";
      PersonalRecord.activityDate := 0; PersonalRecord.sport := "Running";
      PersonalRecord.previousValue := None; PersonalRecord.previousActivityId := None;
      PersonalRecord.previousDate := None; PersonalRecord.improvement := Some 8000;
      PersonalRecord.createdAt := 0; PersonalRecord.isNew := Some true |};
   {| PersonalRecord.id := "run-0-time-10km";
      PersonalRecord.type := RecordType.time;
      PersonalRecord.category := RecordCategory.km10; PersonalRecord.value := 3200;
      PersonalRecord.unit := "s"; PersonalRecord.activityId := "run-0";
      PersonalRecord.activityDate := 0; PersonalRecord.sport := "Running";
      PersonalRecord.previousValue := None; PersonalRecord.previousActivityId := None;
      PersonalRecord.previousDate := None; PersonalRecord.improvement := Some 0;
      PersonalRecord.createdAt := 0; PersonalRecord.isNew := Some true |}].

(** The activities of one sport. *)
Definition of_sport (sport : string) (activities : list Activity.t) : list Activity.t :=
  List.filter (fun a => bool_decide (Activity.sport a = sport)) activities.

(** The names that every JavaScript object inherits; an object used as a
    dictionary answers for them without holding an entry. *)
Definition Object_prototype_keys : list string :=
  ["constructor"; "__proto__"; "hasOwnProperty"; "isPrototypeOf";
   "propertyIsEnumerable"; "toLocaleString"; "toString"; "valueOf";
   "__defineGetter__"; "__defineSetter__"; "__lookupGetter__"; "__lookupSetter__"].

Definition plain_sport (activity : Activity.t) : Prop :=
  ~ In (Activity.sport activity) Object_prototype_keys.

(** The mean of the values of a part of a series. *)
Definition half_average (half : list TrendData.t) : Q :=
  sum_reduce (map TrendData.value half) / len half.

Definition point (v : Q) : TrendData.t :=
  {| TrendData.date := Some 0%Z; TrendData.value := v; TrendData.label := None |}.

Definition no_change (c : Changes.t) : Prop :=
  Changes.distance c == 0 /\ Changes.time c == 0
  /\ Changes.activities c == 0 /\ Changes.speed c == 0.

(** The training type of a session held in one zone. *)
Definition training_of_zone (z : ZoneNumber) : TrainingType :=
  match z with
  | Zone1 => recovery
  | Zone2 => endurance
  | Zone3 => tempo
  | Zone4 => threshold
  | Zone5 => interval
  end.

(** The activities whose key is [key]. *)
Definition with_key (key_of : Activity.t -> string) (key : string)
    (activities : list Activity.t) : list Activity.t :=
  List.filter (fun a => bool_decide (key_of a = key)) activities.



(** Keys that tell the first day after the epoch from the days after it. *)
Definition two_periods : DateKeys :=
  let key := fun t : Z => if (t <? day_ms)%Z then "1970-01-01" else "1970-01-02" in
  {| week_key := key; month_key := key; year_key := key; day_key := key;
     parse_day := fun s => if bool_decide (s = "1970-01-01") then Some 0%Z
                           else if bool_decide (s = "1970-01-02") then Some day_ms
                           else None |}.

Definition activity_at (t : Z) (distance : Q) : Activity.t :=
  {| Activity.id := "a"; Activity.sport := "Running"; Activity.startTime := t;
     Activity.totalTimeSeconds := 600; Activity.distanceMeters := distance;
     Activity.calories := None; Activity.notes := None; Activity.laps := [] |}.

(** Dates in ascending order. *)
Fixpoint by_date (dates : list Z) : Prop :=
  match dates with
  | x :: (y :: _) as rest => (x <= y)%Z /\ by_date rest
  | _ => True
  end.

(** The decimal notation of a whole number. *)
Definition text (n : Z) : string := Number_toString (inject_Z n).

(** * Properties *)

(** ** Reflection of the comparisons *)

Lemma Qltb_lt (x y : Q) : Qltb x y = true <-> x < y.
Proof.
  unfold Qltb. rewrite negb_true_iff, <- not_true_iff_false, Qle_bool_iff.
  split; [apply Qnot_le_lt | apply Qlt_not_le].
Qed.

Lemma Qltb_nlt (x y : Q) : Qltb x y = false <-> y <= x.
Proof.
  unfold Qltb. rewrite negb_false_iff. apply Qle_bool_iff.
Qed.

Lemma Qgtb_gt (x y : Q) : Qgtb x y = true <-> y < x.
Proof. apply Qltb_lt. Qed.

Lemma Qgtb_ngt (x y : Q) : Qgtb x y = false <-> x <= y.
Proof. apply Qltb_nlt. Qed.

Lemma Qgeb_ge (x y : Q) : Qgeb x y = true <-> y <= x.
Proof. apply Qle_bool_iff. Qed.

Lemma Qle_bool_false (x y : Q) : Qle_bool x y = false <-> y < x.
Proof.
  rewrite <- not_true_iff_false, Qle_bool_iff.
  split; [apply Qnot_le_lt | apply Qlt_not_le].
Qed.

Lemma Qeq_bool_false (x y : Q) : Qeq_bool x y = false <-> ~ x == y.
Proof. rewrite <- not_true_iff_false, Qeq_bool_iff. tauto. Qed.

Lemma Qgtb_irrefl (x : Q) : Qgtb x x = false.
Proof. apply Qgtb_ngt. apply Qle_refl. Qed.

(** Turn every boolean comparison of the context and of the goal into the
    order of [Q]. *)
Ltac reflect_Q :=
  repeat match goal with
    | H : _ && _ = true |- _ => apply andb_true_iff in H; destruct H
    | H : Qltb _ _ = true |- _ => apply Qltb_lt in H
    | H : Qltb _ _ = false |- _ => apply Qltb_nlt in H
    | H : Qgtb _ _ = true |- _ => apply Qgtb_gt in H
    | H : Qgtb _ _ = false |- _ => apply Qgtb_ngt in H
    | H : Qgeb _ _ = true |- _ => apply Qgeb_ge in H
    | H : Qgeb _ _ = false |- _ => apply Qle_bool_false in H
    | H : Qle_bool _ _ = true |- _ => apply Qle_bool_iff in H
    | H : Qle_bool _ _ = false |- _ => apply Qle_bool_false in H
    | H : Qeq_bool _ _ = true |- _ => apply Qeq_bool_iff in H
    | H : Qeq_bool _ _ = false |- _ => apply Qeq_bool_false in H
    end.

(** ** Statistics without trackpoints *)

(** C4. An activity whose laps hold no trackpoint at all (and whose total
    time is positive) gets the statistics of its own fields: the average
    speed is [distanceMeters / totalTimeSeconds], the maximal speed is 0,
    distance, time and calories pass through, and every heart-rate,
    cadence, altitude, elevation and pace field is absent. *)
Theorem calculateStatistics_without_trackpoints (activity : Activity.t) :
  allTrackpoints activity = [] ->
  0 < Activity.totalTimeSeconds activity ->
  calculateStatistics activity =
    {| Statistics.totalDistance := Activity.distanceMeters activity;
       Statistics.totalTime := Activity.totalTimeSeconds activity;
       Statistics.averageSpeed :=
         Activity.distanceMeters activity / Activity.totalTimeSeconds activity;
       Statistics.maxSpeed := 0;
       Statistics.averageHeartRate := None;
       Statistics.maxHeartRate := None;
       Statistics.minHeartRate := None;
       Statistics.averageCadence := None;
       Statistics.maxCadence := None;
       Statistics.totalCalories := Activity.calories activity;
       Statistics.elevationGain := None;
       Statistics.elevationLoss := None;
       Statistics.minAltitude := None;
       Statistics.maxAltitude := None;
       Statistics.averagePace := None;
       Statistics.maxPace := None |}.
Proof.
  intros Hempty _. unfold calculateStatistics. rewrite Hempty. reflexivity.
Qed.

Lemma calculateStatistics_without_trackpoints_witness :
  Statistics.averageSpeed (calculateStatistics bare_run) = 10000 / 3000
  /\ Statistics.maxSpeed (calculateStatistics bare_run) = 0
  /\ Statistics.maxHeartRate (calculateStatistics bare_run) = None.
Proof.
  rewrite (calculateStatistics_without_trackpoints bare_run);
    [ repeat split | reflexivity | reflexivity ].
Defined.

(** The branch of [calculateStatistics] that reads the laps' maximal speeds
    never sees an empty list of laps. *)
Lemma laps_of_trackpoints (activity : Activity.t) :
  allTrackpoints activity <> [] ->
  Math_max (map (fun lap => or_else (Lap.maximumSpeed lap) 0) (Activity.laps activity))
  <> None.
Proof.
  unfold allTrackpoints. destruct (Activity.laps activity); simpl.
  - intros Hne. now contradiction Hne.
  - discriminate.
Qed.

(** ** Training type *)

(** The tests of [determineTrainingType], one per entry of the list. *)
Lemma training_condition_test (p : ZonePercentages.t) :
  let z1 := ZonePercentages.zone1 p in
  let z2 := ZonePercentages.zone2 p in
  let z3 := ZonePercentages.zone3 p in
  let z4 := ZonePercentages.zone4 p in
  let z5 := ZonePercentages.zone5 p in
  (Qgtb (z1 + z2) 60 && Qgtb z1 z2 = true <-> training_condition recovery p)
  /\ (Qgtb (z2 + z3) 70 && Qgtb z2 z3 = true <-> training_condition endurance p)
  /\ (Qgtb (z3 + z4) 50 && Qgtb z3 z4 = true <-> training_condition tempo p)
  /\ (Qgtb z4 40 = true <-> training_condition threshold p)
  /\ (Qgtb z5 20 || (Qgtb (z4 + z5) 50 && Qgtb z5 15) = true
      <-> training_condition interval p)
  /\ (Qltb (ZonePercentages.unknown p) 50 = true <-> training_condition mixed p).
Proof.
  cbn [training_condition].
  rewrite orb_true_iff, !andb_true_iff, !Qgtb_gt, Qltb_lt. tauto.
Qed.

(** C6. The classification is a first-match decision list in the order
    recovery, endurance, tempo, threshold, interval, mixed, unknown: the
    result is the first training type of that order whose condition holds,
    and no other type is returned.  In particular, zone percentages that
    satisfy the recovery condition ([Z1+Z2 > 60] and [Z1 > Z2]) and the
    endurance condition ([Z2+Z3 > 70] and [Z2 > Z3]) together are
    classified [recovery]. *)
Theorem determineTrainingType_first_match (percentages : ZonePercentages.t) :
  (forall ty, determineTrainingType percentages = ty <-> first_match percentages ty)
  /\ (training_condition recovery percentages ->
      training_condition endurance percentages ->
      determineTrainingType percentages = recovery).
Proof.
  pose proof (training_condition_test percentages) as (Hr & He & Ht & Hh & Hi & Hm).
  cbv zeta in Hr, He, Ht, Hh, Hi, Hm.
  assert (Hfirst : first_match percentages (determineTrainingType percentages)).
  { unfold determineTrainingType, first_match.
    destruct (Qgtb (_ + _) 60 && _) eqn:Er.
    { split; [now apply Hr |]. intros []; cbn [priority]; lia. }
    destruct (Qgtb (_ + _) 70 && _) eqn:Ee.
    { split; [now apply He |].
      intros []; cbn [priority]; try lia; intros _ H.
      apply Hr in H. congruence. }
    destruct (Qgtb (_ + _) 50 && _) eqn:Et.
    { split; [now apply Ht |].
      intros []; cbn [priority]; try lia; intros _ H;
        [apply Hr in H | apply He in H]; congruence. }
    destruct (Qgtb _ 40) eqn:Eh.
    { split; [now apply Hh |].
      intros []; cbn [priority]; try lia; intros _ H;
        [apply Hr in H | apply He in H | apply Ht in H]; congruence. }
    destruct (Qgtb _ 20 || _) eqn:Ei.
    { split; [now apply Hi |].
      intros []; cbn [priority]; try lia; intros _ H;
        [apply Hr in H | apply He in H | apply Ht in H | apply Hh in H]; congruence. }
    destruct (Qltb _ 50) eqn:Em.
    { split; [now apply Hm |].
      intros []; cbn [priority]; try lia; intros _ H;
        [apply Hr in H | apply He in H | apply Ht in H | apply Hh in H
         | apply Hi in H]; congruence. }
    split; [exact I |].
    intros []; cbn [priority]; try lia; intros _ H;
      [apply Hr in H | apply He in H | apply Ht in H | apply Hh in H
       | apply Hi in H | apply Hm in H]; congruence. }
  assert (Hunique : forall a b, first_match percentages a -> first_match percentages b ->
                                a = b).
  { intros a b [Ha Hna] [Hb Hnb].
    destruct (Nat.lt_trichotomy (priority a) (priority b)) as [Hlt | [Heq | Hlt]].
    - now apply Hnb in Hlt.
    - destruct a, b; cbn [priority] in Heq; congruence.
    - now apply Hna in Hlt. }
  split.
  - intros ty. split.
    + now intros <-.
    + intros Hty. now apply Hunique.
  - intros Hrec _. apply Hunique; [exact Hfirst |].
    split; [exact Hrec |]. intros ty'. cbn [priority]. lia.
Qed.

Lemma determineTrainingType_first_match_witness :
  training_condition recovery recovery_and_endurance
  /\ training_condition endurance recovery_and_endurance
  /\ determineTrainingType recovery_and_endurance = recovery.
Proof.
  assert (Hrec : training_condition recovery recovery_and_endurance)
    by (split; reflexivity).
  assert (Hend : training_condition endurance recovery_and_endurance)
    by (split; reflexivity).
  split; [exact Hrec |]. split; [exact Hend |].
  exact (proj2 (determineTrainingType_first_match recovery_and_endurance) Hrec Hend).
Defined.

(** One input for each of the other entries of the list. *)
Example determineTrainingType_each :
  map determineTrainingType
    [{| ZonePercentages.zone1 := 10; ZonePercentages.zone2 := 50;
        ZonePercentages.zone3 := 40; ZonePercentages.zone4 := 0;
        ZonePercentages.zone5 := 0; ZonePercentages.unknown := 0 |};
     {| ZonePercentages.zone1 := 0; ZonePercentages.zone2 := 10;
        ZonePercentages.zone3 := 50; ZonePercentages.zone4 := 40;
        ZonePercentages.zone5 := 0; ZonePercentages.unknown := 0 |};
     {| ZonePercentages.zone1 := 0; ZonePercentages.zone2 := 0;
        ZonePercentages.zone3 := 10; ZonePercentages.zone4 := 60;
        ZonePercentages.zone5 := 30; ZonePercentages.unknown := 0 |};
     {| ZonePercentages.zone1 := 30; ZonePercentages.zone2 := 30;
        ZonePercentages.zone3 := 0; ZonePercentages.zone4 := 15;
        ZonePercentages.zone5 := 25; ZonePercentages.unknown := 0 |};
     {| ZonePercentages.zone1 := 20; ZonePercentages.zone2 := 20;
        ZonePercentages.zone3 := 20; ZonePercentages.zone4 := 20;
        ZonePercentages.zone5 := 20; ZonePercentages.unknown := 0 |};
     {| ZonePercentages.zone1 := 10; ZonePercentages.zone2 := 10;
        ZonePercentages.zone3 := 10; ZonePercentages.zone4 := 10;
        ZonePercentages.zone5 := 10; ZonePercentages.unknown := 50 |}]
  = [endurance; tempo; threshold; interval; mixed; unknown].
Proof. reflexivity. Qed.

(** ** Percentage change between periods *)

Lemma calculatePercentageChange_convention (old new : Q) :
  change_convention old new (calculatePercentageChange old new).
Proof.
  unfold change_convention, calculatePercentageChange.
  destruct (Qeq_bool old 0) eqn:Hold, (Qgtb new 0) eqn:Hnew; reflect_Q;
    repeat split; intros; try reflexivity; try tauto; lra.
Qed.

(** C9. Every metric of a period comparison (distance, time, number of
    activities, speed) is the percentage change from the previous period
    to the current one under the zero-baseline convention: from 0 the
    change is 100 if the new value is positive and 0 otherwise, from a
    non-zero value it is [(new - old) / old * 100]; in particular a
    previous distance of 0 and a positive current distance give a change
    of 100. *)
Theorem comparePeriods_changes `{DateFns} (activities : list Activity.t)
    (period : PeriodType) (currentDate : Date) :
  let c := comparePeriods activities period currentDate in
  let previous := ComparisonData.previous c in
  let current := ComparisonData.current c in
  change_convention (PeriodStatistics.totalDistance previous)
    (PeriodStatistics.totalDistance current) (Changes.distance (ComparisonData.changes c))
  /\ change_convention (PeriodStatistics.totalTime previous)
       (PeriodStatistics.totalTime current) (Changes.time (ComparisonData.changes c))
  /\ change_convention (PeriodStatistics.totalActivities previous)
       (PeriodStatistics.totalActivities current)
       (Changes.activities (ComparisonData.changes c))
  /\ change_convention (PeriodStatistics.averageSpeed previous)
       (PeriodStatistics.averageSpeed current) (Changes.speed (ComparisonData.changes c))
  /\ (PeriodStatistics.totalDistance previous == 0 ->
      0 < PeriodStatistics.totalDistance current ->
      Changes.distance (ComparisonData.changes c) = 100).
Proof.
  intros c previous current.
  repeat split; apply calculatePercentageChange_convention.
Qed.

Lemma comparePeriods_changes_witness :
  Changes.distance
    (ComparisonData.changes (comparePeriods [first_run] week (Some (9 * day_ms)%Z))) = 100.
Proof.
  apply (comparePeriods_changes [first_run] week (Some (9 * day_ms)%Z));
    vm_compute; reflexivity.
Defined.

(** ** A heart rate of zero *)

Lemma lap_intervals_without_zero_hr (tps : list Trackpoint.t) :
  lap_intervals (map without_zero_hr tps)
  = map interval_without_zero_hr (lap_intervals tps).
Proof.
  induction tps as [| current [| next rest] IH]; try reflexivity.
  change (lap_intervals (map without_zero_hr (current :: next :: rest)))
    with ((Trackpoint.heartRate (without_zero_hr current),
           inject_Z (Trackpoint.time next - Trackpoint.time current) / 1000)
          :: lap_intervals (map without_zero_hr (next :: rest))).
  now rewrite IH.
Qed.

Lemma intervals_without_zero_hr (laps : list Lap.t) :
  flat_map (fun lap => lap_intervals (Lap.trackpoints lap)) (map lap_without_zero_hr laps)
  = map interval_without_zero_hr
      (flat_map (fun lap => lap_intervals (Lap.trackpoints lap)) laps).
Proof.
  induction laps as [| lap laps IH]; [reflexivity |].
  cbn [map flat_map]. rewrite map_app, IH. f_equal.
  apply lap_intervals_without_zero_hr.
Qed.

Lemma attribute_without_zero_hr (zones : list HeartRateZone.t)
    (d : ZoneDistribution.t) (tp : option Q * Q) :
  attribute zones d (interval_without_zero_hr tp) = attribute zones d tp.
Proof.
  destruct tp as [[h |] duration]; [| reflexivity].
  unfold interval_without_zero_hr; simpl.
  destruct (Qeq_bool h 0) eqn:Hh; simpl; [reflexivity |].
  now rewrite Hh.
Qed.

Lemma forEach_attribute_without_zero_hr (zones : list HeartRateZone.t)
    (l : list (option Q * Q)) (d : ZoneDistribution.t) :
  forEach (attribute zones) (map interval_without_zero_hr l) d
  = forEach (attribute zones) l d.
Proof.
  revert d. induction l as [| tp l IH]; intros d; cbn [forEach map]; [reflexivity |].
  rewrite attribute_without_zero_hr.
  destruct (attribute zones d tp); cbn [bind]; [apply IH | reflexivity].
Qed.

Lemma attribute_zero_heart_rate (zones : list HeartRateZone.t)
    (d : ZoneDistribution.t) (h duration : Q) :
  h == 0 ->
  attribute zones d (Some h, duration) = Return (add_unknown d duration)
  /\ attribute zones d (Some h, duration) = attribute zones d (None, duration).
Proof.
  intros Hh. apply Qeq_bool_iff in Hh. split; simpl; now rewrite Hh.
Qed.

Lemma fold_Qplus_shift (l : list Q) (a : Q) :
  fold_left Qplus l a == a + fold_left Qplus l 0.
Proof.
  revert a. induction l as [| x l IH]; intros a; cbn [fold_left]; [lra |].
  rewrite (IH (a + x)), (IH (0 + x)). lra.
Qed.

Lemma sum_reduce_cons (x : Q) (l : list Q) : sum_reduce (x :: l) == x + sum_reduce l.
Proof.
  unfold sum_reduce. cbn [fold_left]. rewrite fold_Qplus_shift. lra.
Qed.

Lemma getZoneForHeartRate_five (h : Q) (zones : list HeartRateZone.t) :
  (5 <= length zones)%nat -> exists r, getZoneForHeartRate h zones = Return r.
Proof.
  intros Hlen. unfold getZoneForHeartRate, index.
  destruct (find (in_zone h) zones); [eauto |].
  destruct (nth_error zones 4) as [z5 |] eqn:H5;
    [| apply nth_error_None in H5; lia].
  destruct (nth_error zones 0) as [z1 |] eqn:H1;
    [| apply nth_error_None in H1; lia].
  cbn [bind]. destruct (Qgtb h (HeartRateZone.maxHR z5)); [eauto |].
  cbn [bind]. destruct (Qltb h (HeartRateZone.minHR z1)); eauto.
Qed.

Lemma forEach_returns {A S : Type} (f : S -> A -> Exn S) (l : list A) (s : S) :
  (forall s' a, In a l -> exists s'', f s' a = Return s'') ->
  exists s', forEach f l s = Return s'.
Proof.
  revert s. induction l as [| a l IH]; intros s Hall; cbn [forEach]; [eauto |].
  destruct (Hall s a (or_introl eq_refl)) as [s1 ->]. cbn [bind].
  apply IH. intros s' a' Ha'. apply Hall. now right.
Qed.

Lemma calculateTimeInZones_returns (activity : Activity.t)
    (zones : list HeartRateZone.t) :
  (5 <= length zones)%nat -> exists d, calculateTimeInZones activity zones = Return d.
Proof.
  intros Hlen. apply forEach_returns. intros d [[h |] duration] _; cbn [attribute].
  - destruct (Qeq_bool h 0); [eauto |].
    destruct (getZoneForHeartRate_five h zones Hlen) as [[z |] ->]; cbn [bind]; eauto.
  - eauto.
Qed.

Lemma zone_time_add_unknown (d : ZoneDistribution.t) (z : ZoneNumber) (duration : Q) :
  zone_time (add_unknown d duration) z = zone_time d z.
Proof. now destruct z. Qed.

Lemma zone_time_add_zone (d : ZoneDistribution.t) (z z' : ZoneNumber) (duration : Q) :
  zone_time (add_zone d z' duration) z
  = if Nat.eqb (zone_index z) (zone_index z') then zone_time d z + duration
    else zone_time d z.
Proof. now destruct z, z'. Qed.

(** One step of the loop adds the duration to the bucket of the interval
    and to no other. *)
Lemma attribute_buckets (zones : list HeartRateZone.t) (d d' : ZoneDistribution.t)
    (tp : option Q * Q) :
  attribute zones d tp = Return d' ->
  ZoneDistribution.unknown d'
  = (if in_unknown_bucket zones tp then ZoneDistribution.unknown d + snd tp
     else ZoneDistribution.unknown d)
  /\ forall z,
       zone_time d' z
       = if in_zone_bucket zones z tp then zone_time d z + snd tp else zone_time d z.
Proof.
  destruct tp as [[h |] duration];
    unfold in_unknown_bucket, in_zone_bucket, lookup_gives, no_heart_rate;
    cbn [attribute fst snd].
  - destruct (Qeq_bool h 0); cbn [orb negb andb].
    + intros [= <-]. split; [reflexivity |]. intros z. apply zone_time_add_unknown.
    + destruct (getZoneForHeartRate h zones) as [[z' |] |]; cbn [bind];
        intros [= <-].
      * split; [reflexivity |]. intros z. apply zone_time_add_zone.
      * split; [reflexivity |]. intros z. apply zone_time_add_unknown.
  - intros [= <-]. split; [reflexivity |]. intros z. apply zone_time_add_unknown.
Qed.

(** The loop, from any distribution: every bucket receives the durations of
    its intervals, one after the other in the order of the list. *)
Lemma forEach_attribute_buckets (zones : list HeartRateZone.t)
    (l : list (option Q * Q)) (d d' : ZoneDistribution.t) :
  forEach (attribute zones) l d = Return d' ->
  ZoneDistribution.unknown d'
  = fold_left Qplus (map snd (List.filter (in_unknown_bucket zones) l))
      (ZoneDistribution.unknown d)
  /\ forall z,
       zone_time d' z
       = fold_left Qplus (map snd (List.filter (in_zone_bucket zones z) l))
           (zone_time d z).
Proof.
  revert d. induction l as [| tp l IH]; intros d; cbn [forEach List.filter map].
  - intros [= <-]. split; [reflexivity |]. intros z. reflexivity.
  - destruct (attribute zones d tp) as [d1 |] eqn:Hstep; cbn [bind]; [| discriminate].
    intros Hrest. destruct (IH d1 Hrest) as [Hu Hz].
    destruct (attribute_buckets _ _ _ _ Hstep) as [Hu1 Hz1].
    split.
    + rewrite Hu, Hu1. now destruct (in_unknown_bucket zones tp).
    + intros z. rewrite Hz, Hz1. now destruct (in_zone_bucket zones z tp).
Qed.

(** C10. An interval whose first trackpoint has a heart rate of exactly 0
    is counted in the unknown bucket, as an interval without heart rate is,
    and in no zone: the unknown bucket of the distribution that
    [calculateTimeInZones] returns is the sum of the durations of the
    intervals without heart rate (missing or zero) and of those whose heart
    rate is in no zone; the bucket of a zone is the sum of the durations of
    the intervals with a heart rate that is not zero and that the lookup
    puts into the zone.  An interval at 0 bpm is one of the former, as the
    same interval without heart rate is, and none of the latter, whatever
    the zones are.  The distribution does not change when the zero heart
    rates are removed from the activity, and with five zones or more a
    distribution is returned.  So the clamp to zone 1 is never applied to
    a heart rate of zero. *)
Theorem zero_heart_rate_is_unknown (activity : Activity.t)
    (zones : list HeartRateZone.t) :
  calculateTimeInZones (activity_without_zero_hr activity) zones
  = calculateTimeInZones activity zones
  /\ ((5 <= length zones)%nat ->
      exists d, calculateTimeInZones activity zones = Return d)
  /\ (forall d,
       calculateTimeInZones activity zones = Return d ->
       ZoneDistribution.unknown d
       = sum_reduce (map snd (List.filter (in_unknown_bucket zones) (intervals activity)))
       /\ forall z,
            zone_time d z
            = sum_reduce
                (map snd (List.filter (in_zone_bucket zones z) (intervals activity))))
  /\ forall h duration,
       h == 0 ->
       in_unknown_bucket zones (Some h, duration) = true
       /\ in_unknown_bucket zones (Some h, duration)
          = in_unknown_bucket zones (None, duration)
       /\ forall z, in_zone_bucket zones z (Some h, duration) = false.
Proof.
  split; [| split; [| split]].
  - unfold calculateTimeInZones, activity_without_zero_hr; cbn [Activity.laps].
    now rewrite intervals_without_zero_hr, forEach_attribute_without_zero_hr.
  - apply calculateTimeInZones_returns.
  - unfold calculateTimeInZones. fold (intervals activity). intros d Hrun.
    destruct (forEach_attribute_buckets _ _ _ _ Hrun) as [Hu Hz].
    split; [exact Hu |]. intros z. rewrite Hz. now destruct z.
  - intros h duration Hh. apply Qeq_bool_iff in Hh.
    unfold in_unknown_bucket, in_zone_bucket, no_heart_rate. cbn [fst].
    rewrite Hh. now repeat split.
Qed.

Lemma zero_heart_rate_is_unknown_witness :
  exists d,
    calculateTimeInZones zero_then_steady (defineZones 190 None age) = Return d
    /\ ZoneDistribution.unknown d == 10
    /\ ZoneDistribution.zone1 d == 0.
Proof.
  pose proof (zero_heart_rate_is_unknown zero_then_steady (defineZones 190 None age))
    as (_ & Hreturns & Hbuckets & _).
  destruct (Hreturns ltac:(cbn; lia)) as [d Hd].
  destruct (Hbuckets d Hd) as [Hu Hz].
  exists d. split; [exact Hd |]. split.
  - rewrite Hu. reflexivity.
  - change (ZoneDistribution.zone1 d) with (zone_time d Zone1). rewrite Hz. reflexivity.
Defined.

(** Against the zones of a maximal heart rate of 190 a heart rate of 0 lies
    below zone 1 and the lookup alone would clamp it to zone 1; the ten
    seconds at 0 bpm are counted as unknown. *)
Example zero_heart_rate_clamp_not_applied :
  getZoneForHeartRate 0 (defineZones 190 None age) = Return (Some Zone1)
  /\ calculateTimeInZones zero_then_steady (defineZones 190 None age)
     = Return {| ZoneDistribution.zone1 := 0; ZoneDistribution.zone2 := 0 + (10000 # 1000);
                 ZoneDistribution.zone3 := 0; ZoneDistribution.zone4 := 0;
                 ZoneDistribution.zone5 := 0;
                 ZoneDistribution.unknown := 0 + (10000 # 1000) |}.
Proof. split; vm_compute; reflexivity. Qed.

(** ** Dominant zone *)

Ltac split_comparisons :=
  repeat match goal with
    | |- context [Qgtb ?x ?y] =>
        lazymatch x with
        | context [Qgtb _ _] => fail
        | _ => lazymatch y with
               | context [Qgtb _ _] => fail
               | _ => destruct (Qgtb x y) eqn:?; cbn [fst snd]
               end
        end
    end.

(** C8. The dominant zone is the zone among 1..5 with the largest
    accumulated time, the lowest such zone on a tie; it is null when the
    five zone times are all zero; the unknown bucket plays no part, however
    large it is. *)
Theorem getDominantZone_first_maximum (d : ZoneDistribution.t) :
  ((exists z, 0 < zone_time d z) ->
   exists z, getDominantZone d = Some z /\ first_maximum d z)
  /\ ((forall z, zone_time d z == 0) -> getDominantZone d = None)
  /\ (forall u, getDominantZone (with_unknown d u) = getDominantZone d).
Proof.
  destruct d as [t1 t2 t3 t4 t5 u]. unfold getDominantZone, first_maximum.
  cbn [fold_left ZoneDistribution.zone1 ZoneDistribution.zone2 ZoneDistribution.zone3
       ZoneDistribution.zone4 ZoneDistribution.zone5 fst snd with_unknown].
  split; [| split].
  - intros [z Hz].
    split_comparisons; reflect_Q;
      try (exfalso; destruct z; cbn [zone_time ZoneDistribution.zone1
             ZoneDistribution.zone2 ZoneDistribution.zone3 ZoneDistribution.zone4
             ZoneDistribution.zone5] in Hz; lra);
      (eexists; split; [reflexivity |]; split; intros z';
       destruct z'; cbn; try lia; intros; try lra).
  - intros Hzero.
    pose proof (Hzero Zone1) as H1. pose proof (Hzero Zone2) as H2.
    pose proof (Hzero Zone3) as H3. pose proof (Hzero Zone4) as H4.
    pose proof (Hzero Zone5) as H5. cbn in H1, H2, H3, H4, H5.
    split_comparisons; reflect_Q; try reflexivity; exfalso; lra.
  - reflexivity.
Qed.

Lemma getDominantZone_first_maximum_witness :
  exists z, getDominantZone tied_distribution = Some z
            /\ first_maximum tied_distribution z.
Proof.
  apply (proj1 (getDominantZone_first_maximum tied_distribution)).
  exists Zone2. reflexivity.
Defined.

Example getDominantZone_tie : getDominantZone tied_distribution = Some Zone2.
Proof. reflexivity. Qed.

(** ** Rounding to a double *)

Lemma Qabs_cases (x : Q) : (0 <= x /\ Qabs x == x) \/ (x <= 0 /\ Qabs x == - x).
Proof.
  destruct (Qlt_le_dec x 0) as [Hneg | Hpos].
  - right. split; [lra | apply Qabs_neg; lra].
  - left. split; [exact Hpos | now apply Qabs_pos].
Qed.

Lemma Qfloor_unique (x : Q) (n : Z) :
  inject_Z n <= x -> x < inject_Z n + 1 -> Qfloor x = n.
Proof.
  intros Hlow Hup.
  pose proof (Qfloor_le x) as Hfl. pose proof (Qlt_floor x) as Hfu.
  rewrite inject_Z_plus in Hfu. change (inject_Z 1) with 1 in Hfu.
  assert (H1 : inject_Z n < inject_Z (Qfloor x) + 1) by lra.
  assert (H2 : inject_Z (Qfloor x) < inject_Z n + 1) by lra.
  change 1 with (inject_Z 1) in H1, H2. rewrite <- inject_Z_plus in H1, H2.
  rewrite <- Zlt_Qlt in H1, H2. lia.
Qed.

Lemma round_half_even_error (y : Q) :
  Qabs (inject_Z (round_half_even y) - y) <= 1 # 2.
Proof.
  unfold round_half_even.
  pose proof (Qfloor_le y) as Hlow. pose proof (Qlt_floor y) as Hup.
  rewrite inject_Z_plus in Hup. change (inject_Z 1) with 1 in Hup.
  apply Qabs_Qle_condition.
  destruct (Qcompare (y - inject_Z (Qfloor y)) (1 # 2)) eqn:Hc.
  - apply Qeq_alt in Hc.
    destruct (Z.even (Qfloor y));
      [| rewrite inject_Z_plus; change (inject_Z 1) with 1]; split; lra.
  - apply Qlt_alt in Hc. split; lra.
  - apply Qgt_alt in Hc. rewrite inject_Z_plus. change (inject_Z 1) with 1.
    split; lra.
Qed.

Lemma two_power (z : Z) : (0 <= z)%Z -> inject_Z (2 ^ z) == 2 ^ z.
Proof. intros Hz. now rewrite Zpower_Qpower. Qed.

Lemma binade_lower (a : Q) : 0 < a -> 2 ^ binade a <= a.
Proof.
  intros Ha. unfold binade.
  set (k := (Z.log2 (Qnum a) - Z.log2 (Z.pos (Qden a)))%Z).
  destruct (Qle_bool (2 ^ k) a) eqn:Hk; [now apply Qle_bool_iff |].
  destruct a as [n d]. cbn [Qnum Qden] in *.
  assert (Hn : (0 < n)%Z).
  { unfold Qlt in Ha. cbn in Ha. lia. }
  destruct (Z.log2_spec n Hn) as [Hnlow _].
  destruct (Z.log2_spec (Z.pos d) (Pos2Z.is_pos d)) as [_ Hdup].
  replace (k - 1)%Z with (Z.log2 n - Z.succ (Z.log2 (Z.pos d)))%Z by (unfold k; lia).
  rewrite Qpower_minus by discriminate.
  rewrite <- !two_power by (pose proof (Z.log2_nonneg n);
                            pose proof (Z.log2_nonneg (Z.pos d)); lia).
  rewrite (Qmake_Qdiv n d).
  set (N := (2 ^ Z.log2 n)%Z) in *. set (D := (2 ^ Z.succ (Z.log2 (Z.pos d)))%Z) in *.
  assert (HD : (0 < D)%Z) by lia.
  assert (HDq : 0 < inject_Z D) by (change 0 with (inject_Z 0); now rewrite <- Zlt_Qlt).
  assert (Hdq : 0 < inject_Z (Z.pos d)) by (change 0 with (inject_Z 0); now rewrite <- Zlt_Qlt).
  apply Qle_shift_div_l; [exact Hdq |].
  assert (Hcross : inject_Z N / inject_Z D * inject_Z (Z.pos d)
                   == inject_Z (N * Z.pos d) / inject_Z D).
  { rewrite inject_Z_mult. field. lra. }
  rewrite Hcross. apply Qle_shift_div_r; [exact HDq |].
  rewrite <- inject_Z_mult, <- Zle_Qle. nia.
Qed.

(** The relative error of a rounding is at most [2^-53]. *)
Lemma fl_error (x : Q) : Qabs (fl x - x) <= epsilon * Qabs x.
Proof.
  unfold fl. destruct (Qeq_bool x 0) eqn:Hzero.
  - apply Qeq_bool_iff in Hzero. rewrite Hzero. vm_compute. discriminate.
  - assert (Hx : ~ x == 0) by (intros H; apply Qeq_bool_iff in H; congruence).
    set (a := Qred (Qabs x)).
    assert (Haeq : a == Qabs x) by apply Qred_correct.
    assert (Ha : 0 < a).
    { rewrite Haeq. pose proof (Qabs_nonneg x) as Hn.
      destruct (Qeq_dec (Qabs x) 0) as [H0 | H0]; [| lra].
      exfalso. apply Hx. destruct (Qabs_cases x) as [[_ H] | [_ H]]; lra. }
    set (b := binade a). pose proof (binade_lower a Ha) as Hb. fold b in Hb.
    set (P := 2 ^ (b - 52)).
    assert (HP : 0 < P) by (apply Qpower_0_lt; reflexivity).
    assert (HPb : P == 2 ^ b * (1 # 4503599627370496)).
    { unfold P. rewrite Qpower_minus by discriminate.
      assert (H52 : 2 ^ 52 == 4503599627370496) by reflexivity.
      rewrite H52. field. }
    pose proof (round_half_even_error (a / P)) as Hround.
    set (m := inject_Z (round_half_even (a / P))) in *.
    assert (Herr : Qabs (m * P - a) <= epsilon * a).
    { assert (Heq : m * P - a == (m - a / P) * P) by (field; lra).
      rewrite Heq, Qabs_Qmult, (Qabs_pos P) by lra.
      apply Qle_trans with ((1 # 2) * P).
      - apply Qmult_le_compat_r; [exact Hround | lra].
      - rewrite HPb. unfold epsilon.
        assert (H2 : (1 # 2) * (2 ^ b * (1 # 4503599627370496))
                     == (1 # 9007199254740992) * 2 ^ b) by field.
        rewrite H2. apply Qmult_le_l; [reflexivity | exact Hb]. }
    destruct (Qle_bool 0 x) eqn:Hsign.
    + apply Qle_bool_iff in Hsign. rewrite (Qabs_pos x Hsign) in *.
      assert (Hd : m * P - x == m * P - a) by (rewrite Haeq; reflexivity).
      rewrite Hd, <- Haeq. exact Herr.
    + assert (Hneg : x <= 0).
      { destruct (Qlt_le_dec 0 x) as [Hp | Hn]; [| exact Hn].
        assert (Htrue : Qle_bool 0 x = true) by (apply Qle_bool_iff; lra). congruence. }
      rewrite (Qabs_neg x Hneg) in *.
      assert (Hd : - (m * P) - x == - (m * P - a)) by (rewrite Haeq; ring).
      rewrite Hd, Qabs_opp, <- Haeq. exact Herr.
Qed.

Lemma fl_bounds (x : Q) :
  0 <= x ->
  (1 - (1 # 9007199254740992)) * x <= fl x /\ fl x <= (1 + (1 # 9007199254740992)) * x.
Proof.
  intros Hx. pose proof (fl_error x) as Herr.
  rewrite (Qabs_pos x Hx) in Herr. unfold epsilon in Herr.
  apply Qabs_Qle_condition in Herr. split; lra.
Qed.

(** The numbers 1/10 and 23/40 as doubles. *)
Example fl_one_tenth : fl (1 # 10) == 3602879701896397 # 36028797018963968.
Proof. reflexivity. Qed.

Example fl_57 : Math_round (fl (fl (23 / 40) * 100)) == 57.
Proof. reflexivity. Qed.

(** ** Zone percentages *)

Lemma Math_round_upper (x : Q) : Math_round x <= x + (1 # 2).
Proof. apply Qfloor_le. Qed.

Lemma Math_round_lower (x : Q) : x - (1 # 2) < Math_round x.
Proof.
  unfold Math_round. pose proof (Qlt_floor (x + (1 # 2))) as H.
  rewrite inject_Z_plus in H. change (inject_Z 1) with 1 in H. lra.
Qed.

(** A sum of rounded values is an integer. *)
Lemma Math_round_sum6 (a b c d e f : Q) :
  Math_round a + Math_round b + Math_round c + Math_round d + Math_round e
  + Math_round f
  == inject_Z (Qfloor (a + (1 # 2)) + Qfloor (b + (1 # 2)) + Qfloor (c + (1 # 2))
               + Qfloor (d + (1 # 2)) + Qfloor (e + (1 # 2)) + Qfloor (f + (1 # 2))).
Proof. unfold Math_round. rewrite !inject_Z_plus. reflexivity. Qed.

(** The total as [calculateZonePercentages] adds it up, against the exact
    sum of the six times. *)
Lemma rounded_total (t1 t2 t3 t4 t5 u : Q) :
  0 <= t1 -> 0 <= t2 -> 0 <= t3 -> 0 <= t4 -> 0 <= t5 -> 0 <= u ->
  let total := fold_left (fun sum time => fl (sum + time)) [t1; t2; t3; t4; t5; u] 0 in
  (999 # 1000) * (t1 + t2 + t3 + t4 + t5 + u) <= total
  /\ total <= (1001 # 1000) * (t1 + t2 + t3 + t4 + t5 + u).
Proof.
  intros H1 H2 H3 H4 H5 H6. cbn [fold_left].
  destruct (fl_bounds (0 + t1)) as [L1 U1]; [lra |].
  set (a1 := fl (0 + t1)) in *.
  destruct (fl_bounds (a1 + t2)) as [L2 U2]; [lra |].
  set (a2 := fl (a1 + t2)) in *.
  destruct (fl_bounds (a2 + t3)) as [L3 U3]; [lra |].
  set (a3 := fl (a2 + t3)) in *.
  destruct (fl_bounds (a3 + t4)) as [L4 U4]; [lra |].
  set (a4 := fl (a3 + t4)) in *.
  destruct (fl_bounds (a4 + t5)) as [L5 U5]; [lra |].
  set (a5 := fl (a4 + t5)) in *.
  destruct (fl_bounds (a5 + u)) as [L6 U6]; [lra |].
  set (a6 := fl (a5 + u)) in *.
  clearbody a1 a2 a3 a4 a5 a6. split; lra.
Qed.

(** A share as [calculateZonePercentages] computes it, against the exact
    quotient. *)
Lemma rounded_share (t total : Q) :
  0 <= t -> 0 < total ->
  (999 # 1000) * (t / total * 100) <= fl (fl (t / total) * 100)
  /\ fl (fl (t / total) * 100) <= (1001 # 1000) * (t / total * 100).
Proof.
  intros Ht Htotal.
  assert (Hr : 0 <= t / total) by (apply Qle_shift_div_l; lra).
  set (r := t / total) in *.
  destruct (fl_bounds r Hr) as [L1 U1]. set (q := fl r) in *. clearbody q.
  destruct (fl_bounds (q * 100)) as [L2 U2]; [lra |].
  set (s := fl (q * 100)) in *. clearbody s. clearbody r.
  split; lra.
Qed.

(** C2, counterexample. Six equal buckets are 16.67 percent each, rounded
    to 17: the sum is 102. *)
Lemma percentages_within_one_fails : ~ percentages_within_one equal_sixths.
Proof.
  intros Hclaim. destruct Hclaim as [_ Hle]; [reflexivity |].
  vm_compute in Hle. now apply Hle.
Qed.

(** Six numbers that sum to about 100, rounded one by one. *)
Lemma sum_of_rounds (s1 s2 s3 s4 s5 s6 : Q) :
  199 # 2 <= s1 + s2 + s3 + s4 + s5 + s6 -> s1 + s2 + s3 + s4 + s5 + s6 <= 201 # 2 ->
  97 <= Math_round s1 + Math_round s2 + Math_round s3 + Math_round s4
        + Math_round s5 + Math_round s6
  /\ Math_round s1 + Math_round s2 + Math_round s3 + Math_round s4
     + Math_round s5 + Math_round s6 <= 103.
Proof.
  intros Hlow Hup.
  pose proof (Math_round_lower s1). pose proof (Math_round_lower s2).
  pose proof (Math_round_lower s3). pose proof (Math_round_lower s4).
  pose proof (Math_round_lower s5). pose proof (Math_round_lower s6).
  pose proof (Math_round_upper s1). pose proof (Math_round_upper s2).
  pose proof (Math_round_upper s3). pose proof (Math_round_upper s4).
  pose proof (Math_round_upper s5). pose proof (Math_round_upper s6).
  assert (Hgt : 96 < Math_round s1 + Math_round s2 + Math_round s3 + Math_round s4
                     + Math_round s5 + Math_round s6) by lra.
  assert (Hlt : Math_round s1 + Math_round s2 + Math_round s3 + Math_round s4
                + Math_round s5 + Math_round s6 < 104) by lra.
  rewrite Math_round_sum6 in Hgt, Hlt |- *.
  set (n := (Qfloor (s1 + (1 # 2)) + Qfloor (s2 + (1 # 2)) + Qfloor (s3 + (1 # 2))
             + Qfloor (s4 + (1 # 2)) + Qfloor (s5 + (1 # 2)) + Qfloor (s6 + (1 # 2)))%Z)
    in *.
  clearbody n.
  change 96 with (inject_Z 96) in Hgt. change 104 with (inject_Z 104) in Hlt.
  rewrite <- Zlt_Qlt in Hgt, Hlt.
  change 97 with (inject_Z 97). change 103 with (inject_Z 103).
  rewrite <- !Zle_Qle. lia.
Qed.

(** The six shares in doubles sum to about 100. *)
Lemma sum_of_shares (t1 t2 t3 t4 t5 u total : Q) :
  0 <= t1 -> 0 <= t2 -> 0 <= t3 -> 0 <= t4 -> 0 <= t5 -> 0 <= u ->
  0 < t1 + t2 + t3 + t4 + t5 + u ->
  (999 # 1000) * (t1 + t2 + t3 + t4 + t5 + u) <= total ->
  total <= (1001 # 1000) * (t1 + t2 + t3 + t4 + t5 + u) ->
  199 # 2 <= fl (fl (t1 / total) * 100) + fl (fl (t2 / total) * 100)
        + fl (fl (t3 / total) * 100) + fl (fl (t4 / total) * 100)
        + fl (fl (t5 / total) * 100) + fl (fl (u / total) * 100)
  /\ fl (fl (t1 / total) * 100) + fl (fl (t2 / total) * 100)
     + fl (fl (t3 / total) * 100) + fl (fl (t4 / total) * 100)
     + fl (fl (t5 / total) * 100) + fl (fl (u / total) * 100) <= 201 # 2.
Proof.
  intros H1 H2 H3 H4 H5 H6 HT Hlow Hup.
  assert (Hpos : 0 < total) by lra.
  destruct (rounded_share t1 total H1 Hpos) as [L1 U1].
  destruct (rounded_share t2 total H2 Hpos) as [L2 U2].
  destruct (rounded_share t3 total H3 Hpos) as [L3 U3].
  destruct (rounded_share t4 total H4 Hpos) as [L4 U4].
  destruct (rounded_share t5 total H5 Hpos) as [L5 U5].
  destruct (rounded_share u total H6 Hpos) as [L6 U6].
  assert (Hsum : t1 / total * 100 + t2 / total * 100 + t3 / total * 100
                 + t4 / total * 100 + t5 / total * 100 + u / total * 100
                 == (t1 + t2 + t3 + t4 + t5 + u) / total * 100) by (field; lra).
  assert (Hratio : 1000 # 1001 <= (t1 + t2 + t3 + t4 + t5 + u) / total
                   /\ (t1 + t2 + t3 + t4 + t5 + u) / total <= 1000 # 999).
  { split; [apply Qle_shift_div_l | apply Qle_shift_div_r]; lra. }
  generalize dependent (fl (fl (t1 / total) * 100)).
  generalize dependent (fl (fl (t2 / total) * 100)).
  generalize dependent (fl (fl (t3 / total) * 100)).
  generalize dependent (fl (fl (t4 / total) * 100)).
  generalize dependent (fl (fl (t5 / total) * 100)).
  generalize dependent (fl (fl (u / total) * 100)).
  generalize dependent ((t1 + t2 + t3 + t4 + t5 + u) / total).
  intros R Hsum HR s6 L6 U6 s5 L5 U5 s4 L4 U4 s3 L3 U3 s2 L2 U2 s1 L1 U1.
  split; lra.
Qed.

(** C2 (amended). With a positive total time (and no negative time) the six
    percentages, rounded one by one, sum to a value within 100 +- 3: between
    97 and 103.  The shares are computed in doubles before they are
    rounded to whole numbers. *)
Theorem percentages_within_three (d : ZoneDistribution.t) :
  (forall v, In v (distribution_values d) -> 0 <= v) ->
  0 < sum_reduce (distribution_values d) ->
  97 <= percentages_sum (calculateZonePercentages d)
  /\ percentages_sum (calculateZonePercentages d) <= 103.
Proof.
  intros Hnonneg Htotal.
  destruct d as [t1 t2 t3 t4 t5 u].
  assert (H1 : 0 <= t1) by (apply Hnonneg; cbn; tauto).
  assert (H2 : 0 <= t2) by (apply Hnonneg; cbn; tauto).
  assert (H3 : 0 <= t3) by (apply Hnonneg; cbn; tauto).
  assert (H4 : 0 <= t4) by (apply Hnonneg; cbn; tauto).
  assert (H5 : 0 <= t5) by (apply Hnonneg; cbn; tauto).
  assert (H6 : 0 <= u) by (apply Hnonneg; cbn; tauto).
  clear Hnonneg.
  assert (HT : sum_reduce (distribution_values (ZoneDistribution.mk t1 t2 t3 t4 t5 u))
               == t1 + t2 + t3 + t4 + t5 + u).
  { unfold sum_reduce, distribution_values. cbn. ring. }
  rewrite HT in Htotal. clear HT.
  destruct (rounded_total t1 t2 t3 t4 t5 u H1 H2 H3 H4 H5 H6) as [Hlow Hup].
  unfold calculateZonePercentages, distribution_values.
  cbn [ZoneDistribution.zone1 ZoneDistribution.zone2
       ZoneDistribution.zone3 ZoneDistribution.zone4 ZoneDistribution.zone5
       ZoneDistribution.unknown].
  generalize dependent (fold_left (fun sum time => fl (sum + time))
                          [t1; t2; t3; t4; t5; u] 0).
  intros total Hlow Hup.
  assert (Hzero : Qeq_bool total 0 = false) by (apply Qeq_bool_false; lra).
  rewrite Hzero. unfold percentages_sum.
  cbn [ZonePercentages.zone1 ZonePercentages.zone2 ZonePercentages.zone3
       ZonePercentages.zone4 ZonePercentages.zone5 ZonePercentages.unknown].
  apply sum_of_rounds;
    apply (sum_of_shares t1 t2 t3 t4 t5 u total); assumption.
Qed.

Lemma percentages_within_three_witness :
  97 <= percentages_sum (calculateZonePercentages all_halves)
  /\ percentages_sum (calculateZonePercentages all_halves) <= 103.
Proof.
  apply (percentages_within_three all_halves).
  - intros v Hv. cbn in Hv.
    repeat (destruct Hv as [<- | Hv]; [vm_compute; discriminate |]). destruct Hv.
  - vm_compute. reflexivity.
Defined.

(** Both ends of the interval are reached: six shares that are halves
    exactly all go down in doubles, or all go up. *)
Example percentages_sum_97 :
  percentages_sum (calculateZonePercentages all_halves) == 97.
Proof. reflexivity. Qed.

Example percentages_sum_103 :
  percentages_sum
    (calculateZonePercentages
       {| ZoneDistribution.zone1 := 33; ZoneDistribution.zone2 := 33;
          ZoneDistribution.zone3 := 33; ZoneDistribution.zone4 := 33;
          ZoneDistribution.zone5 := 33; ZoneDistribution.unknown := 35 |}) == 103.
Proof. reflexivity. Qed.

(** ** Record detection: the shape of a pass *)

Lemma detectDistanceRecords_pass (activity : Activity.t) (R : list PersonalRecord.t) :
  detectDistanceRecords activity R
  = single_pass
      (is_record_of RecordType.distance RecordCategory.longest (Activity.sport activity))
      Qgtb (Activity.distanceMeters activity)
      (result_of RecordType.distance RecordCategory.longest
         (Activity.distanceMeters activity)
         (fun record => gain_over record (Activity.distanceMeters activity)))
      R.
Proof. reflexivity. Qed.

Lemma detectSpeedRecords_pass (activity : Activity.t) (R : list PersonalRecord.t) :
  detectSpeedRecords activity R
  = single_pass
      (is_record_of RecordType.speed RecordCategory.fastest (Activity.sport activity))
      Qgtb (Statistics.maxSpeed (calculateStatistics activity))
      (result_of RecordType.speed RecordCategory.fastest
         (Statistics.maxSpeed (calculateStatistics activity))
         (fun record => gain_over record (Statistics.maxSpeed (calculateStatistics activity))))
      R
    ++ (if in_band activity 9500 10500 then
          single_pass
            (is_record_of RecordType.speed RecordCategory.km10 (Activity.sport activity))
            Qgtb (Statistics.averageSpeed (calculateStatistics activity))
            (result_of RecordType.speed RecordCategory.km10
               (Statistics.averageSpeed (calculateStatistics activity))
               (fun record =>
                  gain_over record (Statistics.averageSpeed (calculateStatistics activity))))
            R
        else []).
Proof. reflexivity. Qed.

Lemma detectTimeRecords_pass (activity : Activity.t) (R : list PersonalRecord.t) :
  detectTimeRecords activity R = flat_map (time_pass activity R) DISTANCE_CATEGORIES.
Proof. reflexivity. Qed.

Lemma detectElevationRecords_pass (activity : Activity.t) (R : list PersonalRecord.t) :
  detectElevationRecords activity R
  = match Statistics.elevationGain (calculateStatistics activity) with
    | None => []
    | Some g =>
        if Qeq_bool g 0 then []
        else single_pass
               (is_record_of RecordType.elevation RecordCategory.highest
                  (Activity.sport activity))
               Qgtb g
               (result_of RecordType.elevation RecordCategory.highest g
                  (fun record => gain_over record g))
               R
    end.
Proof. reflexivity. Qed.

Lemma detectCalorieRecords_pass (activity : Activity.t) (R : list PersonalRecord.t) :
  detectCalorieRecords activity R
  = match Activity.calories activity with
    | None => []
    | Some cal =>
        if Qeq_bool cal 0 then []
        else single_pass (is_calorie_record_of (Activity.sport activity)) Qgtb cal
               (result_of RecordType.calories RecordCategory.longest cal
                  (fun record => gain_over record cal))
               R
    end.
Proof. reflexivity. Qed.

Lemma in_single_pass p better v result R d :
  In d (single_pass p better v result R) <->
  match find p R with
  | None => True
  | Some r => better v (PersonalRecord.value r) = true
  end /\ d = result (find p R).
Proof.
  unfold single_pass.
  destruct (find p R) as [r |]; [destruct (better v (PersonalRecord.value r)) |];
    simpl; intuition congruence.
Qed.

Lemma isRecord_all (l : list RecordDetectionResult.t) :
  (forall d, In d l -> RecordDetectionResult.isRecord d = true) ->
  List.filter RecordDetectionResult.isRecord l = l.
Proof.
  induction l as [| d l IH]; intros Hall; simpl; [reflexivity |].
  rewrite (Hall d (or_introl eq_refl)). f_equal. apply IH.
  intros d' Hd'. apply Hall. now right.
Qed.

Lemma single_pass_isRecord p better v ty c imp R d :
  In d (single_pass p better v (result_of ty c v imp) R) ->
  RecordDetectionResult.isRecord d = true.
Proof. rewrite in_single_pass. now intros [_ ->]. Qed.

Lemma passes_isRecord (activity : Activity.t) (R : list PersonalRecord.t) d :
  In d (passes activity R) -> RecordDetectionResult.isRecord d = true.
Proof.
  unfold passes.
  rewrite detectDistanceRecords_pass, detectSpeedRecords_pass, detectTimeRecords_pass,
    detectElevationRecords_pass, detectCalorieRecords_pass.
  rewrite !in_app_iff, in_flat_map. unfold time_pass.
  intros [Hd | [[Hd | Hd] | [(entry & _ & Hd) | [Hd | Hd]]]];
    repeat match type of Hd with
      | In _ (if ?b then _ else _) => destruct b
      | In _ (match ?o with Some _ => _ | None => _ end) => destruct o
      end;
    try contradiction; eapply single_pass_isRecord; eassumption.
Qed.

(** The final filter of [detectRecords] keeps every result. *)
Lemma detectRecords_passes (activity : Activity.t) (R : list PersonalRecord.t) :
  detectRecords activity R = passes activity R.
Proof.
  unfold detectRecords. apply isRecord_all. apply passes_isRecord.
Qed.

Lemma flat_map_nested {A B C : Type} (f : B -> list C) (g : A -> list B) (l : list A) :
  flat_map f (flat_map g l) = flat_map (fun a => flat_map f (g a)) l.
Proof.
  induction l as [| a l IH]; simpl; [reflexivity |].
  now rewrite flat_map_app, IH.
Qed.

Lemma passes_run (activity : Activity.t) (R : list PersonalRecord.t) :
  passes activity R = flat_map (run_pass R) (applicable_passes activity).
Proof.
  unfold passes, applicable_passes.
  rewrite detectSpeedRecords_pass, detectTimeRecords_pass,
    detectElevationRecords_pass, detectCalorieRecords_pass.
  rewrite !flat_map_app, flat_map_nested.
  cbn [flat_map app]. rewrite !app_nil_r, <- !app_assoc.
  f_equal. f_equal. f_equal; [| f_equal; [| f_equal]].
  - destruct (in_band activity 9500 10500); [| reflexivity].
    cbn [flat_map]. now rewrite app_nil_r.
  - apply flat_map_ext. intros entry. unfold time_pass.
    destruct (in_band activity _ _); [| reflexivity].
    cbn [flat_map]. now rewrite app_nil_r.
  - destruct (Statistics.elevationGain _) as [g |]; [| reflexivity].
    destruct (Qeq_bool g 0); [reflexivity |].
    cbn [flat_map]. now rewrite app_nil_r.
  - destruct (Activity.calories activity) as [cal |]; [| reflexivity].
    destruct (Qeq_bool cal 0); [reflexivity |].
    cbn [flat_map]. now rewrite app_nil_r.
Qed.

Lemma applicable_passes_spec (activity : Activity.t) (pass : Pass.t) :
  In pass (applicable_passes activity) <-> applicable activity pass.
Proof.
  unfold applicable_passes. rewrite !in_app_iff, in_flat_map. split.
  - intros [[<- | [<- | []]] | [Hk | [([c [[min max] label]] & He & Ht) | [Hg | Hc]]]].
    + constructor.
    + constructor.
    + destruct (in_band activity 9500 10500) eqn:Hb; [| contradiction].
      destruct Hk as [<- | []]. now constructor.
    + cbn [fst snd] in Ht.
      destruct (in_band activity min max) eqn:Hb; [| contradiction].
      destruct Ht as [<- | []]. now apply (applicable_time _ c min max label).
    + destruct (Statistics.elevationGain _) as [g |] eqn:Hgain; [| contradiction].
      destruct (Qeq_bool g 0) eqn:Hz; [contradiction |].
      destruct Hg as [<- | []]. now constructor.
    + destruct (Activity.calories activity) as [cal |] eqn:Hcal; [| contradiction].
      destruct (Qeq_bool cal 0) eqn:Hz; [contradiction |].
      destruct Hc as [<- | []]. now constructor.
  - intros [| | Hb | c min max label He Hb | g Hg Hz | cal Hcal Hz].
    + left. now left.
    + left. right. now left.
    + right. left. rewrite Hb. now left.
    + right. right. left. exists (c, (min, max, label)). split; [exact He |].
      cbn [fst snd]. rewrite Hb. now left.
    + right. right. right. left. rewrite Hg, Hz. now left.
    + right. right. right. right. rewrite Hcal, Hz. now left.
Qed.

(** A result of [detectRecords] is the result of an applicable pass. *)
Lemma in_detectRecords (activity : Activity.t) (R : list PersonalRecord.t) d :
  In d (detectRecords activity R) <->
  exists pass,
    applicable activity pass
    /\ match find (Pass.lookup pass) R with
       | None => True
       | Some r => Pass.better pass (Pass.value pass) (PersonalRecord.value r) = true
       end
    /\ d = result_of (Pass.type pass) (Pass.category pass) (Pass.value pass)
             (Pass.gain pass) (find (Pass.lookup pass) R).
Proof.
  rewrite detectRecords_passes, passes_run, in_flat_map.
  split; intros (pass & Hpass & Hd); exists pass.
  - apply applicable_passes_spec in Hpass. apply in_single_pass in Hd. tauto.
  - split; [now apply applicable_passes_spec |]. now apply in_single_pass.
Qed.

Lemma is_record_of_spec ty c sport r :
  is_record_of ty c sport r = true <->
  PersonalRecord.type r = ty /\ PersonalRecord.category r = c
  /\ PersonalRecord.sport r = sport.
Proof.
  unfold is_record_of. rewrite !andb_true_iff, !bool_decide_eq_true. tauto.
Qed.

Lemma is_calorie_record_of_spec sport r :
  is_calorie_record_of sport r = true <->
  PersonalRecord.type r = RecordType.calories /\ PersonalRecord.sport r = sport.
Proof.
  unfold is_calorie_record_of. rewrite andb_true_iff, !bool_decide_eq_true. tauto.
Qed.

Lemma find_none_iff {A : Type} (p : A -> bool) (l : list A) :
  find p l = None <-> forall x, In x l -> p x = false.
Proof.
  split; [apply find_none |].
  intros Hall. destruct (find p l) as [x |] eqn:Hfind; [| reflexivity].
  apply find_some in Hfind. destruct Hfind as [Hin Hp].
  rewrite (Hall x Hin) in Hp. discriminate.
Qed.

(** ** Improvement over no previous record *)

(** C1, counterexample. A first run over 5 km in 1500 s: the time record
    has improvement 0, not 1500. *)
Lemma improvement_is_new_value_fails : ~ improvement_is_new_value five_km_run [].
Proof.
  intros Hclaim.
  specialize (Hclaim
    (result_of RecordType.time RecordCategory.km5 1500 (time_gain 1500) None)
    RecordType.time RecordCategory.km5 1500).
  assert (Himp : Some 0 = Some 1500); [| discriminate Himp].
  apply Hclaim; try reflexivity.
  - right. right. left. reflexivity.
  - intros r [].
Qed.

(** C1 (amended). When the lookup of a pass finds no previous record (no
    record of the type and the sport with the category of the result; for
    calories, no record of the type and the sport in any category), the
    result has no previous value, and its improvement is the new value for
    the distance, speed, elevation and calories passes and 0 for the
    time-on-distance pass. *)
Theorem improvement_without_previous (activity : Activity.t)
    (R : list PersonalRecord.t) (d : RecordDetectionResult.t)
    (ty : RecordType.t) (c : RecordCategory.t) (v : Q) :
  In d (detectRecords activity R) ->
  RecordDetectionResult.recordType d = Some ty ->
  RecordDetectionResult.category d = Some c ->
  RecordDetectionResult.value d = Some v ->
  (forall r, In r R ->
             PersonalRecord.type r = ty ->
             PersonalRecord.sport r = Activity.sport activity ->
             ty = RecordType.calories \/ PersonalRecord.category r = c -> False) ->
  RecordDetectionResult.previousValue d = None
  /\ RecordDetectionResult.improvement d
     = Some (match ty with RecordType.time => 0 | _ => v end).
Proof.
  intros Hd Hty Hc Hv Hnone.
  apply in_detectRecords in Hd. destruct Hd as (pass & Hpass & _ & ->).
  cbn in Hty, Hc, Hv. injection Hty as <-. injection Hc as <-. injection Hv as <-.
  assert (Hfind : find (Pass.lookup pass) R = None).
  { apply find_none_iff. intros r Hr.
    destruct (Pass.lookup pass r) eqn:Hlook; [exfalso | reflexivity].
    destruct Hpass; cbn in Hlook, Hnone;
      first [ apply is_record_of_spec in Hlook; destruct Hlook as (Ht & Hcat & Hs)
            | apply is_calorie_record_of_spec in Hlook; destruct Hlook as (Ht & Hs) ];
      apply (Hnone r Hr Ht Hs); auto. }
  rewrite Hfind. destruct Hpass; split; reflexivity.
Qed.

Lemma improvement_without_previous_witness :
  RecordDetectionResult.previousValue
    (result_of RecordType.distance RecordCategory.longest 5000
       (fun record => gain_over record 5000) None) = None
  /\ RecordDetectionResult.improvement
       (result_of RecordType.distance RecordCategory.longest 5000
          (fun record => gain_over record 5000) None) = Some 5000.
Proof.
  apply (improvement_without_previous five_km_run []
           (result_of RecordType.distance RecordCategory.longest 5000
              (fun record => gain_over record 5000) None)
           RecordType.distance RecordCategory.longest 5000);
    try reflexivity.
  - left. reflexivity.
  - intros r [].
Defined.

(** The calorie pass looks up by type and sport alone: a calorie record of
    another category counts as the previous record of (calories, longest). *)
Example calorie_lookup_ignores_category :
  detectCalorieRecords (plain_activity "run-7" "Running" 3000 900 (Some 300))
    [calories_200_fastest]
  = [result_of RecordType.calories RecordCategory.longest 300
       (fun record => gain_over record 300) (Some calories_200_fastest)]
  /\ gain_over (Some calories_200_fastest) 300 == 100.
Proof. split; reflexivity. Qed.

(** ** Time records: lower is better *)

(** C5, counterexample. The detector compares with the first record of the
    triple in the list.  With an older record of 1500 s before the record
    of 1200 s, a run in 1300 s is flagged as a time record of the band,
    with improvement 200, and a run in 1100 s is flagged with improvement
    400. *)
Lemma time_record_against_any_fails :
  ~ time_record_against_any slower_run [five_km_in_1500; five_km_in_1200]
  /\ ~ time_record_against_any faster_run [five_km_in_1500; five_km_in_1200].
Proof.
  split; intros H.
  - destruct (H ltac:(vm_compute; discriminate) ltac:(vm_compute; discriminate)
                five_km_in_1200 ltac:(right; left; reflexivity) eq_refl
                ltac:(reflexivity)) as [_ Hslow].
    apply (Hslow ltac:(reflexivity)
             (result_of RecordType.time RecordCategory.km5 1300 (time_gain 1300)
                (Some five_km_in_1500))).
    + vm_compute. tauto.
    + split; reflexivity.
  - destruct (H ltac:(vm_compute; discriminate) ltac:(vm_compute; discriminate)
                five_km_in_1200 ltac:(right; left; reflexivity) eq_refl
                ltac:(reflexivity)) as [Hfast _].
    destruct (Hfast ltac:(reflexivity)) as (d & i & Hd & _ & Hty & Hc & Hi & Hi100).
    vm_compute in Hd.
    repeat (destruct Hd as [<- | Hd]; [try discriminate Hty; try discriminate Hc |]);
      [| contradiction].
    injection Hi as <-. vm_compute in Hi100. discriminate Hi100.
Qed.

Example slower_run_against_older_record :
  map (fun d => (RecordDetectionResult.isRecord d, RecordDetectionResult.value d,
                 RecordDetectionResult.improvement d))
    (detectTimeRecords slower_run [five_km_in_1500; five_km_in_1200])
  = [(true, Some 1300, Some 200)].
Proof. reflexivity. Qed.

(** C5 (amended). For an activity in the 5 km band, when the first record for
    (time, 5km, sport) in the list, the one the detector compares with,
    has the value 1200: a total time of 1100 is a new record with
    improvement 100, a total time of 1300 is not a time record for the
    band. *)
Theorem time_record_lower_is_better (activity : Activity.t)
    (R : list PersonalRecord.t) (r : PersonalRecord.t) :
  4500 <= Activity.distanceMeters activity ->
  Activity.distanceMeters activity <= 5500 ->
  find (is_record_of RecordType.time RecordCategory.km5 (Activity.sport activity)) R
  = Some r ->
  PersonalRecord.value r == 1200 ->
  (Activity.totalTimeSeconds activity == 1100 ->
   exists d i,
     In d (detectRecords activity R)
     /\ RecordDetectionResult.isRecord d = true
     /\ RecordDetectionResult.recordType d = Some RecordType.time
     /\ RecordDetectionResult.category d = Some RecordCategory.km5
     /\ RecordDetectionResult.value d = Some (Activity.totalTimeSeconds activity)
     /\ RecordDetectionResult.improvement d = Some i /\ i == 100)
  /\ (Activity.totalTimeSeconds activity == 1300 ->
      forall d,
        In d (detectRecords activity R) ->
        ~ (RecordDetectionResult.recordType d = Some RecordType.time
           /\ RecordDetectionResult.category d = Some RecordCategory.km5)).
Proof.
  intros Hmin Hmax Hfind Hvalue. split.
  - intros Htime.
    exists (result_of RecordType.time RecordCategory.km5
              (Activity.totalTimeSeconds activity)
              (time_gain (Activity.totalTimeSeconds activity)) (Some r)),
           (PersonalRecord.value r - Activity.totalTimeSeconds activity).
    repeat split; [| lra].
    apply in_detectRecords. exists (time_band_pass activity RecordCategory.km5).
    cbn [Pass.lookup Pass.better Pass.value Pass.type Pass.category Pass.gain
         time_band_pass].
    rewrite Hfind. repeat split.
    + apply (applicable_time _ RecordCategory.km5 4500 5500 "5 km").
      * right. now left.
      * unfold in_band. apply andb_true_iff.
        split; [apply Qgeb_ge | apply Qle_bool_iff]; assumption.
    + apply Qltb_lt. lra.
  - intros Htime d Hd [Hty Hc].
    apply in_detectRecords in Hd. destruct Hd as (pass & Hpass & Hbetter & ->).
    cbn in Hty, Hc. destruct Hpass; try discriminate Hty.
    cbn in Hc. injection Hc as ->.
    cbn [Pass.lookup Pass.better Pass.value time_band_pass] in Hbetter.
    rewrite Hfind in Hbetter. apply Qltb_lt in Hbetter. lra.
Qed.

Lemma time_record_lower_is_better_witness :
  exists d i,
    In d (detectRecords faster_run [five_km_in_1200])
    /\ RecordDetectionResult.isRecord d = true
    /\ RecordDetectionResult.recordType d = Some RecordType.time
    /\ RecordDetectionResult.category d = Some RecordCategory.km5
    /\ RecordDetectionResult.value d = Some (Activity.totalTimeSeconds faster_run)
    /\ RecordDetectionResult.improvement d = Some i /\ i == 100.
Proof.
  apply (proj1 (time_record_lower_is_better faster_run [five_km_in_1200]
                  five_km_in_1200 ltac:(vm_compute; discriminate)
                  ltac:(vm_compute; discriminate) eq_refl ltac:(reflexivity))).
  reflexivity.
Defined.

(** The same with the previous record given by the records themselves:
    a record of the triple exists, and every record of the triple has the
    value 1200. *)
Corollary time_record_of_1200 (activity : Activity.t) (R : list PersonalRecord.t) :
  4500 <= Activity.distanceMeters activity ->
  Activity.distanceMeters activity <= 5500 ->
  (exists r, In r R
             /\ is_record_of RecordType.time RecordCategory.km5
                  (Activity.sport activity) r = true) ->
  (forall r, In r R ->
             is_record_of RecordType.time RecordCategory.km5
               (Activity.sport activity) r = true ->
             PersonalRecord.value r == 1200) ->
  (Activity.totalTimeSeconds activity == 1100 ->
   exists d i,
     In d (detectTimeRecords activity R)
     /\ RecordDetectionResult.category d = Some RecordCategory.km5
     /\ RecordDetectionResult.improvement d = Some i /\ i == 100)
  /\ (Activity.totalTimeSeconds activity == 1300 -> detectTimeRecords activity R = []).
Proof.
  intros Hmin Hmax (r0 & Hin0 & Hr0) Hall.
  destruct (find (is_record_of RecordType.time RecordCategory.km5
                    (Activity.sport activity)) R) as [r |] eqn:Hfind.
  2: { apply find_none with (x := r0) in Hfind; [congruence | exact Hin0]. }
  pose proof (find_some _ _ Hfind) as [Hin Hr].
  pose proof (Hall r Hin Hr) as Hvalue.
  assert (Hband : in_band activity 4500 5500 = true).
  { unfold in_band. apply andb_true_iff.
    split; [apply Qgeb_ge | apply Qle_bool_iff]; assumption. }
  assert (Hout : in_band activity 900 1100 = false
                 /\ in_band activity 9500 10500 = false
                 /\ in_band activity 20000 22000 = false
                 /\ in_band activity 41000 43000 = false).
  { unfold in_band. repeat split; apply andb_false_iff.
    - right. apply Qle_bool_false. lra.
    - left. apply Qle_bool_false. lra.
    - left. apply Qle_bool_false. lra.
    - left. apply Qle_bool_false. lra. }
  destruct Hout as (H1 & H10 & H21 & H42).
  rewrite detectTimeRecords_pass. unfold time_pass, single_pass.
  cbn [flat_map DISTANCE_CATEGORIES fst snd].
  rewrite H1, Hband, H10, H21, H42, Hfind. cbn [app].
  split; intros Htime.
  - assert (Hlt : Qltb (Activity.totalTimeSeconds activity) (PersonalRecord.value r) = true)
      by (apply Qltb_lt; lra).
    rewrite Hlt. eexists. eexists. split; [left; reflexivity |].
    cbn. repeat split. lra.
  - assert (Hge : Qltb (Activity.totalTimeSeconds activity) (PersonalRecord.value r) = false)
      by (apply Qltb_nlt; lra).
    now rewrite Hge.
Qed.

(** The same distance in 1300 s. *)
Example slower_run_is_no_time_record :
  detectTimeRecords slower_run [five_km_in_1200] = [].
Proof. reflexivity. Qed.

(** ** Zone lookup *)

Lemma in_zone_spec (hr : Q) (z : HeartRateZone.t) :
  in_zone hr z = true <-> contains z hr.
Proof.
  unfold in_zone, contains. now rewrite andb_true_iff, Qgeb_ge, Qle_bool_iff.
Qed.

Lemma in_zone_false (hr : Q) (z : HeartRateZone.t) :
  in_zone hr z = false <-> ~ contains z hr.
Proof. rewrite <- in_zone_spec. symmetry. apply not_true_iff_false. Qed.

Lemma find_first {A : Type} (p : A -> bool) (before after : list A) (x : A) :
  (forall y, In y before -> p y = false) ->
  p x = true ->
  find p (before ++ x :: after) = Some x.
Proof.
  intros Hbefore Hx. induction before as [| y before IH]; simpl.
  - now rewrite Hx.
  - rewrite (Hbefore y (or_introl eq_refl)). apply IH.
    intros y' Hy'. apply Hbefore. now right.
Qed.

(** C7, counterexample. The zones of a maximal heart rate of 190 share
    their bounds: 114 bpm lies in the range of zone 2, [114, 133], and the
    lookup answers zone 1, whose range [95, 114] comes first. *)
Lemma zone_lookup_clamps_fails : ~ zone_lookup_clamps (defineZones 190 None age) 114.
Proof.
  intros Hclaim. destruct Hclaim as [Hinside _]; [reflexivity |].
  destruct (nth_error (defineZones 190 None age) 1) as [z2 |] eqn:Hz2;
    [| discriminate Hz2].
  specialize (Hinside z2 (nth_error_In _ _ Hz2)).
  vm_compute in Hz2. injection Hz2 as <-.
  assert (Hin : contains
                  {| HeartRateZone.zone := Zone2;
                     HeartRateZone.name := ZONE_NAMES Zone2;
                     HeartRateZone.description := ZONE_DESCRIPTIONS Zone2;
                     HeartRateZone.minHR := 114; HeartRateZone.maxHR := 133;
                     HeartRateZone.minPercent := 60; HeartRateZone.maxPercent := 70;
                     HeartRateZone.color := ZONE_COLORS Zone2;
                     HeartRateZone.benefits := getZoneBenefits Zone2;
                     HeartRateZone.recommendations := getZoneRecommendations Zone2 |}
                  114)
    by (split; vm_compute; discriminate).
  specialize (Hinside Hin). vm_compute in Hinside. discriminate Hinside.
Qed.

(** C7 (amended). For five zones numbered 1 to 5 in this order and every
    heart rate: a value inside the range of some zone maps to the first
    zone of the list whose range holds it; a value inside no range maps to
    zone 5 when it is strictly above the maximum of zone 5, otherwise to
    zone 1 when it is strictly below the minimum of zone 1, and otherwise
    (a gap between the ranges) to none, and [calculateTimeInZones] adds the
    duration of such an interval to the unknown bucket. *)
Theorem zone_lookup_first_match (zones : list HeartRateZone.t) (hr : Q)
    (z1 z5 : HeartRateZone.t) :
  ascending zones ->
  nth_error zones 0 = Some z1 ->
  nth_error zones 4 = Some z5 ->
  (forall before z after,
     zones = before ++ z :: after ->
     (forall z', In z' before -> ~ contains z' hr) ->
     contains z hr ->
     getZoneForHeartRate hr zones = Return (Some (HeartRateZone.zone z)))
  /\ ((forall z, In z zones -> ~ contains z hr) ->
      (HeartRateZone.maxHR z5 < hr ->
       getZoneForHeartRate hr zones = Return (Some Zone5))
      /\ (hr <= HeartRateZone.maxHR z5 -> hr < HeartRateZone.minHR z1 ->
          getZoneForHeartRate hr zones = Return (Some Zone1))
      /\ (hr <= HeartRateZone.maxHR z5 -> HeartRateZone.minHR z1 <= hr ->
          getZoneForHeartRate hr zones = Return None
          /\ forall d duration,
               attribute zones d (Some hr, duration)
               = Return (add_unknown d duration))).
Proof.
  intros _ H1 H5. split.
  - intros before z after -> Hbefore Hz. unfold getZoneForHeartRate.
    rewrite (find_first (in_zone hr) before after z); [reflexivity | | ].
    + intros z' Hz'. apply in_zone_false. now apply Hbefore.
    + now apply in_zone_spec.
  - intros Hnone.
    assert (Hfind : find (in_zone hr) zones = None).
    { apply find_none_iff. intros z Hz. apply in_zone_false. now apply Hnone. }
    unfold getZoneForHeartRate, index. rewrite Hfind, H1, H5. cbn [bind].
    split; [| split].
    + intros Habove. apply Qgtb_gt in Habove. now rewrite Habove.
    + intros Hle Hbelow. apply Qgtb_ngt in Hle. apply Qltb_lt in Hbelow.
      now rewrite Hle, Hbelow.
    + intros Hle Hge. apply Qgtb_ngt in Hle. apply Qltb_nlt in Hge.
      split; [now rewrite Hle, Hge |].
      intros d duration. cbn [attribute]. unfold getZoneForHeartRate, index.
      rewrite Hfind, H1, H5. cbn [bind]. rewrite Hle, Hge.
      now destruct (Qeq_bool hr 0).
Qed.

Lemma zone_lookup_first_match_witness :
  getZoneForHeartRate 105 zones_with_gap = Return None
  /\ forall d duration,
       attribute zones_with_gap d (Some 105, duration)
       = Return (add_unknown d duration).
Proof.
  apply (zone_lookup_first_match zones_with_gap 105
           (manual_zone Zone1 50 100) (manual_zone Zone5 141 150)
           eq_refl eq_refl eq_refl).
  - intros z Hz [Hmin Hmax].
    repeat (destruct Hz as [<- | Hz]; [vm_compute in Hmin, Hmax; tauto |]).
    exact Hz.
  - vm_compute. discriminate.
  - vm_compute. discriminate.
Defined.

(** Zones given by hand need not be nested in order: with a zone 4 wider
    than zone 5 a value above the maximum of zone 5 stays in zone 4; with
    zone 5 below zone 1 a value under the minimum of zone 1 and above the
    maximum of zone 5 goes to zone 5. *)
Example above_zone5_inside_zone4 :
  getZoneForHeartRate 190
    [manual_zone Zone1 95 114; manual_zone Zone2 114 133; manual_zone Zone3 133 152;
     manual_zone Zone4 152 200; manual_zone Zone5 171 180]
  = Return (Some Zone4).
Proof. reflexivity. Qed.

Example below_zone1_above_zone5 :
  getZoneForHeartRate 90
    [manual_zone Zone1 100 110; manual_zone Zone2 110 120; manual_zone Zone3 120 130;
     manual_zone Zone4 130 140; manual_zone Zone5 70 80]
  = Return (Some Zone5).
Proof. reflexivity. Qed.

(** The array of zones is indexed at 4 and 0 without a test of its length:
    with fewer than five zones a value outside every range throws. *)
Example short_zone_list_throws :
  getZoneForHeartRate 200 [manual_zone Zone1 95 114] = Throw.
Proof. reflexivity. Qed.

(** ** Detection against its own output *)

(** C3, counterexample. A run of 8000 m against a longest distance of
    5000 m: the lookup of the second run still finds the record of 5000 m,
    which comes first, and the distance record is detected again. *)
Lemma detection_is_idempotent_fails :
  ~ detection_is_idempotent 1 long_run [longest_5000].
Proof.
  intros Hclaim.
  apply (Hclaim
           (result_of RecordType.distance RecordCategory.longest 8000
              (fun record => gain_over record 8000) (Some longest_5000))
           (result_of RecordType.distance RecordCategory.longest 8000
              (fun record => gain_over record 8000) (Some longest_5000))).
  - left. reflexivity.
  - left. reflexivity.
  - reflexivity.
Qed.

Lemma find_app_first {A : Type} (p : A -> bool) (l1 l2 : list A) :
  find p (l1 ++ l2)
  = match find p l1 with
    | Some x => Some x
    | None => find p l2
    end.
Proof.
  induction l1 as [| x l1 IH]; simpl; [reflexivity |].
  now destruct (p x).
Qed.

Lemma filter_flat_map {A B : Type} (q : B -> bool) (f : A -> list B) (l : list A) :
  List.filter q (flat_map f l) = flat_map (fun a => List.filter q (f a)) l.
Proof.
  induction l as [| a l IH]; simpl; [reflexivity |].
  now rewrite List.filter_app, IH.
Qed.

Lemma flat_map_ext_In {A B : Type} (f g : A -> list B) (l : list A) :
  (forall a, In a l -> f a = g a) -> flat_map f l = flat_map g l.
Proof.
  induction l as [| a l IH]; intros Heq; simpl; [reflexivity |].
  rewrite (Heq a (or_introl eq_refl)). f_equal. apply IH.
  intros a' Ha'. apply Heq. now right.
Qed.

Lemma flat_map_nil {A B : Type} (l : list A) :
  flat_map (fun _ : A => @nil B) l = [].
Proof. induction l; simpl; auto. Qed.

(** A pass run again over the existing records followed by records [N]
    that hold the value under test for its lookup: the result is repeated
    exactly when the first run replaced a record. *)
Lemma single_pass_rerun p better v result (R N : list PersonalRecord.t) :
  (forall record,
     RecordDetectionResult.previousValue (result record)
     = option_map PersonalRecord.value record) ->
  (forall x, better x x = false) ->
  (forall r, In r N -> p r = true -> PersonalRecord.value r = v) ->
  (find p R = None -> exists r, In r N /\ p r = true) ->
  single_pass p better v result (R ++ N)
  = List.filter has_previous (single_pass p better v result R).
Proof.
  intros Hprev Hirr Hvalue Hnew. unfold single_pass. rewrite find_app_first.
  destruct (find p R) as [r |] eqn:HR.
  - destruct (better v (PersonalRecord.value r)); [| reflexivity].
    cbn [List.filter]. unfold has_previous. now rewrite Hprev.
  - destruct (Hnew eq_refl) as (r0 & Hin0 & Hp0).
    destruct (find p N) as [r' |] eqn:HN.
    + apply find_some in HN. destruct HN as [Hin' Hp'].
      rewrite (Hvalue r' Hin' Hp'), Hirr.
      cbn [List.filter]. unfold has_previous. now rewrite Hprev.
    + apply find_none with (x := r0) in HN; [congruence | exact Hin0].
Qed.

(** Two applicable passes of one type and category are the same pass. *)
Lemma applicable_unique (activity : Activity.t) (pass pass' : Pass.t) :
  applicable activity pass -> applicable activity pass' ->
  Pass.type pass = Pass.type pass' ->
  Pass.category pass = Pass.category pass' ->
  pass = pass'.
Proof.
  intros [] []; cbn; intros Hty Hc; try discriminate; try reflexivity;
    congruence.
Qed.

(** The lookup of a pass accepts a record of its own triple. *)
Lemma lookup_own (activity : Activity.t) (pass : Pass.t) (r : PersonalRecord.t) :
  applicable activity pass ->
  PersonalRecord.type r = Pass.type pass ->
  PersonalRecord.category r = Pass.category pass ->
  PersonalRecord.sport r = Activity.sport activity ->
  Pass.lookup pass r = true.
Proof.
  intros [] Hty Hc Hs; cbn in *;
    first [ apply is_record_of_spec | apply is_calorie_record_of_spec ]; auto.
Qed.

(** A record accepted by the lookup of a pass and created by a pass holds
    the value that the first pass tests. *)
Lemma lookup_value (activity : Activity.t) (pass pass' : Pass.t) (r : PersonalRecord.t) :
  applicable activity pass -> applicable activity pass' ->
  Pass.lookup pass r = true ->
  PersonalRecord.type r = Pass.type pass' ->
  PersonalRecord.category r = Pass.category pass' ->
  Pass.value pass' = Pass.value pass.
Proof.
  intros [] []; cbn; intros Hlook Hty Hc;
    first [ apply is_record_of_spec in Hlook; destruct Hlook as (Ht & Hcat & _)
          | apply is_calorie_record_of_spec in Hlook; destruct Hlook as (Ht & _) ];
    try reflexivity; congruence.
Qed.

Lemma better_irreflexive (activity : Activity.t) (pass : Pass.t) (x : Q) :
  applicable activity pass -> Pass.better pass x x = false.
Proof.
  intros []; cbn; first [apply Qgtb_irrefl | apply Qltb_nlt; apply Qle_refl].
Qed.

(** A record created from the results of a run comes from an applicable
    pass and holds its triple and value. *)
Lemma in_materialize (now : Z) (activity : Activity.t) (R : list PersonalRecord.t)
    (r : PersonalRecord.t) :
  In r (materialize now activity (detectRecords activity R)) ->
  exists pass,
    applicable activity pass
    /\ PersonalRecord.type r = Pass.type pass
    /\ PersonalRecord.category r = Pass.category pass
    /\ PersonalRecord.value r = Pass.value pass.
Proof.
  unfold materialize. rewrite in_flat_map. intros (d & Hd & Hr).
  apply in_detectRecords in Hd. destruct Hd as (pass & Hpass & _ & ->).
  cbn in Hr. destruct Hr as [<- | []].
  exists pass. cbn. auto.
Qed.

(** Every result of a run is materialized, whether it replaced a record or
    not. *)
Lemma materialize_fired (now : Z) (activity : Activity.t) (R : list PersonalRecord.t)
    (pass : Pass.t) :
  applicable activity pass ->
  match find (Pass.lookup pass) R with
  | None => True
  | Some r => Pass.better pass (Pass.value pass) (PersonalRecord.value r) = true
  end ->
  exists r,
    In r (materialize now activity (detectRecords activity R))
    /\ Pass.lookup pass r = true.
Proof.
  intros Hpass Hfires.
  pose (d := result_of (Pass.type pass) (Pass.category pass) (Pass.value pass)
               (Pass.gain pass) (find (Pass.lookup pass) R)).
  assert (Hd : In d (detectRecords activity R)).
  { apply in_detectRecords. exists pass. auto. }
  eexists. split.
  - unfold materialize. apply in_flat_map. exists d. split; [exact Hd |].
    cbn. left. reflexivity.
  - apply (lookup_own activity); auto.
Qed.

(** The second run, over the existing records followed by the records
    created from the first run, repeats exactly the results of the first run
    that replaced a previous record. *)
Lemma detectRecords_rerun (now : Z) (activity : Activity.t) (R : list PersonalRecord.t) :
  detectRecords activity (R ++ materialize now activity (detectRecords activity R))
  = List.filter has_previous (detectRecords activity R).
Proof.
  set (N := materialize now activity (detectRecords activity R)).
  rewrite !detectRecords_passes, !passes_run, filter_flat_map.
  apply flat_map_ext_In. intros pass Hpass.
  apply applicable_passes_spec in Hpass.
  apply single_pass_rerun.
  - reflexivity.
  - intros x. now apply (better_irreflexive activity).
  - intros r Hr Hlook. apply in_materialize in Hr.
    destruct Hr as (pass' & Hpass' & Hty & Hc & ->).
    now apply (lookup_value activity pass pass' r).
  - intros Hfind. apply materialize_fired; [assumption | now rewrite Hfind].
Qed.

(** C3 (amended). When the records created from [detectRecords(A, R)] are
    added after [R], the second run [detectRecords(A, R')] produces no
    result for a triple that the first run produced without a previous
    record; a triple whose previous record of [R] was beaten is looked up
    again in [R], which comes first, and is produced again. *)
Theorem first_records_not_detected_again (now : Z) (activity : Activity.t)
    (R : list PersonalRecord.t) (d1 d2 : RecordDetectionResult.t) :
  In d1 (detectRecords activity R) ->
  RecordDetectionResult.previousValue d1 = None ->
  In d2 (detectRecords activity
           (R ++ materialize now activity (detectRecords activity R))) ->
  triple d2 <> triple d1.
Proof.
  intros H1 Hprev H2 Htriple.
  rewrite detectRecords_rerun in H2. apply filter_In in H2. destruct H2 as [H2 Hhas].
  apply in_detectRecords in H1, H2.
  destruct H1 as (pass1 & Hpass1 & _ & ->). destruct H2 as (pass2 & Hpass2 & _ & ->).
  unfold triple in Htriple. cbn in Htriple. injection Htriple as Hty Hc.
  assert (pass2 = pass1) as -> by now apply (applicable_unique activity).
  unfold has_previous in Hhas. rewrite Hprev in Hhas. discriminate.
Qed.

Lemma first_records_not_detected_again_witness :
  triple (result_of RecordType.distance RecordCategory.longest 8000
            (fun record => gain_over record 8000) (Some longest_5000))
  <> triple (result_of RecordType.speed RecordCategory.fastest 0
               (fun record => gain_over record 0) None).
Proof.
  apply (first_records_not_detected_again 1 long_run [longest_5000]).
  - right. left. reflexivity.
  - reflexivity.
  - left. reflexivity.
Defined.

Lemma filter_none {A : Type} (q : A -> bool) (l : list A) :
  (forall x, In x l -> q x = false) -> List.filter q l = [].
Proof.
  induction l as [| x l IH]; intros Hall; simpl; [reflexivity |].
  rewrite (Hall x (or_introl eq_refl)). apply IH.
  intros x' Hx'. apply Hall. now right.
Qed.

(** Without existing records the second run produces nothing. *)
Corollary detectRecords_rerun_fresh (now : Z) (activity : Activity.t) :
  detectRecords activity (materialize now activity (detectRecords activity [])) = [].
Proof.
  change (materialize now activity (detectRecords activity []))
    with ([] ++ materialize now activity (detectRecords activity [])).
  rewrite detectRecords_rerun. apply filter_none. intros d Hd.
  apply in_detectRecords in Hd. now destruct Hd as (pass & _ & _ & ->).
Qed.

(** When the created records are put before the existing ones, the lookup
    sees them first and the second run produces nothing at all. *)
Lemma detectRecords_rerun_new_first (now : Z) (activity : Activity.t)
    (R : list PersonalRecord.t) :
  detectRecords activity (materialize now activity (detectRecords activity R) ++ R) = [].
Proof.
  set (N := materialize now activity (detectRecords activity R)).
  rewrite detectRecords_passes, passes_run.
  rewrite <- (flat_map_nil (applicable_passes activity)).
  apply flat_map_ext_In. intros pass Hpass.
  apply applicable_passes_spec in Hpass.
  unfold run_pass, single_pass. rewrite find_app_first.
  destruct (find (Pass.lookup pass) N) as [r |] eqn:HN.
  - apply find_some in HN. destruct HN as [Hin Hlook].
    apply in_materialize in Hin. destruct Hin as (pass' & Hpass' & Hty & Hc & Hv).
    rewrite Hv, (lookup_value activity pass pass' r) by assumption.
    now rewrite (better_irreflexive activity).
  - destruct (find (Pass.lookup pass) R) as [r |] eqn:HR.
    + destruct (Pass.better pass (Pass.value pass) (PersonalRecord.value r)) eqn:Hb;
        [| reflexivity].
      destruct (materialize_fired now activity R pass Hpass) as (r0 & Hin0 & Hlook0).
      { now rewrite HR. }
      apply find_none with (x := r0) in HN; [congruence | exact Hin0].
    + destruct (materialize_fired now activity R pass Hpass) as (r0 & Hin0 & Hlook0).
      { now rewrite HR. }
      apply find_none with (x := r0) in HN; [congruence | exact Hin0].
Qed.

(** * Further properties *)

(** ** Statistics of the samples *)

Lemma Qmax_cases (x y : Q) : Qmax x y = x \/ Qmax x y = y.
Proof. unfold Qmax, GenericMinMax.gmax. destruct (x ?= y); auto. Qed.

Lemma Qmin_cases (x y : Q) : Qmin x y = x \/ Qmin x y = y.
Proof. unfold Qmin, GenericMinMax.gmin. destruct (x ?= y); auto. Qed.

Lemma fold_Qmax_ge_init (l : list Q) (x : Q) : x <= fold_left Qmax l x.
Proof.
  revert x. induction l as [| y l IH]; intros x; simpl; [apply Qle_refl |].
  eapply Qle_trans; [apply (Q.le_max_l x y) | apply IH].
Qed.

Lemma fold_Qmax_upper (l : list Q) (x y : Q) :
  In y (x :: l) -> y <= fold_left Qmax l x.
Proof.
  revert x. induction l as [| z l IH]; intros x Hy.
  - destruct Hy as [Hy | []]. subst y. apply Qle_refl.
  - cbn [fold_left]. destruct Hy as [Hy | [Hy | Hy]].
    + subst y. eapply Qle_trans; [apply (Q.le_max_l x z) | apply fold_Qmax_ge_init].
    + subst y. eapply Qle_trans; [apply (Q.le_max_r x z) | apply fold_Qmax_ge_init].
    + apply IH. now right.
Qed.

Lemma fold_Qmax_In (l : list Q) (x : Q) : In (fold_left Qmax l x) (x :: l).
Proof.
  revert x. induction l as [| z l IH]; intros x; simpl; [now left |].
  destruct (IH (Qmax x z)) as [Heq | Hin]; [| now right; right].
  rewrite <- Heq. destruct (Qmax_cases x z) as [-> | ->]; auto.
Qed.

Lemma fold_Qmin_le_init (l : list Q) (x : Q) : fold_left Qmin l x <= x.
Proof.
  revert x. induction l as [| y l IH]; intros x; simpl; [apply Qle_refl |].
  eapply Qle_trans; [apply IH | apply (Q.le_min_l x y)].
Qed.

Lemma fold_Qmin_lower (l : list Q) (x y : Q) :
  In y (x :: l) -> fold_left Qmin l x <= y.
Proof.
  revert x. induction l as [| z l IH]; intros x Hy.
  - destruct Hy as [Hy | []]. subst y. apply Qle_refl.
  - cbn [fold_left]. destruct Hy as [Hy | [Hy | Hy]].
    + subst y. eapply Qle_trans; [apply fold_Qmin_le_init | apply (Q.le_min_l x z)].
    + subst y. eapply Qle_trans; [apply fold_Qmin_le_init | apply (Q.le_min_r x z)].
    + apply IH. now right.
Qed.

Lemma fold_Qmin_In (l : list Q) (x : Q) : In (fold_left Qmin l x) (x :: l).
Proof.
  revert x. induction l as [| z l IH]; intros x; simpl; [now left |].
  destruct (IH (Qmin x z)) as [Heq | Hin]; [| now right; right].
  rewrite <- Heq. destruct (Qmin_cases x z) as [-> | ->]; auto.
Qed.

Lemma len_cons {A : Type} (a : A) (l : list A) : len (a :: l) == len l + 1.
Proof.
  unfold len. cbn [length]. rewrite Nat2Z.inj_succ, <- Z.add_1_r, inject_Z_plus.
  reflexivity.
Qed.

Lemma len_nonneg {A : Type} (l : list A) : 0 <= len l.
Proof.
  unfold len. change 0 with (inject_Z 0). rewrite <- Zle_Qle. lia.
Qed.

Lemma fold_Qplus_upper (l : list Q) (a M : Q) :
  (forall y, In y l -> y <= M) -> fold_left Qplus l a <= a + len l * M.
Proof.
  revert a. induction l as [| y l IH]; intros a Hall.
  - cbn [fold_left]. assert (Hnil : len (@nil Q) == 0) by reflexivity.
    rewrite Hnil. lra.
  - cbn [fold_left]. rewrite len_cons.
    pose proof (Hall y (or_introl eq_refl)) as Hy.
    pose proof (IH (a + y) (fun z Hz => Hall z (or_intror Hz))) as Hrest. lra.
Qed.

Lemma fold_Qplus_lower (l : list Q) (a m : Q) :
  (forall y, In y l -> m <= y) -> a + len l * m <= fold_left Qplus l a.
Proof.
  revert a. induction l as [| y l IH]; intros a Hall.
  - cbn [fold_left]. assert (Hnil : len (@nil Q) == 0) by reflexivity.
    rewrite Hnil. lra.
  - cbn [fold_left]. rewrite len_cons.
    pose proof (Hall y (or_introl eq_refl)) as Hy.
    pose proof (IH (a + y) (fun z Hz => Hall z (or_intror Hz))) as Hrest. lra.
Qed.

(** The mean of a list that is not empty lies between two bounds of its
    elements. *)
Lemma mean_between (l : list Q) (m M : Q) :
  l <> [] ->
  (forall y, In y l -> m <= y) -> (forall y, In y l -> y <= M) ->
  m <= sum_reduce l / len l /\ sum_reduce l / len l <= M.
Proof.
  intros Hne Hm HM.
  assert (Hlen : 0 < len l).
  { destruct l as [| y l]; [contradiction |].
    rewrite len_cons. pose proof (len_nonneg l). lra. }
  pose proof (fold_Qplus_upper l 0 M HM) as Hup.
  pose proof (fold_Qplus_lower l 0 m Hm) as Hlow.
  fold (sum_reduce l) in Hup, Hlow. split.
  - apply Qle_shift_div_l; [exact Hlen | lra].
  - apply Qle_shift_div_r; [exact Hlen | lra].
Qed.

(** The fields of the statistics of an activity that has trackpoints. *)
Lemma calculateStatistics_heart_rate (activity : Activity.t) :
  Statistics.averageHeartRate (calculateStatistics activity) = average (heartRates_of activity)
  /\ Statistics.maxHeartRate (calculateStatistics activity) = Math_max (heartRates_of activity)
  /\ Statistics.minHeartRate (calculateStatistics activity) = Math_min (heartRates_of activity).
Proof.
  unfold calculateStatistics, heartRates_of.
  destruct (allTrackpoints activity) as [| tp tps]; [now repeat split |].
  destruct (elevation _) as [g l].
  destruct (Math_max (List.filter _ _)); now repeat split.
Qed.

(** A sum of whole numbers is a whole number. *)
Lemma fold_Qplus_whole (l : list Q) (a : Q) :
  whole a -> (forall y, In y l -> whole y) -> whole (fold_left Qplus l a).
Proof.
  revert a. induction l as [| y l IH]; intros a Ha Hall; cbn [fold_left]; [exact Ha |].
  apply IH.
  - destruct Ha as [n Hn]. destruct (Hall y (or_introl eq_refl)) as [m Hm].
    exists (n + m)%Z. rewrite inject_Z_plus, Hn, Hm. reflexivity.
  - intros z Hz. apply Hall. now right.
Qed.

Lemma sum_reduce_whole (l : list Q) :
  (forall y, In y l -> whole y) -> whole (sum_reduce l).
Proof. apply fold_Qplus_whole. now exists 0%Z. Qed.

(** X1. Heart rate, as in the source: when no trackpoint carries a heart
    rate the three heart-rate fields are absent; otherwise all three are
    present, the minimum and the maximum are samples of the activity that
    bound every sample, and the average is the sum of the samples, added in
    their order, divided by their number.  When the samples are whole
    numbers that are not negative and whose sum is at most 2^53, as beats
    per minute are, the average lies between the minimum and the maximum. *)
Theorem heart_rate_statistics (activity : Activity.t) :
  let stats := calculateStatistics activity in
  (heartRates_of activity = [] ->
   Statistics.minHeartRate stats = None
   /\ Statistics.averageHeartRate stats = None
   /\ Statistics.maxHeartRate stats = None)
  /\ (heartRates_of activity <> [] ->
      exists mn avg mx,
        Statistics.minHeartRate stats = Some mn
        /\ Statistics.averageHeartRate stats = Some avg
        /\ Statistics.maxHeartRate stats = Some mx
        /\ In mn (heartRates_of activity) /\ In mx (heartRates_of activity)
        /\ (forall h, In h (heartRates_of activity) -> mn <= h /\ h <= mx)
        /\ avg = sum_reduce (heartRates_of activity) / len (heartRates_of activity)
        /\ ((forall h, In h (heartRates_of activity) -> whole h /\ 0 <= h) ->
            sum_reduce (heartRates_of activity) <= 9007199254740992 ->
            whole (sum_reduce (heartRates_of activity))
            /\ mn <= avg /\ avg <= mx)).
Proof.
  intros stats. subst stats.
  destruct (calculateStatistics_heart_rate activity) as (-> & -> & ->).
  split.
  - intros ->. now repeat split.
  - intros Hne. destruct (heartRates_of activity) as [| h hs] eqn:Hhrs; [contradiction |].
    exists (fold_left Qmin hs h), (sum_reduce (h :: hs) / len (h :: hs)),
           (fold_left Qmax hs h).
    assert (Hmean : fold_left Qmin hs h <= sum_reduce (h :: hs) / len (h :: hs)
                    /\ sum_reduce (h :: hs) / len (h :: hs) <= fold_left Qmax hs h).
    { apply mean_between; [discriminate | |]; intros y Hy;
        [now apply fold_Qmin_lower | now apply fold_Qmax_upper]. }
    split; [reflexivity |]. split; [reflexivity |]. split; [reflexivity |].
    split; [apply fold_Qmin_In |]. split; [apply fold_Qmax_In |].
    split; [| split; [reflexivity |]].
    + intros y Hy. split; [now apply fold_Qmin_lower | now apply fold_Qmax_upper].
    + intros Hwhole _. split; [| exact Hmean].
      apply sum_reduce_whole. intros y Hy. now apply Hwhole.
Qed.

Lemma heart_rate_statistics_witness :
  exists mn avg mx,
    Statistics.minHeartRate (calculateStatistics zero_then_steady) = Some mn
    /\ Statistics.averageHeartRate (calculateStatistics zero_then_steady) = Some avg
    /\ Statistics.maxHeartRate (calculateStatistics zero_then_steady) = Some mx
    /\ (forall h, In h (heartRates_of zero_then_steady) -> mn <= h /\ h <= mx)
    /\ mn <= avg /\ avg <= mx.
Proof.
  destruct (proj2 (heart_rate_statistics zero_then_steady) ltac:(discriminate))
    as (mn & avg & mx & Hmn & Havg & Hmx & _ & _ & Hall & _ & Hmean).
  assert (Hwhole : forall h, In h (heartRates_of zero_then_steady) -> whole h /\ 0 <= h).
  { intros h [<- | [<- | [<- | []]]];
      (split; [(exists 0%Z; reflexivity) || (exists 120%Z; reflexivity) | discriminate]). }
  destruct (Hmean Hwhole ltac:(discriminate)) as (_ & Hlow & Hup).
  exists mn, avg, mx. repeat split; try assumption; now apply Hall.
Defined.

Lemma last_cons {A : Type} (a d : A) (l : list A) : List.last (a :: l) d = List.last l a.
Proof.
  revert a d. induction l as [| b l IH]; intros a d; [reflexivity |].
  change (List.last (a :: b :: l) d) with (List.last (b :: l) d).
  now rewrite !IH.
Qed.

(** The loop over the altitudes only adds to the gain and to the loss:
    every rise is added to the gain, every fall to the loss, and nothing
    else is. *)
Lemma elevation_loop_steps (rest : list Q) (prev : Q) (acc : Q * Q) :
  let r := elevation_loop prev rest acc in
  fst acc <= fst r
  /\ snd acc <= snd r
  /\ (forall p a, In (p, a) (consecutive (prev :: rest)) -> p < a ->
                  fst acc + (a - p) <= fst r)
  /\ (forall p a, In (p, a) (consecutive (prev :: rest)) -> a < p ->
                  snd acc + (p - a) <= snd r)
  /\ (fst acc < fst r -> exists p a, In (p, a) (consecutive (prev :: rest)) /\ p < a)
  /\ (snd acc < snd r -> exists p a, In (p, a) (consecutive (prev :: rest)) /\ a < p).
Proof.
  revert prev acc. induction rest as [| a rest IH]; intros prev [g l]; cbv zeta.
  - cbn. repeat split; try lra; try contradiction.
  - change (consecutive (prev :: a :: rest)) with ((prev, a) :: consecutive (a :: rest)).
    cbn [elevation_loop].
    destruct (Qgtb (a - prev) 0) eqn:Hdiff; reflect_Q.
    + specialize (IH a (fst (g, l) + (a - prev), snd (g, l))).
      cbv zeta in IH. destruct IH as (Hg & Hl & Hrise & Hfall & Hgain & Hloss).
      cbn [fst snd] in *. repeat split.
      * lra.
      * lra.
      * intros p a0 [[= <- <-] | Hin] Hlt; [lra |].
        pose proof (Hrise p a0 Hin Hlt). lra.
      * intros p a0 [[= <- <-] | Hin] Hlt; [lra |].
        now apply Hfall.
      * intros _. exists prev, a. split; [now left | lra].
      * intros Hlt. destruct (Hloss Hlt) as (p & a0 & Hin & Hpa).
        exists p, a0. split; [now right | exact Hpa].
    + specialize (IH a (fst (g, l), snd (g, l) + Qabs (a - prev))).
      cbv zeta in IH. destruct IH as (Hg & Hl & Hrise & Hfall & Hgain & Hloss).
      cbn [fst snd] in *.
      assert (Habs : Qabs (a - prev) == - (a - prev)) by (apply Qabs_neg; lra).
      repeat split.
      * lra.
      * lra.
      * intros p a0 [[= <- <-] | Hin] Hlt; [lra |].
        now apply Hrise.
      * intros p a0 [[= <- <-] | Hin] Hlt; [lra |].
        pose proof (Hfall p a0 Hin Hlt). lra.
      * intros Hlt. destruct (Hgain Hlt) as (p & a0 & Hin & Hpa).
        exists p, a0. split; [now right | exact Hpa].
      * intros Hlt. destruct (Qlt_le_dec a prev) as [Hap | Hap].
        -- exists prev, a. split; [now left | exact Hap].
        -- destruct Hloss as (p & a0 & Hin & Hpa); [lra |].
           exists p, a0. split; [now right | exact Hpa].
Qed.

Lemma calculateStatistics_elevation (activity : Activity.t) :
  Statistics.elevationGain (calculateStatistics activity)
  = (if Qgtb (fst (elevation (altitudes_of activity))) 0
     then Some (fst (elevation (altitudes_of activity))) else None)
  /\ Statistics.elevationLoss (calculateStatistics activity)
     = (if Qgtb (snd (elevation (altitudes_of activity))) 0
        then Some (snd (elevation (altitudes_of activity))) else None).
Proof.
  unfold calculateStatistics, altitudes_of.
  destruct (allTrackpoints activity) as [| tp tps]; [now split |].
  destruct (elevation _) as [g l].
  destruct (Math_max (List.filter _ _)); now split.
Qed.

Lemma elevation_steps (altitudes : list Q) :
  (forall p a, In (p, a) (consecutive altitudes) -> p < a ->
               a - p <= fst (elevation altitudes))
  /\ (forall p a, In (p, a) (consecutive altitudes) -> a < p ->
                  p - a <= snd (elevation altitudes))
  /\ (0 < fst (elevation altitudes) ->
      exists p a, In (p, a) (consecutive altitudes) /\ p < a)
  /\ (0 < snd (elevation altitudes) ->
      exists p a, In (p, a) (consecutive altitudes) /\ a < p).
Proof.
  unfold elevation. destruct altitudes as [| a rest].
  - cbn. repeat split; try contradiction; intros H; lra.
  - pose proof (elevation_loop_steps rest a (0, 0)) as H. cbv zeta in H.
    destruct H as (_ & _ & Hrise & Hfall & Hgain & Hloss). cbn [fst snd] in *.
    repeat split.
    + intros p a0 Hin Hlt. pose proof (Hrise p a0 Hin Hlt). lra.
    + intros p a0 Hin Hlt. pose proof (Hfall p a0 Hin Hlt). lra.
    + exact Hgain.
    + exact Hloss.
Qed.

(** X2. Elevation: a gain or a loss that is reported is strictly positive
    (a total of zero is left out).  A gain is reported exactly when some
    altitude sample is higher than the sample before it, and it is at least
    every such rise; a loss is reported exactly when some altitude sample
    is lower than the sample before it, and it is at least every such fall.
    Trackpoints without altitude are skipped: the samples compared are
    consecutive among those that carry an altitude. *)
Theorem elevation_statistics (activity : Activity.t) :
  let stats := calculateStatistics activity in
  (forall g, Statistics.elevationGain stats = Some g ->
             0 < g
             /\ exists p a, In (p, a) (consecutive (altitudes_of activity)) /\ p < a)
  /\ (forall l, Statistics.elevationLoss stats = Some l ->
                0 < l
                /\ exists p a, In (p, a) (consecutive (altitudes_of activity)) /\ a < p)
  /\ (forall p a, In (p, a) (consecutive (altitudes_of activity)) -> p < a ->
                  exists g, Statistics.elevationGain stats = Some g /\ a - p <= g)
  /\ (forall p a, In (p, a) (consecutive (altitudes_of activity)) -> a < p ->
                  exists l, Statistics.elevationLoss stats = Some l /\ p - a <= l).
Proof.
  intros stats. subst stats.
  destruct (calculateStatistics_elevation activity) as (-> & ->).
  destruct (elevation_steps (altitudes_of activity)) as (Hrise & Hfall & Hgain & Hloss).
  repeat split.
  - destruct (Qgtb _ 0) eqn:Hpos; [| discriminate].
    injection H as <-. now apply Qgtb_gt.
  - destruct (Qgtb _ 0) eqn:Hpos; [| discriminate].
    apply Hgain. now apply Qgtb_gt.
  - destruct (Qgtb (snd _) 0) eqn:Hpos; [| discriminate].
    injection H as <-. now apply Qgtb_gt.
  - destruct (Qgtb (snd _) 0) eqn:Hpos; [| discriminate].
    apply Hloss. now apply Qgtb_gt.
  - intros p a Hin Hlt. pose proof (Hrise p a Hin Hlt) as Hle.
    exists (fst (elevation (altitudes_of activity))).
    assert (Hpos : Qgtb (fst (elevation (altitudes_of activity))) 0 = true)
      by (apply Qgtb_gt; lra).
    rewrite Hpos. now split.
  - intros p a Hin Hlt. pose proof (Hfall p a Hin Hlt) as Hle.
    exists (snd (elevation (altitudes_of activity))).
    assert (Hpos : Qgtb (snd (elevation (altitudes_of activity))) 0 = true)
      by (apply Qgtb_gt; lra).
    rewrite Hpos. now split.
Qed.

Lemma elevation_statistics_witness :
  exists g, Statistics.elevationGain (calculateStatistics hilly_ride) = Some g
            /\ 120 - 100 <= g.
Proof.
  apply (proj1 (proj2 (proj2 (elevation_statistics hilly_ride))) 100 120).
  - left. reflexivity.
  - reflexivity.
Defined.

Lemma calculateStatistics_speed (activity : Activity.t) (s : Q) (ss : list Q) :
  speeds_of activity = s :: ss ->
  Statistics.maxSpeed (calculateStatistics activity) = fold_left Qmax ss s
  /\ Statistics.averageSpeed (calculateStatistics activity)
     = sum_reduce (s :: ss) / len (s :: ss)
  /\ Statistics.averagePace (calculateStatistics activity)
     = pace (sum_reduce (s :: ss) / len (s :: ss))
  /\ Statistics.maxPace (calculateStatistics activity) = pace (fold_left Qmax ss s).
Proof.
  unfold calculateStatistics, speeds_of.
  destruct (allTrackpoints activity) as [| tp tps]; [discriminate |].
  intros ->. destruct (elevation _) as [g l]. now repeat split.
Qed.

(** X3. Speed from the samples: when some trackpoint carries a positive
    speed, the lap maxima and the totals of the activity are not used: the
    maximal speed is one of these samples and bounds them all, the average
    is their sum, added in their order, divided by their number (samples of
    speed 0 are left out), both are positive, and both paces are present,
    each [1000 / (speed * 60)] of its speed. *)
Theorem speed_statistics (activity : Activity.t) :
  speeds_of activity <> [] ->
  let stats := calculateStatistics activity in
  In (Statistics.maxSpeed stats) (speeds_of activity)
  /\ (forall s, In s (speeds_of activity) -> 0 < s /\ s <= Statistics.maxSpeed stats)
  /\ Statistics.averageSpeed stats
     = sum_reduce (speeds_of activity) / len (speeds_of activity)
  /\ 0 < Statistics.averageSpeed stats
  /\ 0 < Statistics.maxSpeed stats
  /\ Statistics.averagePace stats = Some (1000 / (Statistics.averageSpeed stats * 60))
  /\ Statistics.maxPace stats = Some (1000 / (Statistics.maxSpeed stats * 60)).
Proof.
  intros Hne stats. subst stats.
  destruct (speeds_of activity) as [| s ss] eqn:Hspeeds; [contradiction |].
  destruct (calculateStatistics_speed activity s ss Hspeeds) as (-> & -> & -> & ->).
  assert (Hpos : forall y, In y (s :: ss) -> 0 < y).
  { intros y Hy. rewrite <- Hspeeds in Hy. unfold speeds_of in Hy.
    apply filter_In in Hy. destruct Hy as [_ Hy]. now apply Qgtb_gt. }
  pose proof (fold_Qmin_In ss s) as Hmin. apply Hpos in Hmin.
  destruct (mean_between (s :: ss) (fold_left Qmin ss s) (fold_left Qmax ss s))
    as [Hlow Hup]; [discriminate | | |].
  { intros y Hy. now apply fold_Qmin_lower. }
  { intros y Hy. now apply fold_Qmax_upper. }
  generalize dependent (sum_reduce (s :: ss) / len (s :: ss)). intros avg Hlow Hup.
  assert (Havg : 0 < avg) by lra.
  assert (Hmx : 0 < fold_left Qmax ss s) by lra.
  split; [apply fold_Qmax_In |].
  split; [intros y Hy; split; [now apply Hpos | now apply fold_Qmax_upper] |].
  split; [reflexivity |].
  split; [exact Havg |]. split; [exact Hmx |].
  unfold pace.
  apply Qgtb_gt in Havg as Havgb. apply Qgtb_gt in Hmx as Hmxb.
  rewrite Havgb, Hmxb. split; reflexivity.
Qed.

Lemma speed_statistics_witness :
  In (Statistics.maxSpeed (calculateStatistics hilly_ride)) (speeds_of hilly_ride)
  /\ 0 < Statistics.averageSpeed (calculateStatistics hilly_ride)
  /\ Statistics.maxPace (calculateStatistics hilly_ride)
     = Some (1000 / (Statistics.maxSpeed (calculateStatistics hilly_ride) * 60)).
Proof.
  pose proof (speed_statistics hilly_ride ltac:(discriminate)) as H. cbv zeta in H.
  destruct H as (Hin & _ & _ & Havg & _ & _ & Hpace).
  split; [exact Hin |]. split; [exact Havg | exact Hpace].
Defined.

(** The sample at rest is left out of the mean: 4, 6 and 5 m/s average to 5. *)
Example speed_statistics_hilly_ride :
  Statistics.averageSpeed (calculateStatistics hilly_ride) == 5
  /\ Statistics.maxSpeed (calculateStatistics hilly_ride) == 6
  /\ Statistics.elevationGain (calculateStatistics hilly_ride) = Some (0 + (120 - 100))
  /\ Statistics.averageHeartRate (calculateStatistics hilly_ride)
     = Some ((0 + 100 + 130 + 150 + 140) / 4).
Proof. repeat split. Qed.

(** ** Time in zones *)

Lemma sum_reduce_app (l1 l2 : list Q) :
  sum_reduce (l1 ++ l2) == sum_reduce l1 + sum_reduce l2.
Proof.
  induction l1 as [| x l1 IH]; cbn [app].
  - unfold sum_reduce at 2. cbn. lra.
  - rewrite !sum_reduce_cons, IH. lra.
Qed.

Lemma inject_Z_sub (x y : Z) : inject_Z (x - y) == inject_Z x - inject_Z y.
Proof.
  unfold Z.sub. rewrite inject_Z_plus, inject_Z_opp. reflexivity.
Qed.

(** The durations of the intervals of a lap add up to its span. *)
Lemma lap_intervals_span (tps : list Trackpoint.t) :
  sum_reduce (map snd (lap_intervals tps)) == lap_span tps.
Proof.
  induction tps as [| current [| next rest] IH].
  - reflexivity.
  - cbn. rewrite Z.sub_diag. reflexivity.
  - change (lap_intervals (current :: next :: rest))
      with ((Trackpoint.heartRate current,
             inject_Z (Trackpoint.time next - Trackpoint.time current) / 1000)
            :: lap_intervals (next :: rest)).
    cbn [map snd]. rewrite sum_reduce_cons, IH.
    unfold lap_span. rewrite (last_cons next current rest).
    rewrite !inject_Z_sub. field.
Qed.

Lemma intervals_span (laps : list Lap.t) :
  sum_reduce (map snd (flat_map (fun lap => lap_intervals (Lap.trackpoints lap)) laps))
  == sum_reduce (map (fun lap => lap_span (Lap.trackpoints lap)) laps).
Proof.
  induction laps as [| lap laps IH]; [reflexivity |].
  cbn [flat_map map]. rewrite map_app, sum_reduce_app, sum_reduce_cons, IH.
  now rewrite lap_intervals_span.
Qed.

Lemma distribution_total_add_unknown (d : ZoneDistribution.t) (duration : Q) :
  sum_reduce (distribution_values (add_unknown d duration))
  == sum_reduce (distribution_values d) + duration.
Proof. unfold sum_reduce, distribution_values. cbn. ring. Qed.

Lemma distribution_total_add_zone (d : ZoneDistribution.t) (z : ZoneNumber) (duration : Q) :
  sum_reduce (distribution_values (add_zone d z duration))
  == sum_reduce (distribution_values d) + duration.
Proof. unfold sum_reduce, distribution_values. destruct z; cbn; ring. Qed.

Lemma attribute_total zones d tp d' :
  attribute zones d tp = Return d' ->
  sum_reduce (distribution_values d') == sum_reduce (distribution_values d) + snd tp.
Proof.
  destruct tp as [[h |] duration]; cbn [attribute snd].
  - destruct (Qeq_bool h 0).
    + intros [= <-]. apply distribution_total_add_unknown.
    + destruct (getZoneForHeartRate h zones) as [[z |] |]; cbn [bind];
        intros [= <-];
        [apply distribution_total_add_zone | apply distribution_total_add_unknown].
  - intros [= <-]. apply distribution_total_add_unknown.
Qed.

Lemma forEach_attribute_total zones l d d' :
  forEach (attribute zones) l d = Return d' ->
  sum_reduce (distribution_values d')
  == sum_reduce (distribution_values d) + sum_reduce (map snd l).
Proof.
  revert d. induction l as [| tp l IH]; intros d; cbn [forEach map].
  - intros [= <-]. unfold sum_reduce at 3. cbn. lra.
  - destruct (attribute zones d tp) as [d1 |] eqn:Hstep; cbn [bind]; [| discriminate].
    intros Hrest. rewrite (IH d1 Hrest), (attribute_total _ _ _ _ Hstep), sum_reduce_cons.
    lra.
Qed.

Lemma calculateTimeInZones_total (activity : Activity.t)
    (zones : list HeartRateZone.t) (d : ZoneDistribution.t) :
  calculateTimeInZones activity zones = Return d ->
  sum_reduce (distribution_values d)
  == sum_reduce (map (fun lap => lap_span (Lap.trackpoints lap)) (Activity.laps activity)).
Proof.
  unfold calculateTimeInZones. intros Hrun.
  rewrite (forEach_attribute_total _ _ _ _ Hrun), intervals_span.
  unfold sum_reduce at 1. cbn. lra.
Qed.

Lemma lap_intervals_whole (tps : list Trackpoint.t) :
  (forall tp, In tp tps -> (Trackpoint.time tp mod 1000 = 0)%Z) ->
  forall i, In i (lap_intervals tps) -> whole (snd i).
Proof.
  induction tps as [| current [| next rest] IH]; intros Hall i Hi; try contradiction.
  change (lap_intervals (current :: next :: rest))
    with ((Trackpoint.heartRate current,
           inject_Z (Trackpoint.time next - Trackpoint.time current) / 1000)
          :: lap_intervals (next :: rest)) in Hi.
  destruct Hi as [<- | Hi].
  - cbn [snd].
    pose proof (Hall current (or_introl eq_refl)) as Hc.
    pose proof (Hall next (or_intror (or_introl eq_refl))) as Hn.
    apply Z.div_exact in Hc; [| lia]. apply Z.div_exact in Hn; [| lia].
    exists (Trackpoint.time next / 1000 - Trackpoint.time current / 1000)%Z.
    rewrite Hc at 1. rewrite Hn at 1.
    rewrite <- Z.mul_sub_distr_l, inject_Z_mult.
    change (inject_Z 1000) with 1000. field.
  - apply IH; [| exact Hi]. intros tp Htp. apply Hall. now right.
Qed.

Lemma intervals_whole (activity : Activity.t) :
  whole_seconds activity -> forall i, In i (intervals activity) -> whole (snd i).
Proof.
  intros Hwhole i Hi. unfold intervals in Hi. apply in_flat_map in Hi.
  destruct Hi as (lap & Hlap & Hi).
  apply (lap_intervals_whole (Lap.trackpoints lap)); [| exact Hi].
  intros tp Htp. now apply (Hwhole lap).
Qed.

Lemma fold_Qplus_nonneg (l : list Q) (a : Q) :
  0 <= a -> (forall y, In y l -> 0 <= y) -> 0 <= fold_left Qplus l a.
Proof.
  revert a. induction l as [| y l IH]; intros a Ha Hall; cbn [fold_left]; [exact Ha |].
  apply IH.
  - pose proof (Hall y (or_introl eq_refl)). lra.
  - intros z Hz. apply Hall. now right.
Qed.

(** A bucket that collects some of the intervals of an activity recorded in
    whole seconds and in chronological order. *)
Lemma bucket_whole (activity : Activity.t) (f : option Q * Q -> bool) :
  whole_seconds activity -> chronological activity ->
  whole (sum_reduce (map snd (List.filter f (intervals activity))))
  /\ 0 <= sum_reduce (map snd (List.filter f (intervals activity))).
Proof.
  intros Hwhole Hchron.
  assert (Hin : forall y, In y (map snd (List.filter f (intervals activity))) ->
                          exists i, In i (intervals activity) /\ y = snd i).
  { intros y Hy. apply in_map_iff in Hy. destruct Hy as (i & <- & Hi).
    apply filter_In in Hi. exists i. now split. }
  split.
  - apply sum_reduce_whole. intros y Hy. destruct (Hin y Hy) as (i & Hi & ->).
    now apply (intervals_whole activity).
  - apply fold_Qplus_nonneg; [lra |]. intros y Hy. destruct (Hin y Hy) as (i & Hi & ->).
    now apply Hchron.
Qed.

Lemma calculateTimeInZones_whole (activity : Activity.t)
    (zones : list HeartRateZone.t) (d : ZoneDistribution.t) :
  whole_seconds activity -> chronological activity ->
  calculateTimeInZones activity zones = Return d ->
  whole_buckets d.
Proof.
  intros Hwhole Hchron Hrun.
  unfold calculateTimeInZones in Hrun. fold (intervals activity) in Hrun.
  destruct (forEach_attribute_buckets _ _ _ _ Hrun) as [Hu Hz].
  pose proof (Hz Zone1) as H1. pose proof (Hz Zone2) as H2.
  pose proof (Hz Zone3) as H3. pose proof (Hz Zone4) as H4.
  pose proof (Hz Zone5) as H5. cbn [zone_time empty_distribution] in *.
  intros v [<- | [<- | [<- | [<- | [<- | [<- | []]]]]]];
    [rewrite H1 | rewrite H2 | rewrite H3 | rewrite H4 | rewrite H5 | rewrite Hu];
    now apply bucket_whole.
Qed.

(** A bucket that is not negative is at most the sum of the buckets. *)
Lemma bucket_le_total (d : ZoneDistribution.t) (v : Q) :
  (forall w, In w (distribution_values d) -> 0 <= w) ->
  In v (distribution_values d) -> v <= sum_reduce (distribution_values d).
Proof.
  intros Hnonneg Hv.
  unfold distribution_values in *. unfold sum_reduce. cbn [fold_left].
  pose proof (Hnonneg _ (or_introl eq_refl)) as P1.
  pose proof (Hnonneg _ (or_intror (or_introl eq_refl))) as P2.
  pose proof (Hnonneg _ (or_intror (or_intror (or_introl eq_refl)))) as P3.
  pose proof (Hnonneg _ (or_intror (or_intror (or_intror (or_introl eq_refl))))) as P4.
  pose proof (Hnonneg _ (or_intror (or_intror (or_intror (or_intror (or_introl eq_refl))))))
    as P5.
  pose proof (Hnonneg _ (or_intror (or_intror (or_intror (or_intror
                           (or_intror (or_introl eq_refl))))))) as P6.
  destruct Hv as [<- | [<- | [<- | [<- | [<- | [<- | []]]]]]]; lra.
Qed.

(** X4. For an activity recorded in whole seconds and in chronological
    order, whose laps span at most 2^53 seconds together, the time is
    conserved: every bucket of the distribution is a whole number of
    seconds that is not negative, and the six buckets add up to the sum
    over the laps of the seconds between the first and the last trackpoint
    of the lap; the time between two laps is not counted. *)
Theorem calculateTimeInZones_conserves_time (activity : Activity.t)
    (zones : list HeartRateZone.t) (d : ZoneDistribution.t) :
  whole_seconds activity ->
  chronological activity ->
  recorded_time activity <= 9007199254740992 ->
  calculateTimeInZones activity zones = Return d ->
  (forall v, In v (distribution_values d) ->
             whole v /\ 0 <= v /\ v <= recorded_time activity)
  /\ sum_reduce (distribution_values d) == recorded_time activity.
Proof.
  intros Hwhole Hchron _ Hrun.
  pose proof (calculateTimeInZones_total activity zones d Hrun) as Htotal.
  fold (recorded_time activity) in Htotal.
  pose proof (calculateTimeInZones_whole activity zones d Hwhole Hchron Hrun) as Hbuckets.
  split; [| exact Htotal].
  intros v Hv. destruct (Hbuckets v Hv) as [Hw Hpos]. split; [exact Hw |].
  split; [exact Hpos |]. rewrite <- Htotal.
  apply bucket_le_total; [| exact Hv]. intros w Hw'. now apply Hbuckets.
Qed.

Lemma calculateTimeInZones_conserves_time_witness :
  exists d,
    calculateTimeInZones hilly_ride (defineZones 190 None age) = Return d
    /\ sum_reduce (distribution_values d) == 30.
Proof.
  destruct (calculateTimeInZones_returns hilly_ride (defineZones 190 None age)
              ltac:(cbn; lia)) as [d Hd].
  exists d. split; [exact Hd |].
  assert (Hwhole : whole_seconds hilly_ride).
  { intros lap tp [<- | []] [<- | [<- | [<- | [<- | []]]]]; reflexivity. }
  assert (Hchron : chronological hilly_ride).
  { intros i [<- | [<- | [<- | []]]]; discriminate. }
  destruct (calculateTimeInZones_conserves_time hilly_ride (defineZones 190 None age) d
              Hwhole Hchron ltac:(discriminate) Hd) as [_ Htotal].
  rewrite Htotal. reflexivity.
Defined.

Lemma forEach_throws {A S : Type} (f : S -> A -> Exn S) (l : list A) (s : S) (a : A) :
  In a l -> (forall s', f s' a = Throw) -> forEach f l s = Throw.
Proof.
  revert s. induction l as [| b l IH]; intros s Ha Hthrow; [destruct Ha |].
  cbn [forEach]. destruct Ha as [-> | Ha].
  - now rewrite Hthrow.
  - destruct (f s b); cbn [bind]; [now apply IH | reflexivity].
Qed.

(** X5. The zones are indexed at 4 and 0 without a test of the length of
    the array: with five zones or more, a distribution is always returned;
    with fewer, the computation throws as soon as some interval starts with
    a heart rate (not zero) that lies in none of the ranges. *)
Theorem calculateTimeInZones_throws (activity : Activity.t)
    (zones : list HeartRateZone.t) :
  ((5 <= length zones)%nat -> exists d, calculateTimeInZones activity zones = Return d)
  /\ ((length zones < 5)%nat ->
      (exists h duration,
         In (Some h, duration) (intervals activity)
         /\ ~ h == 0
         /\ forall z, In z zones -> ~ contains z h) ->
      calculateTimeInZones activity zones = Throw).
Proof.
  unfold calculateTimeInZones. fold (intervals activity). split.
  - intros Hlen. apply forEach_returns. intros d [[h |] duration] _; cbn [attribute].
    + destruct (Qeq_bool h 0); [eauto |].
      destruct (getZoneForHeartRate_five h zones Hlen) as [[z |] ->]; cbn [bind]; eauto.
    + eauto.
  - intros Hlen (h & duration & Hin & Hh & Hnone).
    apply (forEach_throws _ _ _ (Some h, duration) Hin).
    intros d. cbn [attribute]. apply Qeq_bool_false in Hh. rewrite Hh.
    unfold getZoneForHeartRate, index.
    assert (Hfind : find (in_zone h) zones = None).
    { apply find_none_iff. intros z Hz. apply in_zone_false. now apply Hnone. }
    rewrite Hfind.
    assert (H4 : nth_error zones 4 = None) by (apply nth_error_None; lia).
    now rewrite H4.
Qed.

Lemma calculateTimeInZones_throws_witness :
  calculateTimeInZones sprint two_zones = Throw.
Proof.
  apply (proj2 (calculateTimeInZones_throws sprint two_zones)).
  - cbn. lia.
  - exists 200, (inject_Z (10000 - 0) / 1000). split; [left; reflexivity |].
    split; [discriminate |].
    intros z Hz [Hmin Hmax].
    repeat (destruct Hz as [<- | Hz]; [vm_compute in Hmin, Hmax; tauto |]).
    exact Hz.
Defined.

(** ** The zones that [defineZones] builds *)

(** Five zones that share their bounds leave no heart rate without a zone. *)
Lemma shared_bounds_no_gap (z1 z2 z3 z4 z5 : HeartRateZone.t) (h : Q) :
  HeartRateZone.maxHR z1 == HeartRateZone.minHR z2 ->
  HeartRateZone.maxHR z2 == HeartRateZone.minHR z3 ->
  HeartRateZone.maxHR z3 == HeartRateZone.minHR z4 ->
  HeartRateZone.maxHR z4 == HeartRateZone.minHR z5 ->
  exists z, getZoneForHeartRate h [z1; z2; z3; z4; z5] = Return (Some z).
Proof.
  intros H12 H23 H34 H45. unfold getZoneForHeartRate. cbn [find].
  destruct (in_zone h z1) eqn:E1; [eauto |].
  destruct (in_zone h z2) eqn:E2; [eauto |].
  destruct (in_zone h z3) eqn:E3; [eauto |].
  destruct (in_zone h z4) eqn:E4; [eauto |].
  destruct (in_zone h z5) eqn:E5; [eauto |].
  cbn [index nth_error bind].
  destruct (Qgtb h (HeartRateZone.maxHR z5)) eqn:Habove; [eauto |].
  destruct (Qltb h (HeartRateZone.minHR z1)) eqn:Hbelow; [eauto |].
  exfalso. reflect_Q.
  unfold in_zone in E1, E2, E3, E4, E5.
  apply andb_false_iff in E1, E2, E3, E4, E5.
  destruct E1 as [E1 | E1], E2 as [E2 | E2], E3 as [E3 | E3], E4 as [E4 | E4],
    E5 as [E5 | E5]; reflect_Q; lra.
Qed.

Lemma defineZones_bounds (maxHR : Q) (restingHR : option Q)
    (method : ZoneCalculationMethod) :
  exists b : Q -> Q,
    map (fun z => (HeartRateZone.zone z, HeartRateZone.minHR z, HeartRateZone.maxHR z))
      (defineZones maxHR restingHR method)
    = [(Zone1, b 50, b 60); (Zone2, b 60, b 70); (Zone3, b 70, b 80);
       (Zone4, b 80, b 90); (Zone5, b 90, b 100)]
    /\ (b = (fun percent => Math_round (maxHR * (percent / 100)))
        \/ exists resting,
             method = karvonen /\ restingHR = Some resting /\ ~ resting == 0
             /\ b = (fun percent => calculateTargetHRKarvonen maxHR resting percent)).
Proof.
  unfold defineZones.
  destruct method;
    try (exists (fun percent => Math_round (maxHR * (percent / 100)));
         split; [reflexivity | now left]).
  destruct restingHR as [resting |];
    [| exists (fun percent => Math_round (maxHR * (percent / 100)));
       split; [reflexivity | now left]].
  destruct (Qeq_bool resting 0) eqn:Hr.
  - exists (fun percent => Math_round (maxHR * (percent / 100))).
    split; [reflexivity | now left].
  - exists (fun percent => calculateTargetHRKarvonen maxHR resting percent).
    split; [reflexivity | right].
    exists resting. repeat split. now apply Qeq_bool_false.
Qed.

Lemma defineZones_lookup (maxHR : Q) (restingHR : option Q)
    (method : ZoneCalculationMethod) (h : Q) :
  exists z, getZoneForHeartRate h (defineZones maxHR restingHR method) = Return (Some z).
Proof.
  destruct (defineZones_bounds maxHR restingHR method) as (b & Hmap & _).
  destruct (defineZones maxHR restingHR method)
    as [| z1 [| z2 [| z3 [| z4 [| z5 [| z6 zs]]]]]]; try discriminate Hmap.
  cbn [map] in Hmap. injection Hmap as _ Hmin1 Hmax1 _ Hmin2 Hmax2 _ Hmin3 Hmax3
    _ Hmin4 Hmax4 _ Hmin5 Hmax5.
  apply shared_bounds_no_gap; congruence || (rewrite ?Hmax1, ?Hmin2, ?Hmax2, ?Hmin3,
    ?Hmax3, ?Hmin4, ?Hmax4, ?Hmin5; reflexivity).
Qed.

(** X6. The zones of [defineZones] share their bounds, so the lookup never
    answers null on them: every heart rate gets a zone, whatever the
    maximal and resting heart rates and the method are. *)
Theorem defineZones_leave_no_gap (maxHR : Q) (restingHR : option Q)
    (method : ZoneCalculationMethod) (h : Q) :
  exists z, getZoneForHeartRate h (defineZones maxHR restingHR method) = Return (Some z).
Proof. apply defineZones_lookup. Qed.

Lemma forEach_attribute_unknown (zones : list HeartRateZone.t)
    (l : list (option Q * Q)) (d : ZoneDistribution.t) :
  (forall h, exists z, getZoneForHeartRate h zones = Return (Some z)) ->
  exists d',
    forEach (attribute zones) l d = Return d'
    /\ ZoneDistribution.unknown d'
       == ZoneDistribution.unknown d
          + sum_reduce (map snd (List.filter (fun tp => no_heart_rate (fst tp)) l)).
Proof.
  intros Hzone. revert d. induction l as [| [hr duration] l IH]; intros d.
  - exists d. split; [reflexivity |]. unfold sum_reduce. cbn. lra.
  - cbn [forEach List.filter fst].
    assert (Hstep : exists d1,
               attribute zones d (hr, duration) = Return d1
               /\ ZoneDistribution.unknown d1
                  == ZoneDistribution.unknown d
                     + (if no_heart_rate hr then duration else 0)).
    { destruct hr as [h |]; cbn [attribute no_heart_rate].
      - destruct (Qeq_bool h 0).
        + eexists. split; [reflexivity |]. cbn. lra.
        + destruct (Hzone h) as [z ->]. cbn [bind].
          eexists. split; [reflexivity |]. cbn. lra.
      - eexists. split; [reflexivity |]. cbn. lra. }
    destruct Hstep as (d1 & -> & Hd1). cbn [bind].
    destruct (IH d1) as (d' & -> & Hd'). exists d'. split; [reflexivity |].
    rewrite Hd', Hd1. destruct (no_heart_rate hr); cbn [map snd].
    + rewrite sum_reduce_cons. lra.
    + lra.
Qed.

(** X7. With the zones of [defineZones] the unknown bucket holds exactly the
    time of the intervals whose first trackpoint has no heart rate (missing,
    or zero): a heart rate that is present always ends in one of the five
    zones. *)
Theorem unknown_is_time_without_heart_rate (activity : Activity.t) (maxHR : Q)
    (restingHR : option Q) (method : ZoneCalculationMethod) :
  exists d,
    calculateTimeInZones activity (defineZones maxHR restingHR method) = Return d
    /\ ZoneDistribution.unknown d == time_without_heart_rate activity.
Proof.
  unfold calculateTimeInZones, time_without_heart_rate. fold (intervals activity).
  destruct (forEach_attribute_unknown (defineZones maxHR restingHR method)
              (intervals activity) empty_distribution) as (d & Hd & Hunknown).
  { intros h. apply defineZones_lookup. }
  exists d. split; [exact Hd |]. rewrite Hunknown. cbn. lra.
Qed.

Lemma Math_round_le (x y : Q) : x <= y -> Math_round x <= Math_round y.
Proof.
  intros Hxy. unfold Math_round. rewrite <- Zle_Qle. apply Qfloor_resp_le. lra.
Qed.

Lemma Math_round_comp (x y : Q) : x == y -> Math_round x = Math_round y.
Proof.
  intros Hxy. unfold Math_round. f_equal. apply Qfloor_comp. now rewrite Hxy.
Qed.




(** The zones of the Karvonen method for a maximal heart rate of 190 and a
    resting heart rate of 60. *)
Example defineZones_karvonen :
  map (fun z => (HeartRateZone.minHR z, HeartRateZone.maxHR z))
    (defineZones 190 (Some 60) karvonen)
  = [(125, 138); (138, 151); (151, 164); (164, 177); (177, 190)].
Proof. reflexivity. Qed.

(** ** Percentages and efficiency *)

(** A share in doubles, between two fractions of the total. *)
Lemma rounded_share_between (t total a b : Q) :
  0 <= t -> 0 < total -> 0 <= a -> a * total <= t -> t <= b * total ->
  (999 # 1000) * 100 * a <= fl (fl (t / total) * 100)
  /\ fl (fl (t / total) * 100) <= (1001 # 1000) * 100 * b.
Proof.
  intros Ht Hpos Ha Hlow Hup.
  destruct (rounded_share t total Ht Hpos) as [L U].
  assert (Hr : a <= t / total /\ t / total <= b).
  { split; [apply Qle_shift_div_l | apply Qle_shift_div_r]; lra. }
  generalize dependent (fl (fl (t / total) * 100)).
  generalize dependent (t / total).
  intros r Hr s L U. split; lra.
Qed.

(** The rounded total is zero exactly when the times are. *)
Lemma rounded_total_zero (t1 t2 t3 t4 t5 u : Q) :
  0 <= t1 -> 0 <= t2 -> 0 <= t3 -> 0 <= t4 -> 0 <= t5 -> 0 <= u ->
  fold_left (fun sum time => fl (sum + time)) [t1; t2; t3; t4; t5; u] 0 == 0
  <-> t1 + t2 + t3 + t4 + t5 + u == 0.
Proof.
  intros H1 H2 H3 H4 H5 H6.
  destruct (rounded_total t1 t2 t3 t4 t5 u H1 H2 H3 H4 H5 H6) as [Hlow Hup].
  generalize dependent (fold_left (fun sum time => fl (sum + time))
                          [t1; t2; t3; t4; t5; u] 0).
  intros total Hlow Hup. split; intros Hz; lra.
Qed.

Lemma Math_round_percent (x : Q) :
  0 <= x -> x <= 100 ->
  0 <= Math_round x /\ Math_round x <= 100 /\ exists n : Z, Math_round x = inject_Z n.
Proof.
  intros H0 H100.
  pose proof (Math_round_le 0 x H0) as Hlow.
  pose proof (Math_round_le x 100 H100) as Hup.
  change (Math_round 0) with 0 in Hlow. change (Math_round 100) with 100 in Hup.
  repeat split; try assumption. now eexists.
Qed.

Lemma Math_round_share (x : Q) :
  0 <= x -> x <= 1003 # 10 ->
  0 <= Math_round x /\ Math_round x <= 100 /\ exists n : Z, Math_round x = inject_Z n.
Proof.
  intros H0 H100.
  pose proof (Math_round_le 0 x H0) as Hlow.
  pose proof (Math_round_le x (1003 # 10) H100) as Hup.
  change (Math_round 0) with 0 in Hlow.
  assert (Hhundred : Math_round (1003 # 10) == 100) by reflexivity.
  rewrite Hhundred in Hup.
  repeat split; try assumption. now eexists.
Qed.

(** X9. For a distribution without negative time every percentage is an
    integer between 0 and 100; when the total time is zero all six are 0. *)
Theorem calculateZonePercentages_range (d : ZoneDistribution.t) (key : ZoneKey.t) :
  (forall v, In v (distribution_values d) -> 0 <= v) ->
  let p := percentage_at (calculateZonePercentages d) key in
  0 <= p /\ p <= 100 /\ (exists n : Z, p = inject_Z n)
  /\ (sum_reduce (distribution_values d) == 0 -> p = 0).
Proof.
  intros Hnonneg p. subst p.
  destruct d as [t1 t2 t3 t4 t5 u].
  assert (H1 : 0 <= t1) by (apply Hnonneg; cbn; tauto).
  assert (H2 : 0 <= t2) by (apply Hnonneg; cbn; tauto).
  assert (H3 : 0 <= t3) by (apply Hnonneg; cbn; tauto).
  assert (H4 : 0 <= t4) by (apply Hnonneg; cbn; tauto).
  assert (H5 : 0 <= t5) by (apply Hnonneg; cbn; tauto).
  assert (H6 : 0 <= u) by (apply Hnonneg; cbn; tauto).
  clear Hnonneg.
  assert (HT : sum_reduce (distribution_values (ZoneDistribution.mk t1 t2 t3 t4 t5 u))
               == t1 + t2 + t3 + t4 + t5 + u).
  { unfold sum_reduce, distribution_values. cbn. ring. }
  rewrite HT. clear HT.
  destruct (rounded_total t1 t2 t3 t4 t5 u H1 H2 H3 H4 H5 H6) as [Hlow Hup].
  unfold calculateZonePercentages, distribution_values.
  cbn [ZoneDistribution.zone1 ZoneDistribution.zone2
       ZoneDistribution.zone3 ZoneDistribution.zone4 ZoneDistribution.zone5
       ZoneDistribution.unknown].
  generalize dependent (fold_left (fun sum time => fl (sum + time))
                          [t1; t2; t3; t4; t5; u] 0).
  intros total Hlow Hup.
  destruct (Qeq_bool total 0) eqn:Hzero; reflect_Q.
  - destruct key; cbn; repeat split; try discriminate; try (now exists 0%Z).
  - assert (Hpos : 0 < total) by lra.
    destruct key; cbn [percentage_at ZonePercentages.zone1 ZonePercentages.zone2
      ZonePercentages.zone3 ZonePercentages.zone4 ZonePercentages.zone5
      ZonePercentages.unknown];
      (match goal with
       | |- context [Math_round (fl (fl (?t / total) * 100))] =>
           destruct (rounded_share_between t total 0 (1000 # 999))
             as [Hs0 Hs100]; [lra | exact Hpos | lra | lra | lra |];
           destruct (Math_round_share (fl (fl (t / total) * 100)))
             as (Hr0 & Hr100 & Hint); [lra | lra |]
       end;
       split; [exact Hr0 |]; split; [exact Hr100 |]; split; [exact Hint |];
       intros Hcontra; exfalso; lra).
Qed.

Lemma calculateZonePercentages_range_witness :
  0 <= percentage_at (calculateZonePercentages tied_distribution) ZoneKey.unknown
  /\ percentage_at (calculateZonePercentages tied_distribution) ZoneKey.unknown <= 100.
Proof.
  assert (Hnonneg : forall v, In v (distribution_values tied_distribution) -> 0 <= v).
  { intros v Hv. cbn in Hv.
    repeat (destruct Hv as [<- | Hv]; [discriminate |]). destruct Hv. }
  destruct (calculateZonePercentages_range tied_distribution ZoneKey.unknown Hnonneg)
    as (H0 & H100 & _).
  split; assumption.
Defined.

(** The loop of [calculateTrainingEfficiency]: the total difference does not
    decrease, the count grows by one per entry. *)
Lemma efficiency_loop (p : ZonePercentages.t) (ideal : list (ZoneKey.t * Q))
    (acc : Q * Q) :
  let r :=
    fold_left
      (fun acc entry =>
         (fst acc + Qabs (percentage_at p (fst entry) - snd entry), snd acc + 1))
      ideal acc in
  fst acc <= fst r
  /\ snd r == snd acc + len ideal
  /\ ((forall entry, In entry ideal -> percentage_at p (fst entry) == snd entry) ->
      fst r == fst acc).
Proof.
  revert acc. induction ideal as [| entry ideal IH]; intros [t c]; cbn zeta.
  - cbn. assert (Hnil : len (@nil (ZoneKey.t * Q)) == 0) by reflexivity.
    rewrite Hnil. split; [lra |]. split; [lra |]. intros _. lra.
  - cbn [fold_left fst snd].
    destruct (IH (t + Qabs (percentage_at p (fst entry) - snd entry), c + 1))
      as (Hlow & Hcount & Hexact). cbn [fst snd] in *.
    pose proof (Qabs_nonneg (percentage_at p (fst entry) - snd entry)) as Habs.
    rewrite len_cons. split; [lra |]. split; [lra |].
    intros Hall. rewrite Hexact by (intros e He; apply Hall; now right).
    assert (Hzero : Qabs (percentage_at p (fst entry) - snd entry) == 0).
    { pose proof (Hall entry (or_introl eq_refl)) as He.
      assert (Hd : percentage_at p (fst entry) - snd entry == 0) by lra.
      rewrite Hd. reflexivity. }
    lra.
Qed.

Lemma calculateTrainingEfficiency_bounds (p : ZonePercentages.t) (ty : TrainingType) :
  let e := calculateTrainingEfficiency p ty in
  0 <= e /\ e <= 100 /\ (exists n : Z, e = inject_Z n)
  /\ (ty = unknown -> e = 50)
  /\ (ty <> unknown ->
      (forall entry, In entry (idealDistributions ty) ->
                     percentage_at p (fst entry) == snd entry) ->
      e = 100).
Proof.
  intros e. subst e. unfold calculateTrainingEfficiency.
  destruct (idealDistributions ty) as [| entry ideal] eqn:Hideal.
  - repeat split; try discriminate; try (now exists 50%Z).
    intros Hty. destruct ty; try discriminate Hideal. contradiction.
  - destruct (efficiency_loop p (entry :: ideal) (0, 0)) as (Hlow & Hcount & Hexact).
    cbn zeta in Hlow, Hcount, Hexact.
    destruct (fold_left _ (entry :: ideal) (0, 0)) as [totalDiff count].
    cbn [fst snd] in Hlow, Hcount, Hexact.
    assert (Hpos : 0 < count).
    { rewrite Hcount, len_cons. pose proof (len_nonneg ideal). lra. }
    assert (Havg : 0 <= totalDiff / count) by (apply Qle_shift_div_l; [exact Hpos | lra]).
    assert (Hmax0 : 0 <= Qmax 0 (100 - totalDiff / count)) by apply Q.le_max_l.
    assert (Hmax100 : Qmax 0 (100 - totalDiff / count) <= 100)
      by (apply Q.max_lub; lra).
    destruct (Math_round_percent _ Hmax0 Hmax100) as (H0 & H100 & Hint).
    split; [exact H0 |]. split; [exact H100 |]. split; [exact Hint |].
    split.
    + intros ->. discriminate Hideal.
    + intros _ Hall. specialize (Hexact Hall).
      change 100 with (Math_round 100) at 2. apply Math_round_comp.
      assert (Hzero : totalDiff / count == 0).
      { rewrite Hexact. field. lra. }
      rewrite Hzero. apply Q.max_r. lra.
Qed.

(** X10. The training efficiency is an integer between 0 and 100; it is 50
    for the type unknown, whatever the percentages are, and 100 when the
    percentages meet the ideal distribution of the type on every zone that
    the ideal distribution lists. *)
Theorem calculateTrainingEfficiency_range (p : ZonePercentages.t) (ty : TrainingType) :
  let e := calculateTrainingEfficiency p ty in
  0 <= e /\ e <= 100 /\ (exists n : Z, e = inject_Z n)
  /\ (ty = unknown -> e = 50)
  /\ (ty <> unknown ->
      (forall entry, In entry (idealDistributions ty) ->
                     percentage_at p (fst entry) == snd entry) ->
      e = 100).
Proof. apply calculateTrainingEfficiency_bounds. Qed.

Lemma calculateTrainingEfficiency_range_witness :
  calculateTrainingEfficiency
    {| ZonePercentages.zone1 := 60; ZonePercentages.zone2 := 40;
       ZonePercentages.zone3 := 0; ZonePercentages.zone4 := 0;
       ZonePercentages.zone5 := 0; ZonePercentages.unknown := 0 |} recovery = 100.
Proof.
  apply (calculateTrainingEfficiency_range
           {| ZonePercentages.zone1 := 60; ZonePercentages.zone2 := 40;
              ZonePercentages.zone3 := 0; ZonePercentages.zone4 := 0;
              ZonePercentages.zone5 := 0; ZonePercentages.unknown := 0 |} recovery).
  - discriminate.
  - intros entry [<- | [<- | []]]; reflexivity.
Defined.

(** ** Zone analysis of an activity *)







Lemma In_push_if (b : bool) (x m : string) (l : list string) :
  In m l -> In m (push_if b x l).
Proof.
  intros Hm. unfold push_if. destruct b; [| exact Hm].
  apply in_or_app. now left.
Qed.

(** X12. The recommendations of an analysis are never empty: whatever the
    percentages, the type and the efficiency are, exactly one message on the
    efficiency is chosen (80 and above, 60 and above, 40 and above, below)
    and belongs to the list. *)
Theorem generateRecommendations_efficiency_message (p : ZonePercentages.t)
    (ty : TrainingType) (e : Q) :
  generateRecommendations p ty e <> []
  /\ In (if Qle_bool 80 e then "🎯 Excellente répartition des zones"
         else if Qle_bool 60 e then "👍 Bonne répartition des zones"
         else if Qle_bool 40 e then "💡 Répartition à améliorer"
         else "⚠️ Répartition des zones à revoir")
       (generateRecommendations p ty e).
Proof.
  assert (Hin : In (if Qle_bool 80 e then "🎯 Excellente répartition des zones"
                    else if Qle_bool 60 e then "👍 Bonne répartition des zones"
                    else if Qle_bool 40 e then "💡 Répartition à améliorer"
                    else "⚠️ Répartition des zones à revoir")
                  (generateRecommendations p ty e)).
  { unfold generateRecommendations. cbn zeta.
    apply In_push_if, In_push_if, In_push_if.
    apply in_or_app. right. left. reflexivity. }
  split; [| exact Hin].
  intros Hnil. rewrite Hnil in Hin. destruct Hin.
Qed.

(** ** Zone statistics over several activities *)

Lemma add_distribution_total (total d : ZoneDistribution.t) :
  sum_reduce (distribution_values (add_distribution total d))
  == sum_reduce (distribution_values total) + sum_reduce (distribution_values d).
Proof. unfold sum_reduce, distribution_values. cbn. ring. Qed.

Lemma analyzeActivity_fields (settings : option ZoneSettings.t) (activity : Activity.t)
    (a : ZoneAnalysis.t) :
  analyzeActivity settings activity = Return a ->
  sum_reduce (distribution_values (ZoneAnalysis.distribution a)) == recorded_time activity
  /\ 0 <= ZoneAnalysis.efficiency a /\ ZoneAnalysis.efficiency a <= 100.
Proof.
  unfold analyzeActivity.
  destruct (calculateTimeInZones activity (getZones settings)) as [d |] eqn:Hd;
    cbn [bind]; [| discriminate].
  intros [= <-]. cbn [ZoneAnalysis.distribution ZoneAnalysis.efficiency].
  split; [exact (calculateTimeInZones_total _ _ _ Hd) |].
  destruct (calculateTrainingEfficiency_bounds (calculateZonePercentages d)
              (determineTrainingType (calculateZonePercentages d))) as (H0 & H100 & _).
  now split.
Qed.

(** The loop of [getZoneStatistics]. *)
Lemma statistics_loop (settings : option ZoneSettings.t) (activities : list Activity.t)
    (D0 : ZoneDistribution.t) (C0 : TrainingType -> Q) (E0 N0 : Q)
    (D : ZoneDistribution.t) (C : TrainingType -> Q) (E N : Q) :
  forEach (statistics_step settings) activities (D0, C0, E0, N0) = Return (D, C, E, N) ->
  sum_reduce (distribution_values D)
  == sum_reduce (distribution_values D0) + sum_reduce (map recorded_time activities)
  /\ type_total C == type_total C0 + len activities
  /\ N0 <= N /\ N - N0 <= len activities
  /\ E0 <= E /\ E - E0 <= 100 * (N - N0).
Proof.
  revert D0 C0 E0 N0. induction activities as [| activity activities IH];
    intros D0 C0 E0 N0.
  - cbn [forEach]. intros [= <- <- <- <-].
    assert (Hnil : len (@nil Activity.t) == 0) by reflexivity. rewrite Hnil.
    unfold sum_reduce at 3. cbn. repeat split; lra.
  - cbn [forEach statistics_step].
    destruct (analyzeActivity settings activity) as [a |] eqn:Ha; cbn [bind];
      [| discriminate].
    destruct (analyzeActivity_fields _ _ _ Ha) as (Htime & He0 & He100).
    intros Hrest. apply IH in Hrest.
    destruct Hrest as (HD & HC & HN & HNlen & HE & HEN).
    rewrite add_distribution_total in HD.
    cbn [map]. rewrite sum_reduce_cons, len_cons.
    assert (Hcount : type_total
                       (fun t => if same_type t (ZoneAnalysis.trainingType a)
                                 then C0 t + 1 else C0 t)
                     == type_total C0 + 1).
    { unfold type_total. destruct (ZoneAnalysis.trainingType a); cbn; ring. }
    rewrite Hcount in HC.
    destruct (same_type (ZoneAnalysis.trainingType a) unknown);
      repeat split; lra.
Qed.

Lemma whole_plus (x y : Q) : whole x -> whole y -> whole (x + y).
Proof.
  intros [n Hn] [m Hm]. exists (n + m)%Z. rewrite inject_Z_plus, Hn, Hm. reflexivity.
Qed.

Lemma add_distribution_whole (total d : ZoneDistribution.t) :
  whole_buckets total -> whole_buckets d -> whole_buckets (add_distribution total d).
Proof.
  intros Ht Hd v Hv. unfold whole_buckets, distribution_values in *.
  cbn [add_distribution ZoneDistribution.zone1 ZoneDistribution.zone2
       ZoneDistribution.zone3 ZoneDistribution.zone4 ZoneDistribution.zone5
       ZoneDistribution.unknown] in Hv.
  destruct Hv as [<- | [<- | [<- | [<- | [<- | [<- | []]]]]]];
    (split; [apply whole_plus; [apply Ht | apply Hd]; cbn; tauto |]);
    match goal with
    | |- 0 <= ?x + ?y =>
        assert (0 <= x) by (apply Ht; cbn; tauto);
        assert (0 <= y) by (apply Hd; cbn; tauto); lra
    end.
Qed.

(** The loop of [getZoneStatistics] over activities recorded in whole
    seconds and in chronological order. *)
Lemma statistics_loop_whole (settings : option ZoneSettings.t)
    (activities : list Activity.t)
    (D0 : ZoneDistribution.t) (C0 : TrainingType -> Q) (E0 N0 : Q)
    (D : ZoneDistribution.t) (C : TrainingType -> Q) (E N : Q) :
  (forall a, In a activities -> whole_seconds a /\ chronological a) ->
  whole_buckets D0 ->
  forEach (statistics_step settings) activities (D0, C0, E0, N0) = Return (D, C, E, N) ->
  whole_buckets D.
Proof.
  revert D0 C0 E0 N0. induction activities as [| activity activities IH];
    intros D0 C0 E0 N0 Hall HD0.
  - cbn [forEach]. now intros [= <- <- <- <-].
  - cbn [forEach statistics_step].
    destruct (analyzeActivity settings activity) as [a |] eqn:Ha; cbn [bind];
      [| discriminate].
    intros Hrest. eapply IH; [| | exact Hrest].
    + intros b Hb. apply Hall. now right.
    + apply add_distribution_whole; [exact HD0 |].
      unfold analyzeActivity in Ha.
      destruct (calculateTimeInZones activity (getZones settings)) as [d |] eqn:Hd;
        cbn [bind] in Ha; [| discriminate].
      injection Ha as <-. cbn [ZoneAnalysis.distribution].
      destruct (Hall activity (or_introl eq_refl)) as [Hwhole Hchron].
      exact (calculateTimeInZones_whole _ _ _ Hwhole Hchron Hd).
Qed.

(** X13. Zone statistics over a list of activities: the counts by training
    type add up to the number of activities, and the average efficiency
    (over the activities whose type is not unknown, 0 when there is none)
    lies between 0 and 100.  When the activities are recorded in whole
    seconds and in chronological order and span at most 2^53 seconds
    together, every total by zone is a whole number of seconds that is not
    negative, and the totals add up to the recorded time of all the
    activities. *)
Theorem getZoneStatistics_totals (settings : option ZoneSettings.t)
    (activities : list Activity.t) (s : ZoneStatistics.t) :
  getZoneStatistics settings activities = Return s ->
  type_total (ZoneStatistics.trainingTypeDistribution s) == len activities
  /\ 0 <= ZoneStatistics.averageEfficiency s
  /\ ZoneStatistics.averageEfficiency s <= 100
  /\ ((forall a, In a activities -> whole_seconds a /\ chronological a) ->
      sum_reduce (map recorded_time activities) <= 9007199254740992 ->
      whole_buckets (ZoneStatistics.totalTimeByZone s)
      /\ sum_reduce (distribution_values (ZoneStatistics.totalTimeByZone s))
         == sum_reduce (map recorded_time activities)).
Proof.
  unfold getZoneStatistics.
  destruct (forEach _ activities _) as [[[[D C] E] N] |] eqn:Hloop; cbn [bind];
    [| discriminate].
  intros [= <-].
  cbn [ZoneStatistics.trainingTypeDistribution ZoneStatistics.totalTimeByZone
       ZoneStatistics.averageEfficiency].
  pose proof (statistics_loop _ _ _ _ _ _ _ _ _ _ Hloop) as (HD & HC & HN & _ & HE & HEN).
  unfold type_total in HC at 2. cbn beta in HC.
  assert (Hempty : sum_reduce (distribution_values empty_distribution) == 0)
    by reflexivity.
  rewrite Hempty in HD.
  split; [rewrite HC; lra |].
  assert (Hrange : 0 <= (if Qgtb N 0 then E / N else 0)
                   /\ (if Qgtb N 0 then E / N else 0) <= 100).
  { destruct (Qgtb N 0) eqn:HNpos; reflect_Q; [| split; lra].
    split.
    - apply Qle_shift_div_l; [exact HNpos | lra].
    - apply Qle_shift_div_r; [exact HNpos | lra]. }
  split; [apply Hrange |]. split; [apply Hrange |].
  intros Hall _. split; [| rewrite HD; lra].
  apply (statistics_loop_whole _ _ _ _ _ _ _ _ _ _ Hall) in Hloop; [exact Hloop |].
  intros v [<- | [<- | [<- | [<- | [<- | [<- | []]]]]]];
    (split; [now exists 0%Z | apply Qle_refl]).
Qed.

Lemma getZoneStatistics_totals_witness :
  exists s,
    getZoneStatistics None [silent_ride; hilly_ride] = Return s
    /\ type_total (ZoneStatistics.trainingTypeDistribution s)
       == len [silent_ride; hilly_ride]
    /\ sum_reduce (distribution_values (ZoneStatistics.totalTimeByZone s)) == 50.
Proof.
  destruct (getZoneStatistics None [silent_ride; hilly_ride]) as [s |] eqn:Hs;
    [| vm_compute in Hs; discriminate Hs].
  exists s. split; [reflexivity |].
  destruct (getZoneStatistics_totals None [silent_ride; hilly_ride] s Hs)
    as (Hcount & _ & _ & Htime).
  split; [exact Hcount |].
  destruct Htime as [_ Htotal].
  - intros a [<- | [<- | []]]; split.
    + intros lap tp [<- | []] [<- | [<- | [<- | []]]]; reflexivity.
    + intros i [<- | [<- | []]]; discriminate.
    + intros lap tp [<- | []] [<- | [<- | [<- | [<- | []]]]]; reflexivity.
    + intros i [<- | [<- | [<- | []]]]; discriminate.
  - discriminate.
  - rewrite Htotal. reflexivity.
Defined.

(** ** Time records and distance bands *)

(** X14. The five distance bands do not overlap: [detectTimeRecords]
    produces at most one result, of type time, whose category is the band
    that [getDistanceCategory] gives for the distance; an activity that is
    not eligible gets no time record, and an eligible one gets a time record
    when no record exists yet. *)
Theorem detectTimeRecords_band (activity : Activity.t) (R : list PersonalRecord.t) :
  (length (detectTimeRecords activity R) <= 1)%nat
  /\ (forall d, In d (detectTimeRecords activity R) ->
                RecordDetectionResult.recordType d = Some RecordType.time
                /\ RecordDetectionResult.category d
                   = getDistanceCategory (Activity.distanceMeters activity))
  /\ (isEligibleForTimeRecord activity = false -> detectTimeRecords activity R = [])
  /\ (isEligibleForTimeRecord activity = true -> detectTimeRecords activity [] <> []).
Proof.
  rewrite !detectTimeRecords_pass.
  unfold isEligibleForTimeRecord, getDistanceCategory, time_pass, in_band.
  cbn [flat_map DISTANCE_CATEGORIES find fst snd].
  set (dist := Activity.distanceMeters activity).
  destruct (Qgeb dist 900 && Qle_bool dist 1100) eqn:B1;
    destruct (Qgeb dist 4500 && Qle_bool dist 5500) eqn:B5;
    destruct (Qgeb dist 9500 && Qle_bool dist 10500) eqn:B10;
    destruct (Qgeb dist 20000 && Qle_bool dist 22000) eqn:B21;
    destruct (Qgeb dist 41000 && Qle_bool dist 43000) eqn:B42;
    reflect_Q; try (exfalso; lra);
    cbn [app option_map fst]; rewrite ?app_nil_r; unfold single_pass;
    cbn [find];
    repeat match goal with
      | |- context [find ?p R] => destruct (find p R) as [r |]
      | |- context [Qltb ?x ?y] => destruct (Qltb x y)
      end;
    (split; [cbn; lia |]);
    (split; [intros d Hd; cbn in Hd;
             first [ contradiction
                   | destruct Hd as [<- | Hd]; [now split | contradiction] ] |]);
    (split; [intros Hno; first [reflexivity | discriminate Hno]
            | intros Hyes; first [discriminate Hyes | discriminate]]).
Qed.

Lemma detectTimeRecords_band_witness : detectTimeRecords five_km_run [] <> [].
Proof.
  apply (detectTimeRecords_band five_km_run []). reflexivity.
Defined.

(** ** Comparison with a record *)

(** X15. Detection and comparison agree: a detection result that has a
    previous value was tested against a record [r] of the existing records,
    of the sport of the activity and of the type of the result; for this
    record [compareToRecord] answers that the activity is better, and the
    improvement of the result is the difference that it reports. *)
Theorem detection_agrees_with_compareToRecord (activity : Activity.t)
    (R : list PersonalRecord.t) (d : RecordDetectionResult.t) :
  In d (detectRecords activity R) ->
  RecordDetectionResult.previousValue d <> None ->
  exists r,
    In r R
    /\ PersonalRecord.sport r = Activity.sport activity
    /\ RecordDetectionResult.recordType d = Some (PersonalRecord.type r)
    /\ RecordDetectionResult.previousValue d = Some (PersonalRecord.value r)
    /\ RecordDetectionResult.value d = Some (currentValue activity r)
    /\ Comparison.isBetter (compareToRecord activity r) = true
    /\ RecordDetectionResult.improvement d
       = Some (Comparison.difference (compareToRecord activity r)).
Proof.
  intros Hd Hprev. apply in_detectRecords in Hd.
  destruct Hd as (pass & Hpass & Hbetter & ->).
  destruct (find (Pass.lookup pass) R) as [r |] eqn:Hfind;
    [| now contradiction Hprev].
  apply find_some in Hfind. destruct Hfind as [Hin Hlook].
  exists r. split; [exact Hin |].
  unfold compareToRecord, currentValue.
  destruct Hpass; cbn in Hlook, Hbetter |- *;
    first [ apply is_record_of_spec in Hlook; destruct Hlook as (Hty & Hc & Hs)
          | apply is_calorie_record_of_spec in Hlook; destruct Hlook as (Hty & Hs) ];
    rewrite Hty; cbn; rewrite ?Hc; cbn;
    repeat match goal with
      | H : Statistics.elevationGain _ = Some _ |- _ => rewrite H; clear H
      | H : Activity.calories _ = Some _ |- _ => rewrite H; clear H
      | H : Qeq_bool _ 0 = false |- _ => cbn; rewrite H; clear H
      end;
    repeat split; try assumption; try reflexivity.
Qed.

Lemma detection_agrees_with_compareToRecord_witness :
  exists r,
    In r [five_km_in_1200]
    /\ PersonalRecord.sport r = Activity.sport faster_run
    /\ RecordDetectionResult.recordType
         (result_of RecordType.time RecordCategory.km5 1100 (time_gain 1100)
            (Some five_km_in_1200)) = Some (PersonalRecord.type r)
    /\ RecordDetectionResult.previousValue
         (result_of RecordType.time RecordCategory.km5 1100 (time_gain 1100)
            (Some five_km_in_1200)) = Some (PersonalRecord.value r)
    /\ RecordDetectionResult.value
         (result_of RecordType.time RecordCategory.km5 1100 (time_gain 1100)
            (Some five_km_in_1200)) = Some (currentValue faster_run r)
    /\ Comparison.isBetter (compareToRecord faster_run r) = true
    /\ RecordDetectionResult.improvement
         (result_of RecordType.time RecordCategory.km5 1100 (time_gain 1100)
            (Some five_km_in_1200))
       = Some (Comparison.difference (compareToRecord faster_run r)).
Proof.
  apply (detection_agrees_with_compareToRecord faster_run [five_km_in_1200]).
  - right. right. left. reflexivity.
  - discriminate.
Defined.



(** ** Keys of the detection results *)

Lemma filter_sublist {A : Type} (f : A -> bool) (l : list A) :
  List.filter f l `sublist_of` l.
Proof.
  induction l as [| a l IH]; cbn; [constructor |].
  destruct (f a); now constructor.
Qed.

Lemma map_sublist {A B : Type} (f : A -> B) (l k : list A) :
  l `sublist_of` k -> map f l `sublist_of` map f k.
Proof. induction 1; cbn; now constructor. Qed.

Lemma optional_sublist {A : Type} (b : bool) (x : A) :
  (if b then [x] else []) `sublist_of` [x].
Proof. destruct b; [reflexivity | apply sublist_nil_l]. Qed.

(** The results of a run are the results of the applicable passes that
    fire, in the order of the passes. *)
Lemma detectRecords_fired (activity : Activity.t) (R : list PersonalRecord.t) :
  detectRecords activity R
  = map (fun pass =>
           result_of (Pass.type pass) (Pass.category pass) (Pass.value pass)
             (Pass.gain pass) (find (Pass.lookup pass) R))
      (List.filter (fires R) (applicable_passes activity)).
Proof.
  rewrite detectRecords_passes, passes_run.
  induction (applicable_passes activity) as [| pass l IH]; [reflexivity |].
  cbn [flat_map List.filter]. rewrite IH.
  unfold run_pass at 1, single_pass, fires at 2.
  now destruct (match find (Pass.lookup pass) R with
                | Some r => _ | None => _ end).
Qed.

Lemma applicable_keys (activity : Activity.t) :
  map pass_key (applicable_passes activity) `sublist_of` all_keys.
Proof.
  unfold applicable_passes. rewrite !map_app.
  cbn [flat_map DISTANCE_CATEGORIES fst snd]. rewrite !map_app.
  change all_keys
    with ([(RecordType.distance, RecordCategory.longest);
           (RecordType.speed, RecordCategory.fastest)]
          ++ [(RecordType.speed, RecordCategory.km10)]
          ++ ([(RecordType.time, RecordCategory.km1)]
              ++ [(RecordType.time, RecordCategory.km5)]
              ++ [(RecordType.time, RecordCategory.km10)]
              ++ [(RecordType.time, RecordCategory.halfMarathon)]
              ++ [(RecordType.time, RecordCategory.marathon)] ++ [])
          ++ [(RecordType.elevation, RecordCategory.highest)]
          ++ [(RecordType.calories, RecordCategory.longest)]).
  repeat apply sublist_app; try reflexivity;
    try (match goal with
         | |- map _ (if ?b then _ else _) `sublist_of` _ =>
             destruct b; first [reflexivity | apply sublist_nil_l]
         end).
  - destruct (Statistics.elevationGain _) as [g |]; [| apply sublist_nil_l].
    destruct (Qeq_bool g 0); [apply sublist_nil_l | reflexivity].
  - destruct (Activity.calories activity) as [cal |]; [| apply sublist_nil_l].
    destruct (Qeq_bool cal 0); [apply sublist_nil_l | reflexivity].
Qed.

Lemma append_injective (prefix a b : string) :
  (prefix ++ a)%string = (prefix ++ b)%string -> a = b.
Proof.
  induction prefix as [| ch prefix IH]; cbn; [auto |].
  intros [= H]. now apply IH.
Qed.

Lemma NoDup_map_injective {A B : Type} (f : A -> B) (l : list A) :
  (forall x y, f x = f y -> x = y) -> NoDup l -> NoDup (map f l).
Proof.
  intros Hinj. induction 1 as [| x l Hx Hl IH]; cbn; constructor; [| exact IH].
  rewrite list_elem_of_In, in_map_iff. intros (y & Hxy & Hy).
  apply Hinj in Hxy. subst y. now apply list_elem_of_In in Hy.
Qed.

Lemma key_suffixes_distinct : NoDup (map key_suffix all_keys).
Proof.
  apply NoDup_ListNoDup.
  repeat (constructor; [cbn; intuition discriminate |]). constructor.
Qed.

Lemma all_keys_distinct : NoDup all_keys.
Proof. apply (NoDup_fmap_1 key_suffix). apply key_suffixes_distinct. Qed.

Lemma materialize_ids (now : Z) (activity : Activity.t) (R : list PersonalRecord.t)
    (l : list Pass.t) :
  map PersonalRecord.id
    (materialize now activity
       (map (fun pass =>
               result_of (Pass.type pass) (Pass.category pass) (Pass.value pass)
                 (Pass.gain pass) (find (Pass.lookup pass) R)) l))
  = map (fun key => (Activity.id activity ++ key_suffix key)%string) (map pass_key l).
Proof.
  induction l as [| pass l IH]; [reflexivity |].
  cbn [map materialize flat_map] in *. cbn [app]. now rewrite <- IH.
Qed.

(** X17. One key per result: a run of [detectRecords] never produces two
    results of the same type and category (at most ten results), and the
    records created from them carry pairwise distinct identifiers, so no
    record of a run overwrites another one in the store. *)
Theorem detectRecords_distinct_keys (now : Z) (activity : Activity.t)
    (R : list PersonalRecord.t) :
  NoDup (map triple (detectRecords activity R))
  /\ NoDup (map PersonalRecord.id (materialize now activity (detectRecords activity R)))
  /\ (length (detectRecords activity R) <= 10)%nat.
Proof.
  rewrite detectRecords_fired, materialize_ids.
  assert (Hsub : map pass_key (List.filter (fires R) (applicable_passes activity))
                 `sublist_of` all_keys).
  { etransitivity; [| apply applicable_keys]. apply map_sublist, filter_sublist. }
  split; [| split].
  - rewrite map_map.
    change (map (fun pass => triple (result_of _ _ _ _ _)) ?l)
      with (map (fun pass => (Some (fst (pass_key pass)), Some (snd (pass_key pass)))) l).
    rewrite <- (map_map pass_key (fun key => (Some (fst key), Some (snd key)))).
    apply NoDup_map_injective.
    + intros [t c] [t' c']. cbn. congruence.
    + exact (sublist_NoDup _ _ all_keys_distinct Hsub).
  - refine (sublist_NoDup _ _ _ (map_sublist _ _ _ Hsub)).
    rewrite <- (map_map key_suffix (fun s => (Activity.id activity ++ s)%string)).
    apply NoDup_map_injective; [apply append_injective | apply key_suffixes_distinct].
  - rewrite length_map, <- (length_map pass_key).
    apply sublist_length in Hsub. exact Hsub.
Qed.

(** A run of 10 km with all kinds of samples against two older records
    fires six passes. *)
Example detectRecords_ten_km_run :
  map triple (detectRecords ten_km_run older_records)
  = [(Some RecordType.distance, Some RecordCategory.longest);
     (Some RecordType.speed, Some RecordCategory.fastest);
     (Some RecordType.speed, Some RecordCategory.km10);
     (Some RecordType.time, Some RecordCategory.km10);
     (Some RecordType.elevation, Some RecordCategory.highest);
     (Some RecordType.calories, Some RecordCategory.longest)]
  /\ map PersonalRecord.id (materialize 1 ten_km_run (detectRecords ten_km_run older_records))
     = ["run-8-distance-longest"; "run-8-speed-fastest"; "run-8-speed-10km";
        "run-8-time-10km"; "run-8-elevation-highest"; "run-8-calories-longest"].
Proof. split; reflexivity. Qed.

(** ** The period [all] and the totals of a history *)

Lemma fold_sum_map {A : Type} (f : A -> Q) (l : list A) (s : Q) :
  fold_left (fun sum a => sum + f a) l s == s + sum_reduce (map f l).
Proof.
  revert s. induction l as [| a l IH]; intros s; cbn [fold_left map].
  - unfold sum_reduce. cbn. lra.
  - rewrite IH, sum_reduce_cons. lra.
Qed.

Lemma len_app {A : Type} (l1 l2 : list A) : len (l1 ++ l2) == len l1 + len l2.
Proof.
  unfold len. rewrite length_app, Nat2Z.inj_add, inject_Z_plus. reflexivity.
Qed.

Lemma len_zero {A : Type} (l : list A) : len l == 0 -> l = [].
Proof.
  destruct l as [| a l]; [reflexivity |].
  intros Hl. rewrite len_cons in Hl. pose proof (len_nonneg l). lra.
Qed.

Lemma fold_min_le (ts : list Z) (t : Z) :
  (fold_left Z.min ts t <= t)%Z
  /\ forall x, In x ts -> (fold_left Z.min ts t <= x)%Z.
Proof.
  revert t. induction ts as [| u ts IH]; intros t; cbn [fold_left].
  - split; [lia | intros x []].
  - destruct (IH (Z.min t u)) as [Hinit Hall]. split; [lia |].
    intros x [<- | Hx]; [lia | now apply Hall].
Qed.

Lemma fold_max_ge (ts : list Z) (t : Z) :
  (t <= fold_left Z.max ts t)%Z
  /\ forall x, In x ts -> (x <= fold_left Z.max ts t)%Z.
Proof.
  revert t. induction ts as [| u ts IH]; intros t; cbn [fold_left].
  - split; [lia | intros x []].
  - destruct (IH (Z.max t u)) as [Hinit Hall]. split; [lia |].
    intros x [<- | Hx]; [lia | now apply Hall].
Qed.

Lemma filter_all {A : Type} (f : A -> bool) (l : list A) :
  (forall x, In x l -> f x = true) -> List.filter f l = l.
Proof.
  induction l as [| a l IH]; intros Hall; cbn; [reflexivity |].
  rewrite (Hall a (or_introl eq_refl)). f_equal. apply IH.
  intros x Hx. apply Hall. now right.
Qed.

(** Between the earliest and the latest start time lies every activity. *)
Lemma filter_whole_history `{DateFns} (activities : list Activity.t) :
  filterActivitiesByDateRange activities
    {| DateRange.start := earliest (map Activity.startTime activities);
       DateRange.end_ := latest (map Activity.startTime activities) |}
  = activities.
Proof.
  destruct activities as [| a l]; [reflexivity |].
  unfold filterActivitiesByDateRange. cbn [DateRange.start DateRange.end_ map earliest latest].
  apply filter_all. intros x Hx.
  destruct (fold_min_le (map Activity.startTime l) (Activity.startTime a)) as [Hmin Hmins].
  destruct (fold_max_ge (map Activity.startTime l) (Activity.startTime a)) as [Hmax Hmaxs].
  apply andb_true_intro. rewrite !Z.leb_le.
  destruct Hx as [<- | Hx]; [lia |].
  split; [apply Hmins | apply Hmaxs]; now apply in_map.
Qed.

Lemma calculatePeriodStats_all `{DateFns} (activities : list Activity.t) (date : Date) :
  calculatePeriodStats activities all date
  = aggregateActivities activities all
      {| DateRange.start := earliest (map Activity.startTime activities);
         DateRange.end_ := latest (map Activity.startTime activities) |}.
Proof. unfold calculatePeriodStats. now rewrite filter_whole_history. Qed.

Lemma calculatePercentageChange_same (x : Q) : calculatePercentageChange x x == 0.
Proof.
  unfold calculatePercentageChange.
  destruct (Qeq_bool x 0) eqn:Hx.
  - apply Qeq_bool_iff in Hx.
    destruct (Qgtb x 0) eqn:Hg; [| reflexivity].
    apply Qgtb_gt in Hg. lra.
  - apply Qeq_bool_false in Hx. field. exact Hx.
Qed.

(** X18. The period [all] covers the whole history: whatever the date and
    the calendar, its statistics count every activity and total every
    distance and duration, and a comparison of the period [all] with its
    previous period compares the history with itself, so that every change
    it reports is 0. *)
Theorem all_period_covers_history `{DateFns} (activities : list Activity.t)
    (date : Date) :
  let stats := calculatePeriodStats activities all date in
  let comparison := comparePeriods activities all date in
  PeriodStatistics.totalActivities stats = len activities
  /\ PeriodStatistics.totalDistance stats
     == sum_reduce (map Activity.distanceMeters activities)
  /\ PeriodStatistics.totalTime stats
     == sum_reduce (map Activity.totalTimeSeconds activities)
  /\ ComparisonData.previous comparison = ComparisonData.current comparison
  /\ no_change (ComparisonData.changes comparison).
Proof.
  intros stats comparison. subst stats comparison.
  rewrite calculatePeriodStats_all.
  split; [| split; [| split; [| split]]].
  - unfold aggregateActivities.
    destruct (sum_truthy Statistics.averageHeartRate activities),
      (sum_truthy Statistics.averageCadence activities). reflexivity.
  - unfold aggregateActivities.
    destruct (sum_truthy Statistics.averageHeartRate activities),
      (sum_truthy Statistics.averageCadence activities).
    cbn [PeriodStatistics.totalDistance]. rewrite fold_sum_map. lra.
  - unfold aggregateActivities.
    destruct (sum_truthy Statistics.averageHeartRate activities),
      (sum_truthy Statistics.averageCadence activities).
    cbn [PeriodStatistics.totalTime]. rewrite fold_sum_map. lra.
  - reflexivity.
  - unfold comparePeriods, no_change.
    cbn [ComparisonData.changes Changes.distance Changes.time Changes.activities
         Changes.speed].
    rewrite !calculatePeriodStats_all.
    repeat split; apply calculatePercentageChange_same.
Qed.

(** X19. The totals of [calculateAggregateStatistics] are those of the
    period [all] of the period aggregator (activities, distance, time,
    calories, average speed).  Its averages are 0 for an empty list;
    otherwise the average distance and the average time are the totals
    divided by the number of activities, and the average speed is the total
    distance divided by the total time when that is positive, 0 when it is
    not. *)
Theorem calculateAggregateStatistics_agrees `{DateFns} (activities : list Activity.t)
    (date : Date) :
  let total := calculateAggregateStatistics activities in
  let stats := calculatePeriodStats activities all date in
  AggregateStatistics.totalActivities total = PeriodStatistics.totalActivities stats
  /\ AggregateStatistics.totalDistance total = PeriodStatistics.totalDistance stats
  /\ AggregateStatistics.totalTime total = PeriodStatistics.totalTime stats
  /\ AggregateStatistics.totalCalories total = PeriodStatistics.totalCalories stats
  /\ AggregateStatistics.averageSpeed total = PeriodStatistics.averageSpeed stats
  /\ (activities = [] ->
      AggregateStatistics.averageDistance total = 0
      /\ AggregateStatistics.averageTime total = 0
      /\ AggregateStatistics.averageSpeed total = 0)
  /\ (activities <> [] ->
      AggregateStatistics.averageDistance total
      = AggregateStatistics.totalDistance total / AggregateStatistics.totalActivities total
      /\ AggregateStatistics.averageTime total
         = AggregateStatistics.totalTime total / AggregateStatistics.totalActivities total)
  /\ (0 < AggregateStatistics.totalTime total ->
      AggregateStatistics.averageSpeed total
      = AggregateStatistics.totalDistance total / AggregateStatistics.totalTime total)
  /\ (AggregateStatistics.totalTime total <= 0 ->
      AggregateStatistics.averageSpeed total = 0).
Proof.
  intros total stats. subst total stats.
  rewrite calculatePeriodStats_all.
  unfold aggregateActivities, calculateAggregateStatistics.
  destruct (sum_truthy Statistics.averageHeartRate activities),
    (sum_truthy Statistics.averageCadence activities).
  cbn [AggregateStatistics.totalActivities AggregateStatistics.totalDistance
       AggregateStatistics.totalTime AggregateStatistics.totalCalories
       AggregateStatistics.averageSpeed AggregateStatistics.averageDistance
       AggregateStatistics.averageTime
       PeriodStatistics.totalActivities PeriodStatistics.totalDistance
       PeriodStatistics.totalTime PeriodStatistics.totalCalories
       PeriodStatistics.averageSpeed].
  do 5 (split; [reflexivity |]).
  split; [| split; [| split]].
  - intros ->. now repeat split.
  - intros Hne.
    assert (Hn : Qgtb (len activities) 0 = true).
    { apply Qgtb_gt. destruct activities as [| a l]; [contradiction |].
      rewrite len_cons. pose proof (len_nonneg l). lra. }
    rewrite Hn. now split.
  - intros Htime. apply Qgtb_gt in Htime. now rewrite Htime.
  - intros Htime.
    destruct (Qgtb (fold_left _ activities 0) 0) eqn:Hg; [| reflexivity].
    apply Qgtb_gt in Hg. lra.
Qed.

Lemma calculateAggregateStatistics_agrees_witness :
  AggregateStatistics.averageSpeed (calculateAggregateStatistics [ten_km_run])
  = AggregateStatistics.totalDistance (calculateAggregateStatistics [ten_km_run])
    / AggregateStatistics.totalTime (calculateAggregateStatistics [ten_km_run]).
Proof.
  apply (calculateAggregateStatistics_agrees [ten_km_run] None).
  vm_compute. reflexivity.
Defined.

(** ** The breakdown by sport *)

Lemma breakdown_lookup (activities : list Activity.t) (sport : string) :
  match fold_left breakdown_step activities ∅ !! sport with
  | None => of_sport sport activities = []
  | Some entry =>
      of_sport sport activities <> []
      /\ SportBreakdown.count entry == len (of_sport sport activities)
      /\ SportBreakdown.distance entry
         == sum_reduce (map Activity.distanceMeters (of_sport sport activities))
      /\ SportBreakdown.time entry
         == sum_reduce (map Activity.totalTimeSeconds (of_sport sport activities))
  end.
Proof.
  induction activities as [| a l IH] using rev_ind.
  - cbn. rewrite lookup_empty. reflexivity.
  - rewrite fold_left_app. cbn [fold_left]. unfold of_sport in *.
    rewrite List.filter_app. cbn [List.filter].
    unfold breakdown_step at 1.
    destruct (decide (Activity.sport a = sport)) as [Heq | Hne].
    + subst sport. rewrite lookup_insert_eq.
      rewrite bool_decide_eq_true_2 by reflexivity.
      split; [intros Happ; apply app_eq_nil in Happ; destruct Happ; discriminate |].
      rewrite !map_app, !sum_reduce_app, len_app.
      cbn [map SportBreakdown.count SportBreakdown.distance SportBreakdown.time].
      rewrite !sum_reduce_cons.
      assert (Hone : len [a] == 1) by reflexivity. rewrite Hone.
      assert (Hnil : sum_reduce [] == 0) by reflexivity. rewrite Hnil.
      destruct (fold_left breakdown_step l ∅ !! Activity.sport a) as [entry |].
      * destruct IH as (_ & Hc & Hd & Ht). rewrite <- Hc, <- Hd, <- Ht.
        split; [lra | split; lra].
      * rewrite IH. cbn [map]. rewrite Hnil.
        assert (Hlen : len (@nil Activity.t) == 0) by reflexivity. rewrite Hlen.
        cbn [SportBreakdown.count SportBreakdown.distance SportBreakdown.time].
        split; [lra | split; lra].
    + rewrite lookup_insert_ne by exact Hne.
      rewrite bool_decide_eq_false_2 by exact Hne.
      rewrite app_nil_r. exact IH.
Qed.

(** X20. The breakdown by sport of a period holds an entry exactly for the
    sports that occur among the activities, and the entry of a sport counts
    the activities of that sport and totals their distances and durations.
    The sports are names that an object does not inherit, which the
    breakdown (an object used as a dictionary) cannot hold. *)
Theorem sportBreakdown_by_sport (activities : list Activity.t) (period : PeriodType)
    (dateRange : DateRange.t) (sport : string)
    (Hplain : Forall plain_sport activities) :
  match PeriodStatistics.sportBreakdown (aggregateActivities activities period dateRange)
        !! sport with
  | None => of_sport sport activities = []
  | Some entry =>
      of_sport sport activities <> []
      /\ SportBreakdown.count entry == len (of_sport sport activities)
      /\ SportBreakdown.distance entry
         == sum_reduce (map Activity.distanceMeters (of_sport sport activities))
      /\ SportBreakdown.time entry
         == sum_reduce (map Activity.totalTimeSeconds (of_sport sport activities))
  end.
Proof.
  unfold aggregateActivities.
  destruct (sum_truthy Statistics.averageHeartRate activities),
    (sum_truthy Statistics.averageCadence activities).
  cbn [PeriodStatistics.sportBreakdown]. apply breakdown_lookup.
Qed.

Lemma sportBreakdown_by_sport_witness :
  match PeriodStatistics.sportBreakdown
          (aggregateActivities [ten_km_run; hilly_ride; ten_km_run] all
             {| DateRange.start := None; DateRange.end_ := None |})
        !! "Running" with
  | None => False
  | Some entry => SportBreakdown.count entry == 2
  end.
Proof.
  pose proof (sportBreakdown_by_sport [ten_km_run; hilly_ride; ten_km_run] all
                {| DateRange.start := None; DateRange.end_ := None |} "Running") as Hs.
  destruct (PeriodStatistics.sportBreakdown _ !! "Running") as [entry |].
  - apply Hs. repeat constructor; unfold plain_sport; cbn; intuition discriminate.
  - exfalso. assert (Hnil : of_sport "Running" [ten_km_run; hilly_ride; ten_km_run] = []).
    { apply Hs. repeat constructor; unfold plain_sport; cbn; intuition discriminate. }
    vm_compute in Hnil. discriminate Hnil.
Defined.

(** ** The trend of a series *)

Lemma fold_average (half : list TrendData.t) :
  fold_left (fun sum d => sum + TrendData.value d) half 0 / len half
  == half_average half.
Proof. unfold half_average. rewrite fold_sum_map, Qplus_0_l. reflexivity. Qed.

(** X21. The trend of a series.  Fewer than two points are stable with 0.
    Otherwise the series is cut in two halves whose averages are compared,
    and the percentage reported goes with the direction: a stable trend
    reports a change of less than 5 percent in absolute value, a trend up
    or down reports a percentage of at least 5 that is not negative, or one
    that is no finite number.  For a series of whole numbers that are not
    negative and add up to at most 2^53: when the first half averages to 0
    the trend is never stable and its percentage is no finite number, it is
    up exactly when the second half has a positive average, and down
    otherwise, also for a series of zeros; when the first half does not
    average to 0, a change of at most 4 percent in absolute value is
    stable, a change of at least 6 percent is up and a change of at most
    -6 percent is down. *)
Theorem calculateTrend_direction (data : list TrendData.t) :
  let first := half_average (firstn (length data / 2) data) in
  let second := half_average (skipn (length data / 2) data) in
  let change := (second - first) / first * 100 in
  let trend := calculateTrend data in
  ((length data < 2)%nat ->
   trend = {| Trend.direction := Trend.stable; Trend.percentage := Number.finite 0 |})
  /\ (Trend.direction trend = Trend.stable ->
      exists p, Trend.percentage trend = Number.finite p /\ Qabs p < 5)
  /\ (Trend.direction trend = Trend.up ->
      Trend.percentage trend = Number.positive_infinity
      \/ exists p, Trend.percentage trend = Number.finite p /\ 5 <= p)
  /\ (Trend.direction trend = Trend.down ->
      Trend.percentage trend = Number.NaN
      \/ Trend.percentage trend = Number.positive_infinity
      \/ exists p, Trend.percentage trend = Number.finite p /\ 5 <= p)
  /\ ((2 <= length data)%nat ->
      (forall d, In d data -> whole (TrendData.value d) /\ 0 <= TrendData.value d) ->
      sum_reduce (map TrendData.value data) <= 9007199254740992 ->
      (first == 0 ->
       Trend.direction trend <> Trend.stable
       /\ (Trend.direction trend = Trend.up <-> 0 < second)
       /\ (forall p, Trend.percentage trend <> Number.finite p))
      /\ (~ first == 0 ->
          (Qabs change <= 4 -> Trend.direction trend = Trend.stable)
          /\ (6 <= change -> Trend.direction trend = Trend.up)
          /\ (change <= - (6) -> Trend.direction trend = Trend.down))).
Proof.
  intros first second change trend. subst trend. unfold calculateTrend.
  pose proof (fold_average (firstn (length data / 2) data)) as HF.
  pose proof (fold_average (skipn (length data / 2) data)) as HS.
  fold first in HF. fold second in HS.
  set (F := fold_left _ (firstn (length data / 2) data) 0 / _) in *.
  set (S := fold_left _ (skipn (length data / 2) data) 0 / _) in *.
  destruct (length data <? 2)%nat eqn:Hlen.
  { apply Nat.ltb_lt in Hlen. cbn [Trend.direction Trend.percentage].
    split; [reflexivity |].
    split; [intros _; exists 0; split; [reflexivity | reflexivity] |].
    split; [discriminate |]. split; [discriminate |]. intros Hlen'. lia. }
  apply Nat.ltb_ge in Hlen.
  split; [intros Hlen'; lia |].
  unfold Number.divide. destruct (Qeq_bool F 0) eqn:HF0.
  - apply Qeq_bool_iff in HF0.
    assert (Hfirst : first == 0) by (rewrite <- HF; exact HF0).
    destruct (Qgtb (S - F) 0) eqn:Hg; [| destruct (Qltb (S - F) 0) eqn:Hl];
      cbn [Number.times Number.abs Number.lt Number.gt Trend.direction Trend.percentage
           Qgtb Qltb];
      change (Qgtb 100 0) with true; cbv iota;
      cbn [Number.times Number.abs Number.lt Number.gt Trend.direction Trend.percentage].
    + apply Qgtb_gt in Hg.
      split; [discriminate |]. split; [now left |]. split; [discriminate |].
      intros _ _ _. split; [| intros Hne; contradiction].
      intros _. split; [discriminate |].
      split; [split; [intros _; lra | reflexivity] | discriminate].
    + apply Qltb_lt in Hl.
      split; [discriminate |]. split; [discriminate |].
      split; [intros _; right; now left |].
      intros _ _ _. split; [| intros Hne; contradiction].
      intros _. split; [discriminate |].
      split; [split; [discriminate | intros Hpos; lra] | discriminate].
    + apply Qgtb_ngt in Hg. apply Qltb_nlt in Hl.
      split; [discriminate |]. split; [discriminate |].
      split; [intros _; now left |].
      intros _ _ _. split; [| intros Hne; contradiction].
      intros _. split; [discriminate |].
      split; [split; [discriminate | intros Hpos; lra] | discriminate].
  - apply Qeq_bool_false in HF0.
    assert (Hfirst : ~ first == 0) by (rewrite <- HF; exact HF0).
    cbn [Number.times Number.abs Number.lt Number.gt].
    assert (Hc : (S - F) / F * 100 == change).
    { unfold change. rewrite HF, HS. reflexivity. }
    generalize dependent ((S - F) / F * 100). intros c Hc.
    destruct (Qabs_cases c) as [[Hsign Hval] | [Hsign Hval]];
      destruct (Qltb (Qabs c) 5) eqn:Hlt;
      [apply Qltb_lt in Hlt | apply Qltb_nlt in Hlt
       | apply Qltb_lt in Hlt | apply Qltb_nlt in Hlt].
    + cbn [Trend.percentage Trend.direction].
      split; [intros _; exists c; now split |].
      split; [discriminate |]. split; [discriminate |].
      intros _ _ _. split; [intros H0; contradiction |]. intros _.
      split; [reflexivity |]. split; intros Hm; lra.
    + assert (Hup : Qgtb c 0 = true) by (apply Qgtb_gt; lra). rewrite Hup.
      cbn [Trend.percentage Trend.direction].
      split; [discriminate |].
      split; [intros _; right; exists (Qabs c); split; [reflexivity | lra] |].
      split; [discriminate |].
      intros _ _ _. split; [intros H0; contradiction |]. intros _.
      split; [| split]; intros Hm; [| reflexivity |].
      * assert (Habs : Qabs c == Qabs change) by (rewrite Hc; reflexivity). lra.
      * lra.
    + cbn [Trend.percentage Trend.direction].
      split; [intros _; exists c; now split |].
      split; [discriminate |]. split; [discriminate |].
      intros _ _ _. split; [intros H0; contradiction |]. intros _.
      split; [reflexivity |]. split; intros Hm; lra.
    + assert (Hdown : Qgtb c 0 = false) by (apply Qgtb_ngt; lra). rewrite Hdown.
      cbn [Trend.percentage Trend.direction].
      split; [discriminate |]. split; [discriminate |].
      split; [intros _; right; right; exists (Qabs c); split; [reflexivity | lra] |].
      intros _ _ _. split; [intros H0; contradiction |]. intros _.
      split; [| split]; intros Hm; [| | reflexivity].
      * assert (Habs : Qabs c == Qabs change) by (rewrite Hc; reflexivity). lra.
      * lra.
Qed.

Lemma calculateTrend_direction_witness :
  Trend.direction (calculateTrend [point 0; point 0; point 0; point 0]) = Trend.down
  /\ Trend.direction (calculateTrend [point 10; point 10; point 12; point 10])
     = Trend.up.
Proof.
  split.
  - destruct (calculateTrend_direction [point 0; point 0; point 0; point 0])
      as (_ & _ & _ & _ & Hwhole).
    destruct Hwhole as [Hzero _]; [cbn; lia | | discriminate |].
    { intros d [<- | [<- | [<- | [<- | []]]]];
        (split; [exists 0%Z; reflexivity | discriminate]). }
    destruct Hzero as (Hstable & Hup & _); [reflexivity |].
    destruct (Trend.direction _); [| reflexivity | now destruct Hstable].
    exfalso. assert (Hpos : 0 < half_average [point 0; point 0]) by now apply Hup.
    vm_compute in Hpos. discriminate Hpos.
  - destruct (calculateTrend_direction [point 10; point 10; point 12; point 10])
      as (_ & _ & _ & _ & Hwhole).
    destruct Hwhole as [_ Hmargin]; [cbn; lia | | discriminate |].
    { intros d [<- | [<- | [<- | [<- | []]]]];
        (split; [(exists 10%Z; reflexivity) || (exists 12%Z; reflexivity)
                | discriminate]). }
    destruct Hmargin as (_ & Hup & _); [vm_compute; discriminate |].
    apply Hup. vm_compute. discriminate.
Defined.

(** ** A session held in one zone *)

Lemma percentage_low (t total T : Q) :
  0 <= t -> 0 < total -> (999 # 1000) * T <= total -> 4 * t <= T ->
  0 <= Math_round (fl (fl (t / total) * 100))
  /\ Math_round (fl (fl (t / total) * 100)) <= 25.
Proof.
  intros Ht Hpos Htotal Hshare.
  destruct (rounded_share_between t total 0 (250 # 999)) as [Hs Hs'];
    [lra | exact Hpos | lra | lra | lra |].
  generalize dependent (fl (fl (t / total) * 100)). intros s Hs Hs'.
  split.
  - change 0 with (Math_round 0) at 1. apply Math_round_le. lra.
  - assert (H25 : Math_round (254 # 10) == 25) by reflexivity.
    rewrite <- H25. apply Math_round_le. lra.
Qed.

Lemma percentage_high (t total T : Q) :
  0 <= t -> 0 < total -> (999 # 1000) * T <= total -> total <= (1001 # 1000) * T ->
  t <= T -> 3 * T <= 4 * t ->
  75 <= Math_round (fl (fl (t / total) * 100)).
Proof.
  intros Ht Hpos Hlow Htotal Hle Hshare.
  destruct (rounded_share_between t total (750 # 1001) (1000 # 999))
    as [Hs _]; [lra | exact Hpos | lra | lra | lra |].
  generalize dependent (fl (fl (t / total) * 100)). intros s Hs.
  assert (H75 : Math_round (149 # 2) == 75) by reflexivity.
  rewrite <- H75. apply Math_round_le. lra.
Qed.

Ltac decide_comparisons :=
  repeat match goal with
    | |- context [Qgtb ?x ?y] =>
        lazymatch x with
        | context [Qgtb _ _] => fail
        | _ => lazymatch y with
               | context [Qgtb _ _] => fail
               | _ => let E := fresh "E" in
                      destruct (Qgtb x y) eqn:E;
                      [apply Qgtb_gt in E | apply Qgtb_ngt in E];
                      cbn [andb orb fst snd]; try (exfalso; lra)
               end
        end
    end.

(** X22. A session that spends at least three quarters of its recorded time
    in one zone is classified by that zone (recovery for zone 1, endurance
    for zone 2, tempo for zone 3, threshold for zone 4, interval for zone
    5), and that zone is its dominant zone. *)
Theorem three_quarters_in_one_zone (d : ZoneDistribution.t) (z : ZoneNumber) :
  (forall v, In v (distribution_values d) -> 0 <= v) ->
  0 < sum_reduce (distribution_values d) ->
  (3 # 4) * sum_reduce (distribution_values d) <= zone_time d z ->
  determineTrainingType (calculateZonePercentages d) = training_of_zone z
  /\ getDominantZone d = Some z.
Proof.
  intros Hnonneg Hpos Hshare.
  destruct d as [t1 t2 t3 t4 t5 u].
  assert (H1 : 0 <= t1) by (apply Hnonneg; cbn; tauto).
  assert (H2 : 0 <= t2) by (apply Hnonneg; cbn; tauto).
  assert (H3 : 0 <= t3) by (apply Hnonneg; cbn; tauto).
  assert (H4 : 0 <= t4) by (apply Hnonneg; cbn; tauto).
  assert (H5 : 0 <= t5) by (apply Hnonneg; cbn; tauto).
  assert (H6 : 0 <= u) by (apply Hnonneg; cbn; tauto).
  clear Hnonneg.
  assert (HT : sum_reduce (distribution_values (ZoneDistribution.mk t1 t2 t3 t4 t5 u))
               == t1 + t2 + t3 + t4 + t5 + u).
  { unfold sum_reduce, distribution_values. cbn. ring. }
  rewrite HT in Hpos, Hshare. clear HT.
  set (T := t1 + t2 + t3 + t4 + t5 + u) in *.
  assert (HTdef : T == t1 + t2 + t3 + t4 + t5 + u) by reflexivity.
  destruct (rounded_total t1 t2 t3 t4 t5 u H1 H2 H3 H4 H5 H6) as [Hlow Hup].
  fold T in Hlow, Hup. clearbody T.
  unfold calculateZonePercentages, distribution_values.
  cbn [ZoneDistribution.zone1 ZoneDistribution.zone2
       ZoneDistribution.zone3 ZoneDistribution.zone4 ZoneDistribution.zone5
       ZoneDistribution.unknown].
  generalize dependent (fold_left (fun sum time => fl (sum + time))
                          [t1; t2; t3; t4; t5; u] 0).
  intros total Hlow Hup.
  assert (Htotal : 0 < total) by lra.
  assert (Hzero : Qeq_bool total 0 = false) by (apply Qeq_bool_false; lra).
  rewrite Hzero. unfold determineTrainingType, getDominantZone.
  cbn [ZonePercentages.zone1 ZonePercentages.zone2 ZonePercentages.zone3
       ZonePercentages.zone4 ZonePercentages.zone5 ZonePercentages.unknown
       ZoneDistribution.zone1 ZoneDistribution.zone2 ZoneDistribution.zone3
       ZoneDistribution.zone4 ZoneDistribution.zone5 ZoneDistribution.unknown
       fold_left fst snd].
  destruct z;
    cbn [zone_time training_of_zone ZoneDistribution.zone1 ZoneDistribution.zone2
         ZoneDistribution.zone3 ZoneDistribution.zone4 ZoneDistribution.zone5] in *.
  all: try pose proof (percentage_high t1 total T H1 Htotal Hlow Hup ltac:(lra) ltac:(lra)) as P1.
  all: try pose proof (percentage_high t2 total T H2 Htotal Hlow Hup ltac:(lra) ltac:(lra)) as P2.
  all: try pose proof (percentage_high t3 total T H3 Htotal Hlow Hup ltac:(lra) ltac:(lra)) as P3.
  all: try pose proof (percentage_high t4 total T H4 Htotal Hlow Hup ltac:(lra) ltac:(lra)) as P4.
  all: try pose proof (percentage_high t5 total T H5 Htotal Hlow Hup ltac:(lra) ltac:(lra)) as P5.
  all: try pose proof (percentage_low t1 total T H1 Htotal Hlow ltac:(lra)) as [L1 U1].
  all: try pose proof (percentage_low t2 total T H2 Htotal Hlow ltac:(lra)) as [L2 U2].
  all: try pose proof (percentage_low t3 total T H3 Htotal Hlow ltac:(lra)) as [L3 U3].
  all: try pose proof (percentage_low t4 total T H4 Htotal Hlow ltac:(lra)) as [L4 U4].
  all: try pose proof (percentage_low t5 total T H5 Htotal Hlow ltac:(lra)) as [L5 U5].
  all: generalize dependent (Math_round (fl (fl (t1 / total) * 100))); intros p1; intros.
  all: generalize dependent (Math_round (fl (fl (t2 / total) * 100))); intros p2; intros.
  all: generalize dependent (Math_round (fl (fl (t3 / total) * 100))); intros p3; intros.
  all: generalize dependent (Math_round (fl (fl (t4 / total) * 100))); intros p4; intros.
  all: generalize dependent (Math_round (fl (fl (t5 / total) * 100))); intros p5; intros.
  all: split; decide_comparisons; reflexivity.
Qed.

Lemma three_quarters_in_one_zone_witness :
  determineTrainingType
    (calculateZonePercentages
       {| ZoneDistribution.zone1 := 100; ZoneDistribution.zone2 := 200;
          ZoneDistribution.zone3 := 200; ZoneDistribution.zone4 := 3000;
          ZoneDistribution.zone5 := 400; ZoneDistribution.unknown := 100 |})
  = threshold.
Proof.
  apply (three_quarters_in_one_zone
           {| ZoneDistribution.zone1 := 100; ZoneDistribution.zone2 := 200;
              ZoneDistribution.zone3 := 200; ZoneDistribution.zone4 := 3000;
              ZoneDistribution.zone5 := 400; ZoneDistribution.unknown := 100 |} Zone4).
  - intros v Hv. cbn in Hv.
    repeat (destruct Hv as [<- | Hv]; [discriminate |]). destruct Hv.
  - reflexivity.
  - vm_compute. discriminate.
Defined.

(** ** Groups of activities *)

Lemma grouped_push_new (key : string) (a : Activity.t)
    (G : list (string * list Activity.t)) :
  ~ In key (map fst G) -> grouped_push key a G = G ++ [(key, [a])].
Proof.
  induction G as [| [k g] G IH]; cbn; intros Hnew; [reflexivity |].
  rewrite bool_decide_eq_false_2 by (intros ->; apply Hnew; now left).
  f_equal. apply IH. intros Hin. apply Hnew. now right.
Qed.

Lemma grouped_push_keys (key : string) (a : Activity.t)
    (G : list (string * list Activity.t)) :
  In key (map fst G) -> map fst (grouped_push key a G) = map fst G.
Proof.
  induction G as [| [k g] G IH]; cbn; intros Hin; [destruct Hin |].
  destruct (bool_decide (k = key)) eqn:E; [reflexivity |].
  apply bool_decide_eq_false in E. cbn. f_equal. apply IH.
  destruct Hin as [Hk | Hin]; [contradiction | exact Hin].
Qed.

Lemma grouped_push_entries (key : string) (a : Activity.t)
    (G : list (string * list Activity.t)) :
  List.NoDup (map fst G) -> In key (map fst G) ->
  forall k' g',
    In (k', g') (grouped_push key a G)
    <-> (k' = key /\ exists g, In (key, g) G /\ g' = g ++ [a])
        \/ (k' <> key /\ In (k', g') G).
Proof.
  induction G as [| [k g] G IH]; cbn [map fst]; intros Hnodup Hin k' g';
    [destruct Hin |].
  apply List.NoDup_cons_iff in Hnodup. destruct Hnodup as [Hfresh Hnodup].
  cbn [grouped_push].
  destruct (bool_decide (k = key)) eqn:E.
  - apply bool_decide_eq_true in E. subst k. cbn [In]. split.
    + intros [[= <- <-] | Hold].
      * left. split; [reflexivity |]. exists g. split; [now left | reflexivity].
      * right. split; [| now right].
        intros ->. apply Hfresh. now apply (in_map fst) in Hold.
    + intros [[-> (g0 & [[= <-] | Hold] & ->)] | [Hne [[= <- <-] | Hold]]].
      * now left.
      * exfalso. apply Hfresh. now apply (in_map fst) in Hold.
      * contradiction.
      * now right.
  - apply bool_decide_eq_false in E.
    assert (Hin' : In key (map fst G)) by (destruct Hin; [contradiction | assumption]).
    cbn [In]. rewrite (IH Hnodup Hin' k' g'). split.
    + intros [[= <- <-] | [[-> (g0 & Hold & ->)] | [Hne Hold]]].
      * right. split; [exact E | now left].
      * left. split; [reflexivity |]. exists g0. split; [now right | reflexivity].
      * right. split; [exact Hne | now right].
    + intros [[-> (g0 & [[= Hk _] | Hold] & ->)] | [Hne [[= <- <-] | Hold]]].
      * contradiction.
      * right. left. split; [reflexivity |]. now exists g0.
      * now left.
      * right. right. now split.
Qed.

Lemma with_key_snoc (key_of : Activity.t -> string) (key : string)
    (acts : list Activity.t) (a : Activity.t) :
  with_key key_of key (acts ++ [a])
  = with_key key_of key acts ++ (if bool_decide (key_of a = key) then [a] else []).
Proof. unfold with_key. rewrite List.filter_app. reflexivity. Qed.

Lemma with_key_nonempty (key_of : Activity.t -> string) (key : string)
    (acts : list Activity.t) :
  with_key key_of key acts <> [] <-> In key (map key_of acts).
Proof.
  unfold with_key. induction acts as [| a acts IH]; cbn; [tauto |].
  destruct (bool_decide (key_of a = key)) eqn:E.
  - apply bool_decide_eq_true in E. split; [intros _; now left | discriminate].
  - apply bool_decide_eq_false in E. rewrite IH. tauto.
Qed.

(** The groups after each activity: distinct keys, and under each key the
    activities of that key, of which there is at least one. *)
Lemma group_by_entries (key_of : Activity.t -> string) (activities : list Activity.t) :
  List.NoDup (map fst (group_by key_of activities))
  /\ forall k g,
       In (k, g) (group_by key_of activities)
       <-> g = with_key key_of k activities /\ g <> [].
Proof.
  unfold group_by.
  induction activities as [| a acts IH] using rev_ind.
  - cbn. split; [constructor |]. intros k g. split; [intros [] | intros [-> Hne]].
    now destruct Hne.
  - rewrite fold_left_app. cbn [fold_left].
    set (G := fold_left _ acts []) in *. destruct IH as [Hnodup Hentries].
    destruct (in_dec string_dec (key_of a) (map fst G)) as [Hin | Hnew].
    + split; [now rewrite grouped_push_keys |].
      intros k g. rewrite (grouped_push_entries _ _ _ Hnodup Hin), with_key_snoc.
      split.
      * intros [[-> (g0 & Hold & ->)] | [Hne Hold]].
        -- apply Hentries in Hold. destruct Hold as [-> _].
           rewrite bool_decide_eq_true_2 by reflexivity.
           split; [reflexivity |]. intros Happ. apply app_eq_nil in Happ.
           now destruct Happ.
        -- apply Hentries in Hold. destruct Hold as [-> Hnonempty].
           rewrite bool_decide_eq_false_2 by congruence.
           now rewrite app_nil_r.
      * intros [-> Hnonempty].
        destruct (bool_decide (key_of a = k)) eqn:E.
        -- apply bool_decide_eq_true in E. subst k. left. split; [reflexivity |].
           apply in_map_iff in Hin. destruct Hin as ([k0 g0] & Hk & Hold).
           cbn in Hk. subst k0. exists g0. split; [exact Hold |].
           apply Hentries in Hold. now destruct Hold as [-> _].
        -- apply bool_decide_eq_false in E. right. split; [congruence |].
           rewrite app_nil_r in *. now apply Hentries.
    + rewrite grouped_push_new by exact Hnew.
      assert (Hempty : with_key key_of (key_of a) acts = []).
      { destruct (with_key key_of (key_of a) acts) as [| b l] eqn:Hw; [reflexivity |].
        exfalso. apply Hnew.
        assert (Hold : In (key_of a, b :: l) G) by (apply Hentries; now rewrite Hw).
        now apply (in_map fst) in Hold. }
      split.
      * rewrite map_app. cbn. apply NoDup_ListNoDup, NoDup_app.
        split; [now apply NoDup_ListNoDup |].
        split; [| apply NoDup_singleton].
        intros k Hk Hk'. apply list_elem_of_In in Hk. apply list_elem_of_In in Hk'.
        destruct Hk' as [<- | []]. contradiction.
      * intros k g. rewrite in_app_iff, with_key_snoc. cbn [In]. split.
        -- intros [Hold | [[= <- <-] | []]].
           ++ assert (Hk : k <> key_of a).
              { intros ->. apply Hnew. now apply (in_map fst) in Hold. }
              apply Hentries in Hold. destruct Hold as [-> Hnonempty].
              rewrite bool_decide_eq_false_2 by congruence. now rewrite app_nil_r.
           ++ rewrite bool_decide_eq_true_2 by reflexivity. rewrite Hempty.
              split; [reflexivity | discriminate].
        -- intros [-> Hnonempty].
           destruct (bool_decide (key_of a = k)) eqn:E.
           ++ apply bool_decide_eq_true in E. subst k. rewrite Hempty. right. now left.
           ++ left. rewrite app_nil_r in *. now apply Hentries.
Qed.

(** X23. Grouping by week, month, year or day is a partition by key: the
    keys of the groups are pairwise distinct and are exactly the keys of the
    activities, and the group of a key holds all the activities of that
    key, in their order, and is never empty. *)
Theorem group_by_partition (key_of : Activity.t -> string)
    (activities : list Activity.t) :
  let grouped := group_by key_of activities in
  List.NoDup (map fst grouped)
  /\ (forall k, In k (map fst grouped) <-> In k (map key_of activities))
  /\ (forall k g, In (k, g) grouped <-> g = with_key key_of k activities /\ g <> []).
Proof.
  intros grouped. subst grouped.
  destruct (group_by_entries key_of activities) as [Hnodup Hentries].
  split; [exact Hnodup |]. split; [| exact Hentries].
  intros k. rewrite <- with_key_nonempty. split.
  - intros Hin. apply in_map_iff in Hin. destruct Hin as ([k0 g] & Hk & Hin).
    cbn in Hk. subst k0. apply Hentries in Hin. now destruct Hin as [-> Hne].
  - intros Hne. apply in_map_iff. exists (k, with_key key_of k activities).
    split; [reflexivity |]. now apply Hentries.
Qed.

Lemma group_by_partition_witness :
  In ("1970-01-01", [activity_at 0 1000; activity_at 1000 3000])
    (group_by (fun a => @day_key two_periods (Activity.startTime a))
       [activity_at 0 1000; activity_at day_ms 5000; activity_at 1000 3000]).
Proof.
  apply (group_by_partition (fun a => @day_key two_periods (Activity.startTime a))
           [activity_at 0 1000; activity_at day_ms 5000; activity_at 1000 3000]).
  split; [reflexivity | discriminate].
Defined.

(** ** Averages by week and by month *)











(** ** The heatmap *)

Lemma in_insert_by_date (e x : ActivityHeatmap.t) (l : list ActivityHeatmap.t) :
  In e (insert_by_date x l) <-> e = x \/ In e l.
Proof.
  induction l as [| y l IH]; cbn; [intuition congruence |].
  destruct (ActivityHeatmap.date x <=? ActivityHeatmap.date y)%Z; cbn;
    [| rewrite IH]; intuition congruence.
Qed.

Lemma in_sort_by_date (e : ActivityHeatmap.t) (l : list ActivityHeatmap.t) :
  In e (sort_by_date l) <-> In e l.
Proof.
  unfold sort_by_date. induction l as [| x l IH]; cbn; [tauto |].
  rewrite in_insert_by_date, IH. intuition congruence.
Qed.

Lemma insert_by_date_ascending (x : ActivityHeatmap.t) (l : list ActivityHeatmap.t) :
  by_date (map ActivityHeatmap.date l) ->
  by_date (map ActivityHeatmap.date (insert_by_date x l)).
Proof.
  induction l as [| y l IH]; [intros _; exact I |].
  intros Hsorted. cbn [insert_by_date].
  destruct (ActivityHeatmap.date x <=? ActivityHeatmap.date y)%Z eqn:E.
  - apply Z.leb_le in E. cbn [map by_date]. split; [exact E | exact Hsorted].
  - apply Z.leb_gt in E. destruct l as [| z l].
    + cbn. split; [lia | exact I].
    + cbn [map by_date] in Hsorted. destruct Hsorted as [Hyz Hrest].
      specialize (IH Hrest). cbn [insert_by_date] in IH |- *.
      destruct (ActivityHeatmap.date x <=? ActivityHeatmap.date z)%Z eqn:E';
        cbn [map by_date] in IH |- *.
      * apply Z.leb_le in E'. split; [lia |]. exact IH.
      * split; [exact Hyz | exact IH].
Qed.

Lemma sort_by_date_ascending (l : list ActivityHeatmap.t) :
  by_date (map ActivityHeatmap.date (sort_by_date l)).
Proof.
  unfold sort_by_date. induction l as [| x l IH]; [exact I |].
  cbn [fold_right]. now apply insert_by_date_ascending.
Qed.

Lemma fold_sum_nonneg (f : Activity.t -> Q) (l : list Activity.t) :
  (forall a, In a l -> 0 <= f a) -> 0 <= fold_left (fun sum a => sum + f a) l 0.
Proof.
  intros Hnonneg. rewrite fold_sum_map, Qplus_0_l.
  induction l as [| a l IH]; [apply Qle_refl |].
  cbn [map]. rewrite sum_reduce_cons.
  assert (0 <= f a) by (apply Hnonneg; now left).
  assert (0 <= sum_reduce (map f l)) by (apply IH; intros b Hb; apply Hnonneg; now right).
  lra.
Qed.

(** X25. The heatmap of the days.  Every entry stands for a day in the date
    range on which there is an activity: it counts the activities of that
    day (at least one) and totals their distances.  When no activity has a
    negative distance, the intensity of every entry lies between 0 and 1.
    The entries come in ascending order of date. *)
Theorem getActivityHeatmap_entries `{DateKeys} (activities : list Activity.t)
    (dateRange : DateRange.t) :
  (forall a, In a activities -> 0 <= Activity.distanceMeters a) ->
  by_date (map ActivityHeatmap.date (getActivityHeatmap activities dateRange))
  /\ forall entry, In entry (getActivityHeatmap activities dateRange) ->
       0 <= ActivityHeatmap.intensity entry /\ ActivityHeatmap.intensity entry <= 1
       /\ 1 <= ActivityHeatmap.count entry
       /\ exists day s e,
            In day (map (fun a => day_key (Activity.startTime a)) activities)
            /\ parse_day day = Some (ActivityHeatmap.date entry)
            /\ DateRange.start dateRange = Some s /\ DateRange.end_ dateRange = Some e
            /\ (s <= ActivityHeatmap.date entry <= e)%Z
            /\ ActivityHeatmap.count entry
               = len (with_key (fun a => day_key (Activity.startTime a)) day activities)
            /\ ActivityHeatmap.distance entry
               == sum_reduce
                    (map Activity.distanceMeters
                       (with_key (fun a => day_key (Activity.startTime a)) day activities)).
Proof.
  intros Hnonneg. unfold getActivityHeatmap. split; [apply sort_by_date_ascending |].
  intros entry Hentry. apply in_sort_by_date, in_flat_map in Hentry.
  destruct Hentry as ([day g] & Hgroup & Hentry).
  unfold groupActivitiesByDay in *.
  set (key_of := fun a => day_key (Activity.startTime a)) in *.
  pose proof (proj2 (group_by_entries key_of activities) day g) as Hg.
  apply Hg in Hgroup as Hspec. destruct Hspec as [Hmembers Hnonempty].
  destruct (parse_day day) as [date |] eqn:Hparse; [| destruct Hentry].
  destruct (DateRange.start dateRange) as [s |] eqn:Hs; [| destruct Hentry].
  destruct (DateRange.end_ dateRange) as [e |] eqn:He; [| destruct Hentry].
  destruct ((s <=? date)%Z && (date <=? e)%Z) eqn:Hrange; [| destruct Hentry].
  apply andb_true_iff in Hrange. rewrite !Z.leb_le in Hrange.
  destruct Hentry as [<- | []].
  cbn [ActivityHeatmap.date ActivityHeatmap.count ActivityHeatmap.distance
       ActivityHeatmap.intensity].
  set (total := fun acts : list Activity.t =>
                  fold_left (fun sum a => sum + Activity.distanceMeters a) acts 0).
  assert (Hsub : forall a, In a g -> In a activities).
  { intros a Ha. rewrite Hmembers in Ha. unfold with_key in Ha.
    now apply List.filter_In in Ha. }
  assert (Htotal : 0 <= total g).
  { apply fold_sum_nonneg. intros a Ha. now apply Hnonneg, Hsub. }
  assert (Hin : In (total g) (map total (map snd (group_by key_of activities)))).
  { apply in_map. now apply (in_map snd) in Hgroup. }
  assert (Hintensity :
    0 <= match Math_max (map total (map snd (group_by key_of activities))) with
         | Some m => if Qgtb m 0 then total g / m else 0
         | None => 0
         end
    /\ match Math_max (map total (map snd (group_by key_of activities))) with
       | Some m => if Qgtb m 0 then total g / m else 0
       | None => 0
       end <= 1).
  { destruct (map total (map snd (group_by key_of activities))) as [| t ts];
      [destruct Hin |].
    cbn [Math_max]. pose proof (fold_Qmax_upper ts t (total g) Hin) as Hmax.
    destruct (Qgtb (fold_left Qmax ts t) 0) eqn:Hpos; [| split; lra].
    apply Qgtb_gt in Hpos. split.
    - apply Qle_shift_div_l; [exact Hpos | lra].
    - apply Qle_shift_div_r; [exact Hpos | lra]. }
  split; [apply Hintensity |]. split; [apply Hintensity |]. split.
  - destruct g as [| a g]; [now destruct Hnonempty |].
    rewrite len_cons. pose proof (len_nonneg g). lra.
  - exists day, s, e. split.
    { apply with_key_nonempty. now rewrite <- Hmembers. }
    split; [exact Hparse |]. split; [reflexivity |]. split; [reflexivity |].
    split; [exact Hrange |]. split; [now rewrite Hmembers |].
    rewrite <- Hmembers. fold (total g). unfold total.
    rewrite fold_sum_map. lra.
Qed.

Lemma getActivityHeatmap_entries_witness :
  map ActivityHeatmap.intensity
    (@getActivityHeatmap two_periods
       [activity_at day_ms 5000; activity_at 0 1000; activity_at 1000 3000]
       {| DateRange.start := Some 0%Z; DateRange.end_ := Some (7 * day_ms)%Z |})
  = [4000 # 5000; 5000 # 5000]
  /\ forall entry,
       In entry
         (@getActivityHeatmap two_periods
            [activity_at day_ms 5000; activity_at 0 1000; activity_at 1000 3000]
            {| DateRange.start := Some 0%Z; DateRange.end_ := Some (7 * day_ms)%Z |}) ->
       ActivityHeatmap.intensity entry <= 1.
Proof.
  split; [vm_compute; reflexivity |].
  intros entry Hentry.
  apply (@getActivityHeatmap_entries two_periods
           [activity_at day_ms 5000; activity_at 0 1000; activity_at 1000 3000]
           {| DateRange.start := Some 0%Z; DateRange.end_ := Some (7 * day_ms)%Z |});
    [| exact Hentry].
  intros a Ha. cbn in Ha.
  repeat (destruct Ha as [<- | Ha]; [discriminate |]). destruct Ha.
Defined.

(** ** Zones from the heart-rate reserve *)




(** ** Hours, minutes and seconds *)

Lemma remainder_nonneg (x : Q) (y : Z) :
  0 <= x -> (0 < y)%Z ->
  let q := Qfloor (x / inject_Z y) in
  remainder x (inject_Z y) == x - inject_Z y * inject_Z q
  /\ 0 <= x - inject_Z y * inject_Z q
  /\ x - inject_Z y * inject_Z q < inject_Z y.
Proof.
  intros Hx Hy q. subst q.
  assert (Hypos : 0 < inject_Z y) by (change 0 with (inject_Z 0); now rewrite <- Zlt_Qlt).
  assert (Hquot : 0 <= x / inject_Z y) by (apply Qle_shift_div_l; lra).
  unfold remainder, truncate. rewrite (proj2 (Qle_bool_iff 0 _) Hquot).
  split; [reflexivity |].
  pose proof (Qfloor_le (x / inject_Z y)) as Hlow.
  pose proof (Qlt_floor (x / inject_Z y)) as Hup. rewrite inject_Z_plus in Hup.
  set (f := inject_Z (Qfloor (x / inject_Z y))) in *.
  assert (Hx' : x == x / inject_Z y * inject_Z y) by (field; lra).
  set (r := x / inject_Z y) in *.
  assert (H1 : f * inject_Z y <= r * inject_Z y)
    by (apply Qmult_le_compat_r; lra).
  assert (H2 : r * inject_Z y < (f + inject_Z 1) * inject_Z y)
    by (apply Qmult_lt_compat_r; lra).
  change (inject_Z 1) with 1 in H2.
  split; lra.
Qed.

(** X27. The display of a duration.  For a duration that is not negative
    and below 2^53 seconds (up to there the quotient by 3600 is rounded
    down to the same whole number as the exact quotient), [formatDuration]
    and [formatTime] print the hours, minutes and seconds of its whole
    seconds: three whole numbers h < 2501999792984, m < 60 and s < 60 with
    h * 3600 + m * 60 + s the duration rounded down.  [formatDuration] shows
    the hours when there is at least one and always the minutes;
    [formatTime] leaves out the leading units that are zero. *)
Theorem formatDuration_parts (seconds : Q) :
  0 <= seconds -> seconds < 9007199254740992 ->
  exists h m s : Z,
    (0 <= h < 2501999792984 /\ 0 <= m < 60 /\ 0 <= s < 60
     /\ h * 3600 + m * 60 + s = Qfloor seconds)%Z
    /\ formatDuration seconds
       = (if (0 <? h)%Z
          then text h ++ "h " ++ padStart2 (text m) ++ "m " ++ padStart2 (text s) ++ "s"
          else text m ++ "m " ++ padStart2 (text s) ++ "s")%string
    /\ formatTime seconds
       = (if (0 <? h)%Z
          then text h ++ "h " ++ text m ++ "min " ++ text s ++ "s"
          else if (0 <? m)%Z
          then text m ++ "min " ++ text s ++ "s"
          else text s ++ "s")%string.
Proof.
  intros Hseconds Hbound.
  exists (Qfloor (seconds / 3600)), (Qfloor (remainder seconds 3600 / 60)),
    (Qfloor (remainder seconds 60)).
  assert (Hgt : forall z : Z, Qgtb (inject_Z z) 0 = (0 <? z)%Z).
  { intros z. destruct (0 <? z)%Z eqn:E.
    - apply Z.ltb_lt in E. apply Qgtb_gt. change 0 with (inject_Z 0).
      now rewrite <- Zlt_Qlt.
    - apply Z.ltb_ge in E. apply Qgtb_ngt. change 0 with (inject_Z 0).
      now rewrite <- Zle_Qle. }
  split; [| split; unfold formatDuration, formatTime, Math_floor, text;
                   rewrite !Hgt; reflexivity].
  destruct (remainder_nonneg seconds 3600 Hseconds eq_refl) as (Hr1 & Hr1low & Hr1up).
  destruct (remainder_nonneg seconds 60 Hseconds eq_refl) as (Hr2 & Hr2low & Hr2up).
  change (inject_Z 3600) with 3600 in *. change (inject_Z 60) with 60 in *.
  set (h := Qfloor (seconds / 3600)) in *.
  set (f := Qfloor (seconds / 60)) in *.
  rewrite (Qfloor_comp _ _ Hr2).
  assert (Hm : Qfloor (remainder seconds 3600 / 60)
               = Qfloor ((seconds - 3600 * inject_Z h) / 60)).
  { apply Qfloor_comp. now rewrite Hr1. }
  rewrite Hm. clear Hm Hr1 Hr2.
  set (r1 := seconds - 3600 * inject_Z h) in *.
  set (r2 := seconds - 60 * inject_Z f) in *.
  pose proof (Qfloor_le (r1 / 60)) as Hmlow.
  pose proof (Qlt_floor (r1 / 60)) as Hmup. rewrite inject_Z_plus in Hmup.
  pose proof (Qfloor_le r2) as Hslow.
  pose proof (Qlt_floor r2) as Hsup. rewrite inject_Z_plus in Hsup.
  pose proof (Qfloor_le (seconds / 3600)) as Hhlow. fold h in Hhlow.
  set (m := Qfloor (r1 / 60)) in *. set (s := Qfloor r2) in *.
  change (inject_Z 1) with 1 in *.
  assert (Hquot : r1 / 60 == r1 * (1 # 60)) by (field; lra).
  rewrite Hquot in Hmlow, Hmup.
  assert (Hh : (0 <= h < 2501999792984)%Z).
  { split.
    - assert (Hq : 0 <= seconds / 3600) by (apply Qle_shift_div_l; lra).
      apply (Qfloor_resp_le 0) in Hq. exact Hq.
    - assert (Hq : seconds / 3600 < 2501999792984) by (apply Qlt_shift_div_r; lra).
      assert (Hlt : inject_Z h < inject_Z 2501999792984)
        by (change (inject_Z 2501999792984) with 2501999792984; lra).
      now rewrite <- Zlt_Qlt in Hlt. }
  assert (Hm0 : (0 <= m < 60)%Z).
  { split.
    - assert (Hlt : inject_Z (-1) < inject_Z m) by (change (inject_Z (-1)) with (-1); lra).
      rewrite <- Zlt_Qlt in Hlt. lia.
    - assert (Hlt : inject_Z m < inject_Z 60) by (change (inject_Z 60) with 60; lra).
      now rewrite <- Zlt_Qlt in Hlt. }
  assert (Hs0 : (0 <= s < 60)%Z).
  { split.
    - assert (Hlt : inject_Z (-1) < inject_Z s) by (change (inject_Z (-1)) with (-1); lra).
      rewrite <- Zlt_Qlt in Hlt. lia.
    - assert (Hlt : inject_Z s < inject_Z 60) by (change (inject_Z 60) with 60; lra).
      now rewrite <- Zlt_Qlt in Hlt. }
  assert (Hf : f = (60 * h + m)%Z).
  { apply Qfloor_unique; rewrite inject_Z_plus, inject_Z_mult;
      change (inject_Z 60) with 60.
    - apply Qle_shift_div_l; [lra |]. unfold r1 in *. lra.
    - apply Qlt_shift_div_r; [lra |]. unfold r1 in *. lra. }
  split; [exact Hh |]. split; [exact Hm0 |]. split; [exact Hs0 |].
  symmetry. apply Qfloor_unique;
    rewrite !inject_Z_plus, !inject_Z_mult;
    change (inject_Z 3600) with 3600; change (inject_Z 60) with 60;
    unfold r2 in *; rewrite Hf, inject_Z_plus, inject_Z_mult in Hslow, Hsup;
    change (inject_Z 60) with 60 in Hslow, Hsup; lra.
Qed.

Lemma formatDuration_parts_witness :
  formatDuration (7384 + (1 # 2)) = "2h 03m 04s" /\ formatTime 184 = "3min 4s"
  /\ exists h m s : Z,
       (h * 3600 + m * 60 + s = Qfloor (7384 + (1 # 2)))%Z
       /\ formatDuration (7384 + (1 # 2))
          = (if (0 <? h)%Z
             then text h ++ "h " ++ padStart2 (text m) ++ "m " ++ padStart2 (text s) ++ "s"
             else text m ++ "m " ++ padStart2 (text s) ++ "s")%string.
Proof.
  split; [reflexivity |]. split; [reflexivity |].
  destruct (formatDuration_parts (7384 + (1 # 2))) as (h & m & s & Hparts & Hd & _);
    [vm_compute; discriminate | vm_compute; reflexivity |].
  exists h, m, s. split; [apply Hparts | exact Hd].
Defined.
